(** * Ollama generation module for the Float WASM host

    A shallow embedding of the [generate_ollama] entry point and its helpers,
    as written in [src/main.go] and in the validating variant that is the
    first Go file of [src/unnamed/part_000] (lines 1-422).

    The module owns no I/O.  Everything observable goes through four imported
    host functions ([float_log], [float_http_request], [float_read_file],
    [float_write_file]); here a program is a function of a host oracle that
    returns the events it caused, in order.  The entry point is modelled from
    the input bytes onwards, i.e. after
    [copy(inputBytes, mem[inputPtr : inputPtr+inputLen])].

    [encoding/json] is not part of the repository: it is an interface
    ([Codec]) the programs are parametric in.  [Json] gives one executable
    instance, for a fragment of JSON, on which the scenarios are run.

    The two other Go files of [src/unnamed/part_000] repeat the pipeline of
    [main.go] with a reply retrieval of their own: one defaults the endpoint
    and returns a fixed reply ([Defaulting]), one probes several reply paths
    ([Probing]). *)

From Stdlib Require Import ZArith NArith String Ascii List Floats Uint63 Lia DecimalString.
From stdpp Require Import base strings gmap list.

Set Warnings "-register-all".
Open Scope string_scope.

(** ** Go values *)

(** A Go [error] is modelled by its message ([err.Error()], which is also
    what the verb [%v] prints). *)
Definition Error := string.

(** A Go [(T, error)] pair, of which exactly one side is meaningful. *)
Inductive result (A : Type) : Type :=
| Ok (a : A)
| Err (e : Error).
Arguments Ok {A} a.
Arguments Err {A} e.

(** What [json.Unmarshal] stores behind an [interface{}]: nil, bool, float64,
    string, []interface{} and map[string]interface{} (keys kept in the order
    they were read). *)
Inductive any : Type :=
| ANil
| ABool (b : bool)
| AFloat (f : float)
| AString (s : string)
| AArray (l : list any)
| AObject (kvs : list (string * any)).

(** The dynamic types this program itself stores in [OllamaOutput.Metadata]
    (a [map[string]interface{}]): string, int, bool and *bool. *)
Inductive metaval : Type :=
| MString (s : string)
| MInt (n : Z)
| MBool (b : bool)
| MBoolPtr (p : option bool).

(** Bytes that a string literal of this file cannot spell. *)
Definition dq : string := String "034" EmptyString.   (* the double quote *)
Definition tab : string := String "009" EmptyString.
Definition nl : string := String "010" EmptyString.
Definition cr : string := String "013" EmptyString.

(** [%d] of an unsigned value. *)
Definition dec (n : N) : string := NilEmpty.string_of_uint (N.to_uint n).

(** [len(s)] of a Go string: its number of bytes. *)
Definition len (s : string) : N := N.of_nat (String.length s).

(** [strings.HasPrefix(s, prefix)]. *)
Definition HasPrefix (s prefix : string) : bool := String.prefix prefix s.

(** [strings.Contains(s, substr)]: [substr] occurs at some offset of [s]. *)
Fixpoint Contains (s substr : string) : bool :=
  String.prefix substr s ||
  match s with
  | EmptyString => false
  | String _ rest => Contains rest substr
  end.

(** Membership of a byte in a cutset. *)
Fixpoint in_cutset (c : ascii) (cutset : string) : bool :=
  match cutset with
  | EmptyString => false
  | String d rest => Ascii.eqb c d || in_cutset c rest
  end.

(** [strings.TrimRight(s, cutset)] for an ASCII cutset: every trailing byte
    that belongs to [cutset] is removed (not only the last one). *)
Fixpoint TrimRight (s cutset : string) : string :=
  match s with
  | EmptyString => EmptyString
  | String c rest =>
      match TrimRight rest cutset with
      | EmptyString => if in_cutset c cutset then EmptyString else String c EmptyString
      | String _ _ as rest' => String c rest'
      end
  end.

(** ** The structs of the module

    [src/main.go] and the first file of [src/unnamed/part_000] declare the
    same four structs with the same fields and Go types; they differ in field
    order and in [omitempty] tags only, which matter to the codec alone. *)

Module OllamaInput.
Record t : Type := mk {
  Model : string;
  Prompt : string;
  Suffix : string;
  System : string;
  Template : string;
  Context : list Z;
  Stream : option bool;          (* *bool: nil is None *)
  Raw : bool;
  Format : any;                  (* interface{} *)
  KeepAlive : string;
  Images : list string;
  Options : option (gmap string any);   (* a nil map is None *)
  OllamaURL : string
}.

(** The zero value [var input OllamaInput]. *)
Definition zero : t :=
  mk "" "" "" "" "" [] None false ANil "" [] None "".

(** [input.OllamaURL = u]. *)
Definition set_OllamaURL (u : string) (i : t) : t :=
  mk (Model i) (Prompt i) (Suffix i) (System i) (Template i) (Context i)
     (Stream i) (Raw i) (Format i) (KeepAlive i) (Images i) (Options i) u.

(** [input.Stream = p]. *)
Definition set_Stream (p : option bool) (i : t) : t :=
  mk (Model i) (Prompt i) (Suffix i) (System i) (Template i) (Context i)
     p (Raw i) (Format i) (KeepAlive i) (Images i) (Options i) (OllamaURL i).

(** [input.Prompt = p]. *)
Definition set_Prompt (p : string) (i : t) : t :=
  mk (Model i) p (Suffix i) (System i) (Template i) (Context i)
     (Stream i) (Raw i) (Format i) (KeepAlive i) (Images i) (Options i) (OllamaURL i).

(** [input.Model = m]. *)
Definition set_Model (m : string) (i : t) : t :=
  mk m (Prompt i) (Suffix i) (System i) (Template i) (Context i)
     (Stream i) (Raw i) (Format i) (KeepAlive i) (Images i) (Options i) (OllamaURL i).
End OllamaInput.

Module OllamaAPIRequest.
(** What is sent to the Ollama server; there is no [OllamaURL] field. *)
Record t : Type := mk {
  Model : string;
  Prompt : string;
  Suffix : string;
  System : string;
  Template : string;
  Context : list Z;
  Stream : option bool;
  Raw : bool;
  Format : any;
  KeepAlive : string;
  Images : list string;
  Options : option (gmap string any)
}.
End OllamaAPIRequest.

Module OllamaAPIResponse.
Record t : Type := mk {
  Model : string;
  CreatedAt : string;
  Response : string;
  Done : bool;
  Context : list Z;
  TotalDuration : Z;
  LoadDuration : Z;
  PromptEvalCount : Z;
  PromptEvalDuration : Z;
  EvalCount : Z;
  EvalDuration : Z
}.

Definition zero : t := mk "" "" "" false [] 0 0 0 0 0 0.
End OllamaAPIResponse.

Module OllamaOutput.
Record t : Type := mk {
  Success : bool;
  Response : string;
  Model : string;
  CreatedAt : string;
  Done : bool;
  Context : list Z;
  TotalDuration : Z;
  LoadDuration : Z;
  PromptEvalCount : Z;
  PromptEvalDuration : Z;
  EvalCount : Z;
  EvalDuration : Z;
  Error : string;
  ErrorType : string;
  Metadata : gmap string metaval
}.
End OllamaOutput.

(** ** The host boundary *)

(** One crossing of the module/host boundary, with the status the host
    answered ([float_log] returns nothing). *)
Inductive Event : Type :=
| EvLog (message : string)
| EvHttp (url method headers body : string) (status : N)
| EvRead (path : string) (status : N)
| EvWrite (path data : string) (status : N).

(** The host: the [uint32] status it answers to each call may depend on the
    arguments and on everything that happened before. [time_now] is the host
    clock read by [time.Now().Format(time.RFC3339)]. *)
Record Host : Type := {
  float_http_request : list Event -> string -> string -> string -> string -> N;
  float_read_file : list Event -> string -> N;
  float_write_file : list Event -> string -> string -> N;
  time_now : list Event -> string
}.

(** How a Go call ends: it returns, or a run-time panic aborts the module. *)
Inductive Outcome (A : Type) : Type :=
| Returns (a : A)
| Panics (msg : string).
Arguments Returns {A} a.
Arguments Panics {A} msg.

(** A program reads the host and the events so far, and yields its outcome
    together with the events it added. *)
Definition M (A : Type) : Type := Host -> list Event -> Outcome A * list Event.

#[global] Instance M_ret : MRet M := fun A a _ _ => (Returns a, []).

#[global] Instance M_bind : MBind M := fun A B f m h past =>
  match m h past with
  | (Returns a, evs) =>
      match f a h (past ++ evs)%list with
      | (o, evs') => (o, (evs ++ evs')%list)
      end
  | (Panics msg, evs) => (Panics msg, evs)
  end.

(** A whole invocation: the module starts with no event behind it. *)
Definition run {A : Type} (m : M A) (h : Host) : Outcome A * list Event := m h [].

Definition panic {A : Type} (msg : string) : M A := fun _ _ => (Panics msg, []).

(** [&b[0]] for [b := []byte(s)]: indexing an empty slice panics. *)
Definition addr0 (s : string) : M unit :=
  match s with
  | EmptyString => panic "runtime error: index out of range [0] with length 0"
  | String _ _ => mret tt
  end.

Definition floatLog (message : string) : M unit :=
  fun _ _ => (Returns tt, [EvLog message]).

Definition floatHttpRequest (url method headers body : string) : M N :=
  fun h past =>
    let status := float_http_request h past url method headers body in
    (Returns status, [EvHttp url method headers body status]).

Definition floatReadFile (path : string) : M N :=
  fun h past =>
    let status := float_read_file h past path in
    (Returns status, [EvRead path status]).

Definition floatWriteFile (path data : string) : M N :=
  fun h past =>
    let status := float_write_file h past path data in
    (Returns status, [EvWrite path data status]).

Definition timeNow : M string := fun h past => (Returns (time_now h past), []).

(** The writes of a trace: path, data and status, in order. *)
Fixpoint writes (tr : list Event) : list (string * string * N) :=
  match tr with
  | [] => []
  | EvWrite p d s :: rest => (p, d, s) :: writes rest
  | _ :: rest => writes rest
  end.

(** The requests of a trace. *)
Fixpoint requests (tr : list Event) : list (string * string * string * string * N) :=
  match tr with
  | [] => []
  | EvHttp u m hd b s :: rest => (u, m, hd, b, s) :: requests rest
  | _ :: rest => requests rest
  end.

(** The reads of a trace. *)
Fixpoint reads (tr : list Event) : list (string * N) :=
  match tr with
  | [] => []
  | EvRead p s :: rest => (p, s) :: reads rest
  | _ :: rest => reads rest
  end.

(** ** The JSON codec ([encoding/json]) *)

Class Codec : Type := {
  (** [json.Unmarshal(inputBytes, &input)] on a zero [OllamaInput]. *)
  Unmarshal_OllamaInput : string -> result OllamaInput.t;
  (** [json.Marshal(apiRequest)]. *)
  Marshal_OllamaAPIRequest : OllamaAPIRequest.t -> result string;
  (** [json.Unmarshal([]byte(responseBody), &apiResponse)] on a zero
      [OllamaAPIResponse]. *)
  Unmarshal_OllamaAPIResponse : string -> result OllamaAPIResponse.t;
  (** [json.MarshalIndent(data, "", "  ")] of an [*OllamaOutput]. *)
  MarshalIndent_OllamaOutput : OllamaOutput.t -> result string;
  (** [json.Unmarshal([]byte(body), &req)] into a [map[string]interface{}]. *)
  Unmarshal_map : string -> result (gmap string any);
  (** An [OllamaOutput] holds strings, integers, booleans and a map of such:
      it always encodes, to a non-empty text. *)
  MarshalIndent_total :
    forall o, exists d, MarshalIndent_OllamaOutput o = Ok d /\ d <> "";
  (** An encoded request is a JSON object, hence not empty. *)
  Marshal_nonempty :
    forall r d, Marshal_OllamaAPIRequest r = Ok d -> d <> ""
}.

(** The composite literal
    [&OllamaOutput{Success: false, Error: e, ErrorType: t, Metadata: md}];
    the fields it leaves out take their zero value. *)
Definition failureLiteral (e t : string) (md : gmap string metaval) : OllamaOutput.t :=
  {| OllamaOutput.Success := false;
     OllamaOutput.Response := "";
     OllamaOutput.Model := "";
     OllamaOutput.CreatedAt := "";
     OllamaOutput.Done := false;
     OllamaOutput.Context := [];
     OllamaOutput.TotalDuration := 0;
     OllamaOutput.LoadDuration := 0;
     OllamaOutput.PromptEvalCount := 0;
     OllamaOutput.PromptEvalDuration := 0;
     OllamaOutput.EvalCount := 0;
     OllamaOutput.EvalDuration := 0;
     OllamaOutput.Error := e;
     OllamaOutput.ErrorType := t;
     OllamaOutput.Metadata := md |}.

(** The success literal of [generate_ollama]: every reply field is copied. *)
Definition successLiteral (r : OllamaAPIResponse.t) (md : gmap string metaval) : OllamaOutput.t :=
  {| OllamaOutput.Success := true;
     OllamaOutput.Response := OllamaAPIResponse.Response r;
     OllamaOutput.Model := OllamaAPIResponse.Model r;
     OllamaOutput.CreatedAt := OllamaAPIResponse.CreatedAt r;
     OllamaOutput.Done := OllamaAPIResponse.Done r;
     OllamaOutput.Context := OllamaAPIResponse.Context r;
     OllamaOutput.TotalDuration := OllamaAPIResponse.TotalDuration r;
     OllamaOutput.LoadDuration := OllamaAPIResponse.LoadDuration r;
     OllamaOutput.PromptEvalCount := OllamaAPIResponse.PromptEvalCount r;
     OllamaOutput.PromptEvalDuration := OllamaAPIResponse.PromptEvalDuration r;
     OllamaOutput.EvalCount := OllamaAPIResponse.EvalCount r;
     OllamaOutput.EvalDuration := OllamaAPIResponse.EvalDuration r;
     OllamaOutput.Error := "";
     OllamaOutput.ErrorType := "";
     OllamaOutput.Metadata := md |}.

(** The literal [OllamaAPIRequest{Model: input.Model, ...}]: the twelve API
    fields of the input, and nothing else. *)
Definition apiRequestOf (input : OllamaInput.t) : OllamaAPIRequest.t :=
  {| OllamaAPIRequest.Model := OllamaInput.Model input;
     OllamaAPIRequest.Prompt := OllamaInput.Prompt input;
     OllamaAPIRequest.Suffix := OllamaInput.Suffix input;
     OllamaAPIRequest.System := OllamaInput.System input;
     OllamaAPIRequest.Template := OllamaInput.Template input;
     OllamaAPIRequest.Context := OllamaInput.Context input;
     OllamaAPIRequest.Stream := OllamaInput.Stream input;
     OllamaAPIRequest.Raw := OllamaInput.Raw input;
     OllamaAPIRequest.Format := OllamaInput.Format input;
     OllamaAPIRequest.KeepAlive := OllamaInput.KeepAlive input;
     OllamaAPIRequest.Images := OllamaInput.Images input;
     OllamaAPIRequest.Options := OllamaInput.Options input |}.

(** ** Helpers shared verbatim by both files *)

Section Helpers.
Context {codec : Codec}.

(** [logToFloat]: an empty message is dropped before the host is called. *)
Definition logToFloat (message : string) : M unit :=
  if (len message =? 0)%N then mret tt
  else floatLog message.

(** [writeOutputFile]: encode, then hand path and data to the host. *)
Definition writeOutputFile (data : OllamaOutput.t) : M (option Error) :=
  match MarshalIndent_OllamaOutput data with
  | Err err => mret (Some ("failed to marshal output: " +:+ err))
  | Ok jsonData =>
      let path := "output.json" in
      addr0 path;;
      addr0 jsonData;;
      result ← floatWriteFile path jsonData;
      if negb (result =? 0)%N then mret (Some "failed to write output file")
      else mret None
  end.
End Helpers.

(** ** [src/main.go] *)

Module MainGo.
Section Pipeline.
Context {codec : Codec}.

(** What [readHttpResponseFromFloat] hands over to once the host has
    acknowledged the read: in [main.go], [readActualOllamaResponse]. *)
Variable readActual : M (result string).

Definition readHttpResponseFromFloat_via : M (result string) :=
  let responsePath := "/tmp/float_http_response" in
  addr0 responsePath;;
  logToFloat "Reading HTTP response from Float temporary file";;
  result ← floatReadFile responsePath;
  if negb (result =? 0)%N then
    mret (Err ("failed to read HTTP response file: error code " +:+ dec result))
  else
    logToFloat "Successfully read HTTP response from Float";;
    readActual.

Definition makeHttpRequest_via (url method body : string) : M (result string) :=
  logToFloat ("Making HTTP " +:+ method +:+ " request to " +:+ url);;
  logToFloat ("Request body: " +:+ body);;
  let headers := "Content-Type: application/json" +:+ cr +:+ nl in
  addr0 url;;
  addr0 method;;
  addr0 headers;;
  addr0 body;;
  result ← floatHttpRequest url method headers body;
  if negb (result =? 0)%N then
    logToFloat ("HTTP request failed with status: " +:+ dec result);;
    mret (Err ("HTTP request failed with status code: " +:+ dec result))
  else
    r ← readHttpResponseFromFloat_via;
    match r with
    | Err err => mret (Err ("failed to read response: " +:+ err))
    | Ok responseBody =>
        logToFloat ("Received response (" +:+ dec (len responseBody) +:+ " bytes)");;
        mret (Ok responseBody)
    end.

Definition generate_ollama_via (inputBytes : string) : M N :=
  logToFloat "Starting Ollama generation request";;
  match Unmarshal_OllamaInput inputBytes with
  | Err err =>
      logToFloat ("Failed to parse input: " +:+ err);;
      let output :=
        failureLiteral ("Invalid input JSON: " +:+ err) "INPUT_PARSE_ERROR"
          {[ "error_stage" := MString "input_parsing" ]} in
      _ ← writeOutputFile output;
      mret 1%N
  | Ok input =>
  if (OllamaInput.Model input =? "")%string then
    logToFloat "Model is required";;
    let output :=
      failureLiteral "Model field is required" "VALIDATION_ERROR"
        (<[ "error_stage" := MString "validation" ]>
           {[ "missing_field" := MString "model" ]}) in
    _ ← writeOutputFile output;
    mret 1%N
  else if (OllamaInput.Prompt input =? "")%string then
    logToFloat "Prompt is required";;
    let output :=
      failureLiteral "Prompt field is required" "VALIDATION_ERROR"
        (<[ "error_stage" := MString "validation" ]>
           {[ "missing_field" := MString "prompt" ]}) in
    _ ← writeOutputFile output;
    mret 1%N
  else if (OllamaInput.OllamaURL input =? "")%string then
    logToFloat "ERROR: ollama_url is required";;
    let output :=
      failureLiteral
        "ollama_url field is required - please specify the Ollama server URL (e.g., 'http://localhost:11434')"
        "VALIDATION_ERROR"
        (<[ "error_stage" := MString "validation" ]>
           {[ "missing_field" := MString "ollama_url" ]}) in
    _ ← writeOutputFile output;
    mret 1%N
  else
  let input := OllamaInput.set_OllamaURL (TrimRight (OllamaInput.OllamaURL input) "/") input in
  logToFloat ("Generating with model: " +:+ OllamaInput.Model input);;
  logToFloat ("Prompt length: " +:+ dec (len (OllamaInput.Prompt input)) +:+ " characters");;
  let apiRequest := apiRequestOf input in
  match Marshal_OllamaAPIRequest apiRequest with
  | Err err =>
      logToFloat ("Failed to marshal request: " +:+ err);;
      let output :=
        failureLiteral ("Failed to prepare request: " +:+ err) "REQUEST_MARSHAL_ERROR"
          {[ "error_stage" := MString "request_preparation" ]} in
      _ ← writeOutputFile output;
      mret 1%N
  | Ok requestBody =>
  let url := OllamaInput.OllamaURL input +:+ "/api/generate" in
  logToFloat ("Making request to: " +:+ url);;
  r ← makeHttpRequest_via url "POST" requestBody;
  match r with
  | Err err =>
      logToFloat ("HTTP request failed: " +:+ err);;
      let output :=
        failureLiteral ("Failed to connect to Ollama: " +:+ err) "HTTP_REQUEST_ERROR"
          (<[ "error_stage" := MString "http_request" ]>
             {[ "ollama_url" := MString url ]}) in
      _ ← writeOutputFile output;
      mret 1%N
  | Ok responseBody =>
  match Unmarshal_OllamaAPIResponse responseBody with
  | Err err =>
      logToFloat ("Failed to parse response: " +:+ err);;
      let output :=
        failureLiteral ("Invalid response from Ollama: " +:+ err) "RESPONSE_PARSE_ERROR"
          (<[ "error_stage" := MString "response_parsing" ]>
             {[ "raw_response" := MString responseBody ]}) in
      _ ← writeOutputFile output;
      mret 1%N
  | Ok apiResponse =>
  let output :=
    successLiteral apiResponse
      (<[ "input_prompt_length" := MInt (Z.of_N (len (OllamaInput.Prompt input))) ]>
      (<[ "response_length" := MInt (Z.of_N (len (OllamaAPIResponse.Response apiResponse))) ]>
      (<[ "ollama_url" := MString (OllamaInput.OllamaURL input) ]>
      (<[ "stream_mode" := MBoolPtr (OllamaInput.Stream input) ]>
      (<[ "has_suffix" := MBool (negb (OllamaInput.Suffix input =? "")%string) ]>
      (<[ "has_system" := MBool (negb (OllamaInput.System input =? "")%string) ]>
      (<[ "has_images" := MBool (0 <? length (OllamaInput.Images input))%nat ]>
         {[ "processing_complete" := MBool true ]}))))))) in
  writeErr ← writeOutputFile output;
  match writeErr with
  | Some writeErr =>
      logToFloat ("Failed to write output: " +:+ writeErr);;
      mret 1%N
  | None =>
      logToFloat "Ollama generation completed successfully";;
      logToFloat ("Generated response length: "
                  +:+ dec (len (OllamaAPIResponse.Response apiResponse)) +:+ " characters");;
      mret 0%N
  end
  end
  end
  end
  end.
End Pipeline.

Section Stub.
Context {codec : Codec}.

(** [readActualOllamaResponse]: logs, then always returns an error. *)
Definition readActualOllamaResponse : M (result string) :=
  logToFloat "Processing real Ollama API response";;
  mret (Err "real Ollama API integration requires Float runtime HTTP response mechanism").

Definition readHttpResponseFromFloat : M (result string) :=
  readHttpResponseFromFloat_via readActualOllamaResponse.

Definition makeHttpRequest (url method body : string) : M (result string) :=
  makeHttpRequest_via readActualOllamaResponse url method body.

(** The exported entry point of [main.go]. *)
Definition generate_ollama (inputBytes : string) : M N :=
  generate_ollama_via readActualOllamaResponse inputBytes.
End Stub.
End MainGo.

(** ** The validating variant: first Go file of [src/unnamed/part_000] *)

Module Reagent.
Section Pipeline.
Context {codec : Codec}.

(** [extractModelFromRequest]: the [model] entry of the request body when
    it is a string, [unknown] otherwise. *)
Definition extractModelFromRequest (body : string) : string :=
  match Unmarshal_map body with
  | Err _ => "unknown"
  | Ok req =>
      match req !! "model" with
      | Some (AString model) => model
      | _ => "unknown"
      end
  end.

(** The raw literal of [makeHttpRequest], with the two spliced values. *)
Definition simulatedResponse (model now : string) : string :=
  "{" +:+ nl +:+
  tab +:+ tab +:+ dq +:+ "model" +:+ dq +:+ ": " +:+ dq +:+ model +:+ dq +:+ "," +:+ nl +:+
  tab +:+ tab +:+ dq +:+ "created_at" +:+ dq +:+ ": " +:+ dq +:+ now +:+ dq +:+ "," +:+ nl +:+
  tab +:+ tab +:+ dq +:+ "response" +:+ dq +:+ ": " +:+ dq +:+
    "This is a simulated response. In production, this would be the actual Ollama API response."
    +:+ dq +:+ "," +:+ nl +:+
  tab +:+ tab +:+ dq +:+ "done" +:+ dq +:+ ": true," +:+ nl +:+
  tab +:+ tab +:+ dq +:+ "total_duration" +:+ dq +:+ ": 1000000000," +:+ nl +:+
  tab +:+ tab +:+ dq +:+ "load_duration" +:+ dq +:+ ": 100000000," +:+ nl +:+
  tab +:+ tab +:+ dq +:+ "prompt_eval_count" +:+ dq +:+ ": 10," +:+ nl +:+
  tab +:+ tab +:+ dq +:+ "prompt_eval_duration" +:+ dq +:+ ": 200000000," +:+ nl +:+
  tab +:+ tab +:+ dq +:+ "eval_count" +:+ dq +:+ ": 25," +:+ nl +:+
  tab +:+ tab +:+ dq +:+ "eval_duration" +:+ dq +:+ ": 700000000" +:+ nl +:+
  tab +:+ "}".

(** [makeHttpRequest]: the request is issued; on status 0 the reply is not
    read from the host but made up on the spot. *)
Definition makeHttpRequest (url method body : string) : M (result string) :=
  logToFloat ("Making HTTP " +:+ method +:+ " request to " +:+ url);;
  let headers := "Content-Type: application/json" +:+ cr +:+ nl in
  addr0 url;;
  addr0 method;;
  addr0 headers;;
  addr0 body;;
  result ← floatHttpRequest url method headers body;
  if negb (result =? 0)%N then
    mret (Err ("HTTP request failed with status code: " +:+ dec result))
  else
    now ← timeNow;
    let simulated := simulatedResponse (extractModelFromRequest body) now in
    logToFloat "HTTP request completed successfully";;
    mret (Ok simulated).

(** The two range checks on [input.Options]: an entry counts only when it
    holds a float64. *)
Definition temperature_out_of_range (opts : gmap string any) : bool :=
  match opts !! "temperature" with
  | Some (AFloat tempFloat) => (tempFloat <? 0)%float || (2 <? tempFloat)%float
  | _ => false
  end.

Definition top_p_out_of_range (opts : gmap string any) : bool :=
  match opts !! "top_p" with
  | Some (AFloat topPFloat) => (topPFloat <? 0)%float || (1 <? topPFloat)%float
  | _ => false
  end.

(** [validateInput]: [None] is Go's nil error. *)
Definition validateInput (input : OllamaInput.t) : option Error :=
  if (OllamaInput.Model input =? "")%string then
    Some "model field is required"
  else if (OllamaInput.Prompt input =? "")%string then
    Some "prompt field is required"
  else if (OllamaInput.OllamaURL input =? "")%string then
    Some "ollama_url field is required"
  else if negb (HasPrefix (OllamaInput.OllamaURL input) "http://")
          && negb (HasPrefix (OllamaInput.OllamaURL input) "https://") then
    Some "ollama_url must be a valid HTTP/HTTPS URL"
  else if (32768 <? len (OllamaInput.Prompt input))%N then
    Some "prompt exceeds maximum length of 32768 characters"
  else if negb (OllamaInput.System input =? "")%string
          && (8192 <? len (OllamaInput.System input))%N then
    Some "system message exceeds maximum length of 8192 characters"
  else
    match OllamaInput.Options input with
    | Some opts =>
        if temperature_out_of_range opts then
          Some "temperature must be between 0 and 2"
        else if top_p_out_of_range opts then
          Some "top_p must be between 0 and 1"
        else None
    | None => None
    end.

(** [buildMetadata]. *)
Definition buildMetadata (input : OllamaInput.t) (responseLength : Z) : gmap string metaval :=
  let metadata : gmap string metaval :=
    <[ "input_prompt_length" := MInt (Z.of_N (len (OllamaInput.Prompt input))) ]>
    (<[ "response_length" := MInt responseLength ]>
    (<[ "ollama_url" := MString (OllamaInput.OllamaURL input) ]>
    (<[ "stream_mode" :=
          MBool (match OllamaInput.Stream input with Some b => b | None => false end) ]>
       {[ "processing_complete" := MBool true ]}))) in
  let metadata :=
    if negb (OllamaInput.System input =? "")%string
    then <[ "has_system_message" := MBool true ]> metadata else metadata in
  let metadata :=
    if (0 <? length (OllamaInput.Images input))%nat
    then <[ "image_count" := MInt (Z.of_nat (length (OllamaInput.Images input))) ]> metadata
    else metadata in
  let metadata :=
    if (0 <? length (OllamaInput.Context input))%nat
    then <[ "context_length" := MInt (Z.of_nat (length (OllamaInput.Context input))) ]>
           (<[ "has_context" := MBool true ]> metadata)
    else metadata in
  metadata.

(** [createErrorOutput]: a nil map is replaced by an empty one, and
    [processing_complete] is forced to false. *)
Definition createErrorOutput (errorMsg errorType : string)
    (metadata : option (gmap string metaval)) : OllamaOutput.t :=
  let metadata := match metadata with Some md => md | None => ∅ end in
  let metadata := <[ "processing_complete" := MBool false ]> metadata in
  {| OllamaOutput.Success := false;
     OllamaOutput.Response := "";
     OllamaOutput.Model := "";
     OllamaOutput.CreatedAt := "";
     OllamaOutput.Done := true;
     OllamaOutput.Context := [];
     OllamaOutput.TotalDuration := 0;
     OllamaOutput.LoadDuration := 0;
     OllamaOutput.PromptEvalCount := 0;
     OllamaOutput.PromptEvalDuration := 0;
     OllamaOutput.EvalCount := 0;
     OllamaOutput.EvalDuration := 0;
     OllamaOutput.Error := errorMsg;
     OllamaOutput.ErrorType := errorType;
     OllamaOutput.Metadata := metadata |}.

(** The [missing_field] tagging of a validation error: the first of the
    three field names that occurs in the message, if any. *)
Definition tagMissingField (err : Error) (metadata : gmap string metaval)
    : gmap string metaval :=
  if Contains err "model" then <[ "missing_field" := MString "model" ]> metadata
  else if Contains err "prompt" then <[ "missing_field" := MString "prompt" ]> metadata
  else if Contains err "ollama_url" then <[ "missing_field" := MString "ollama_url" ]> metadata
  else metadata.

(** The exported entry point. *)
Definition generate_ollama (inputBytes : string) : M N :=
  logToFloat "Starting Ollama text generation";;
  match Unmarshal_OllamaInput inputBytes with
  | Err err =>
      logToFloat ("Failed to parse input JSON: " +:+ err);;
      let output :=
        createErrorOutput ("Invalid input JSON: " +:+ err) "INPUT_PARSE_ERROR"
          (Some {[ "error_stage" := MString "input_parsing" ]}) in
      _ ← writeOutputFile output;
      mret 1%N
  | Ok input =>
  logToFloat ("Parsed input for model: " +:+ OllamaInput.Model input);;
  match validateInput input with
  | Some err =>
      logToFloat ("Input validation failed: " +:+ err);;
      let errorType := "VALIDATION_ERROR" in
      let metadata := tagMissingField err {[ "error_stage" := MString "validation" ]} in
      let output := createErrorOutput err errorType (Some metadata) in
      _ ← writeOutputFile output;
      mret 1%N
  | None =>
  logToFloat "Input validation passed";;
  let input := OllamaInput.set_OllamaURL (TrimRight (OllamaInput.OllamaURL input) "/") input in
  let input :=
    match OllamaInput.Stream input with
    | None => OllamaInput.set_Stream (Some false) input
    | Some _ => input
    end in
  let apiRequest := apiRequestOf input in
  match Marshal_OllamaAPIRequest apiRequest with
  | Err err =>
      logToFloat ("Failed to marshal request: " +:+ err);;
      let output :=
        createErrorOutput ("Failed to prepare request: " +:+ err) "REQUEST_MARSHAL_ERROR"
          (Some {[ "error_stage" := MString "request_preparation" ]}) in
      _ ← writeOutputFile output;
      mret 1%N
  | Ok requestBody =>
  logToFloat ("Prepared request body (" +:+ dec (len requestBody) +:+ " bytes)");;
  let url := OllamaInput.OllamaURL input +:+ "/api/generate" in
  logToFloat ("Making request to Ollama API: " +:+ url);;
  r ← makeHttpRequest url "POST" requestBody;
  match r with
  | Err err =>
      logToFloat ("HTTP request failed: " +:+ err);;
      let output :=
        createErrorOutput ("Failed to connect to Ollama server: " +:+ err) "HTTP_REQUEST_ERROR"
          (Some (<[ "error_stage" := MString "http_request" ]>
                   {[ "ollama_url" := MString url ]})) in
      _ ← writeOutputFile output;
      mret 1%N
  | Ok responseBody =>
  logToFloat "HTTP request completed successfully";;
  match Unmarshal_OllamaAPIResponse responseBody with
  | Err err =>
      logToFloat ("Failed to parse Ollama response: " +:+ err);;
      let output :=
        createErrorOutput ("Invalid response from Ollama server: " +:+ err) "RESPONSE_PARSE_ERROR"
          (Some (<[ "error_stage" := MString "response_parsing" ]>
                   {[ "raw_response" := MString responseBody ]})) in
      _ ← writeOutputFile output;
      mret 1%N
  | Ok apiResponse =>
  logToFloat ("Successfully parsed Ollama response ("
              +:+ dec (len (OllamaAPIResponse.Response apiResponse)) +:+ " characters)");;
  let output :=
    successLiteral apiResponse
      (buildMetadata input (Z.of_N (len (OllamaAPIResponse.Response apiResponse)))) in
  writeErr ← writeOutputFile output;
  match writeErr with
  | Some writeErr =>
      logToFloat ("Failed to write output file: " +:+ writeErr);;
      mret 1%N
  | None =>
      logToFloat "Ollama text generation completed successfully";;
      logToFloat ("Generated " +:+ dec (len (OllamaAPIResponse.Response apiResponse))
                  +:+ " characters in response");;
      mret 0%N
  end
  end
  end
  end
  end
  end.
End Pipeline.
End Reagent.

(** ** An executable codec for a fragment of JSON

    One instance of [Codec] per file, on which the scenarios are run.  It
    follows [encoding/json] on the fragment it accepts: objects, arrays,
    strings, booleans, null and numbers; keys are matched to struct fields up
    to ASCII case, later members override earlier ones, unknown members are
    skipped, and null leaves a string, a boolean or an integer field as it is.
    Where it leaves Go it says so by an error: escaped surrogates, and numbers
    of more than 15 digits or with a decimal exponent beyond 22 where a
    float64 is wanted, are refused.  Bytes above 127 are copied as they are,
    a float64 is written without exponent, and the error texts are its own.
    None of the general theorems depends on it. *)

Module Json.

(** A number literal: sign, integer digits, fraction digits, exponent. *)
Record number : Type := mkNumber {
  negative : bool;
  int_digits : string;
  frac_digits : string;
  exponent : option Z
}.

Inductive value : Type :=
| Null
| Bool (b : bool)
| Number (n : number)
| Str (s : string)
| Arr (vs : list value)
| Obj (kvs : list (string * value)).

(** *** Reading *)

Definition is_ws (c : ascii) : bool :=
  (c =? " ")%char || (c =? "009")%char || (c =? "010")%char || (c =? "013")%char.

Fixpoint skip_ws (s : string) : string :=
  match s with
  | String c rest => if is_ws c then skip_ws rest else s
  | EmptyString => s
  end.

Definition is_digit (c : ascii) : bool :=
  (48 <=? N_of_ascii c)%N && (N_of_ascii c <=? 57)%N.

Definition hex_val (c : ascii) : option N :=
  let n := N_of_ascii c in
  if (48 <=? n)%N && (n <=? 57)%N then Some (n - 48)%N
  else if (65 <=? n)%N && (n <=? 70)%N then Some (n - 55)%N
  else if (97 <=? n)%N && (n <=? 102)%N then Some (n - 87)%N
  else None.

(** UTF-8 of a code point of the basic plane; surrogates are refused. *)
Definition utf8 (n : N) : option string :=
  if (n <? 128)%N then Some (String (ascii_of_N n) "")
  else if (n <? 2048)%N then
    Some (String (ascii_of_N (192 + n / 64)) (String (ascii_of_N (128 + n mod 64)) ""))
  else if (55296 <=? n)%N && (n <=? 57343)%N then None
  else
    Some (String (ascii_of_N (224 + n / 4096))
         (String (ascii_of_N (128 + (n / 64) mod 64))
         (String (ascii_of_N (128 + n mod 64)) ""))).

Definition unescape (c : ascii) : option ascii :=
  if (c =? "034")%char then Some "034"%char
  else if (c =? "\")%char then Some "\"%char
  else if (c =? "/")%char then Some "/"%char
  else if (c =? "b")%char then Some "008"%char
  else if (c =? "f")%char then Some "012"%char
  else if (c =? "n")%char then Some "010"%char
  else if (c =? "r")%char then Some "013"%char
  else if (c =? "t")%char then Some "009"%char
  else None.

Definition prepend (p : string) (r : option (string * string)) : option (string * string) :=
  match r with
  | Some (s, rest) => Some (p +:+ s, rest)
  | None => None
  end.

(** The text of a string after its opening quote, and what follows the
    closing one. *)
Fixpoint string_body (s : string) : option (string * string) :=
  match s with
  | EmptyString => None
  | String c rest =>
      if (c =? "034")%char then Some ("", rest)
      else if (c =? "\")%char then
        match rest with
        | String e rest1 =>
            match unescape e with
            | Some b => prepend (String b "") (string_body rest1)
            | None =>
                match rest1 with
                | String h1 (String h2 (String h3 (String h4 rest2))) =>
                    match hex_val h1, hex_val h2, hex_val h3, hex_val h4 with
                    | Some a, Some b, Some c', Some d =>
                        if (e =? "u")%char then
                          match utf8 (((a * 16 + b) * 16 + c') * 16 + d)%N with
                          | Some bytes => prepend bytes (string_body rest2)
                          | None => None
                          end
                        else None
                    | _, _, _, _ => None
                    end
                | _ => None
                end
            end
        | EmptyString => None
        end
      else if (N_of_ascii c <? 32)%N then None
      else prepend (String c "") (string_body rest)
  end.

(** The longest prefix of digits, and the rest. *)
Fixpoint digits (s : string) : string * string :=
  match s with
  | String c rest =>
      if is_digit c then let (d, r) := digits rest in (String c d, r) else ("", s)
  | EmptyString => ("", s)
  end.

Fixpoint digits_to_N (acc : N) (s : string) : N :=
  match s with
  | String c rest => digits_to_N (acc * 10 + (N_of_ascii c - 48))%N rest
  | EmptyString => acc
  end.

Definition read_exponent (s : string) : option (option Z * string) :=
  match s with
  | String c rest =>
      if (c =? "e")%char || (c =? "E")%char then
        let (neg, rest1) :=
          match rest with
          | String sg r =>
              if (sg =? "-")%char then (true, r)
              else if (sg =? "+")%char then (false, r)
              else (false, rest)
          | EmptyString => (false, rest)
          end in
        let (d, rest2) := digits rest1 in
        if (d =? "")%string then None
        else
          let e := Z.of_N (digits_to_N 0 d) in
          Some (Some (if neg then - e else e)%Z, rest2)
      else Some (None, s)
  | EmptyString => Some (None, s)
  end.

Definition read_number (s : string) : option (number * string) :=
  let (neg, s1) :=
    match s with
    | String c rest => if (c =? "-")%char then (true, rest) else (false, s)
    | EmptyString => (false, s)
    end in
  let (ip, s2) := digits s1 in
  let int_ok :=
    match ip with
    | EmptyString => false
    | String c EmptyString => true
    | String c _ => negb (c =? "0")%char
    end in
  if negb int_ok then None
  else
    let frac :=
      match s2 with
      | String c rest =>
          if (c =? ".")%char then
            let (fp, s3) := digits rest in
            if (fp =? "")%string then None else Some (fp, s3)
          else Some ("", s2)
      | EmptyString => Some ("", s2)
      end in
    match frac with
    | None => None
    | Some (fp, s3) =>
        match read_exponent s3 with
        | None => None
        | Some (ex, s4) => Some (mkNumber neg ip fp ex, s4)
        end
    end.

Fixpoint read_value (fuel : nat) (s : string) : option (value * string) :=
  match fuel with
  | O => None
  | S fuel =>
      match skip_ws s with
      | String "n" (String "u" (String "l" (String "l" rest))) => Some (Null, rest)
      | String "t" (String "r" (String "u" (String "e" rest))) => Some (Bool true, rest)
      | String "f" (String "a" (String "l" (String "s" (String "e" rest)))) =>
          Some (Bool false, rest)
      | String "034" rest =>
          match string_body rest with
          | Some (str, rest1) => Some (Str str, rest1)
          | None => None
          end
      | String "[" rest =>
          match skip_ws rest with
          | String "]" rest1 => Some (Arr [], rest1)
          | _ =>
              match read_elements fuel rest with
              | Some (vs, rest1) => Some (Arr vs, rest1)
              | None => None
              end
          end
      | String "{" rest =>
          match skip_ws rest with
          | String "}" rest1 => Some (Obj [], rest1)
          | _ =>
              match read_members fuel rest with
              | Some (kvs, rest1) => Some (Obj kvs, rest1)
              | None => None
              end
          end
      | other =>
          match read_number other with
          | Some (n, rest) => Some (Number n, rest)
          | None => None
          end
      end
  end
with read_elements (fuel : nat) (s : string) : option (list value * string) :=
  match fuel with
  | O => None
  | S fuel =>
      match read_value fuel s with
      | Some (v, rest) =>
          match skip_ws rest with
          | String "," rest1 =>
              match read_elements fuel rest1 with
              | Some (vs, rest2) => Some (v :: vs, rest2)
              | None => None
              end
          | String "]" rest1 => Some ([v], rest1)
          | _ => None
          end
      | None => None
      end
  end
with read_members (fuel : nat) (s : string) : option (list (string * value) * string) :=
  match fuel with
  | O => None
  | S fuel =>
      match skip_ws s with
      | String "034" rest =>
          match string_body rest with
          | Some (k, rest1) =>
              match skip_ws rest1 with
              | String ":" rest2 =>
                  match read_value fuel rest2 with
                  | Some (v, rest3) =>
                      match skip_ws rest3 with
                      | String "," rest4 =>
                          match read_members fuel rest4 with
                          | Some (kvs, rest5) => Some ((k, v) :: kvs, rest5)
                          | None => None
                          end
                      | String "}" rest4 => Some ([(k, v)], rest4)
                      | _ => None
                      end
                  | None => None
                  end
              | _ => None
              end
          | None => None
          end
      | _ => None
      end
  end.

(** A whole text: one value between optional blanks.  Every call of the
    reader consumes input, so a fuel of twice the length is never used up. *)
Definition read (s : string) : result value :=
  match read_value (2 * String.length s + 2) s with
  | Some (v, rest) =>
      match skip_ws rest with
      | EmptyString => Ok v
      | _ => Err "invalid character after top-level value"
      end
  | None => Err "invalid or truncated JSON input"
  end.

(** *** Decoding into Go values *)

#[local] Instance result_ret : MRet result := fun A a => Ok a.

#[local] Instance result_bind : MBind result := fun A B f r =>
  match r with
  | Ok a => f a
  | Err e => Err e
  end.

Fixpoint collect {A B : Type} (f : A -> result B) (l : list A) : result (list B) :=
  match l with
  | [] => Ok []
  | a :: rest => b ← f a; bs ← collect f rest; Ok (b :: bs)
  end.

Definition float_of_Z (z : Z) : float := PrimFloat.of_uint63 (Uint63.of_Z z).

(** [10^k] as a float64, exact up to [10^22]: beyond [10^18] the power no
    longer fits 63 bits and is the product of two exact factors. *)
Definition pow10 (k : Z) : float :=
  if (k <=? 18)%Z then float_of_Z (10 ^ k)
  else (float_of_Z (10 ^ 18) * float_of_Z (10 ^ (k - 18)))%float.

(** A literal of at most 15 digits scaled by at most [10^22]: both operands
    are exact, so one correctly rounded operation gives the nearest float64. *)
Definition float_of_number (n : number) : result float :=
  let m := Z.of_N (digits_to_N 0 (int_digits n +:+ frac_digits n)) in
  let e := (default 0 (exponent n) - Z.of_nat (String.length (frac_digits n)))%Z in
  if (m <? 10 ^ 15)%Z && (Z.abs e <=? 22)%Z then
    let r :=
      if (0 <=? e)%Z then (float_of_Z m * pow10 e)%float
      else (float_of_Z m / pow10 (- e))%float in
    Ok (if negative n then (- r)%float else r)
  else Err "json: number outside the supported fragment".

(** An integer of [bits] bits: the literal must have no fraction and no
    exponent, and fit. *)
Definition int_of_number (bits : Z) (ty : string) (n : number) : result Z :=
  let v := Z.of_N (digits_to_N 0 (int_digits n)) in
  let v := if negative n then (- v)%Z else v in
  if (frac_digits n =? "")%string
     && (match exponent n with None => true | Some _ => false end)
     && (- 2 ^ (bits - 1) <=? v)%Z && (v <? 2 ^ (bits - 1))%Z
  then Ok v
  else Err ("json: cannot unmarshal number into Go value of type " +:+ ty).

Fixpoint to_any (v : value) : result any :=
  match v with
  | Null => Ok ANil
  | Bool b => Ok (ABool b)
  | Number n => f ← float_of_number n; Ok (AFloat f)
  | Str s => Ok (AString s)
  | Arr vs =>
      l ← (fix elements (vs : list value) : result (list any) :=
             match vs with
             | [] => Ok []
             | v :: rest => a ← to_any v; l ← elements rest; Ok (a :: l)
             end) vs;
      Ok (AArray l)
  | Obj kvs =>
      l ← (fix members (kvs : list (string * value)) : result (list (string * any)) :=
             match kvs with
             | [] => Ok []
             | (k, v) :: rest => a ← to_any v; l ← members rest; Ok ((k, a) :: l)
             end) kvs;
      Ok (AObject l)
  end.

Definition kind (v : value) : string :=
  match v with
  | Null => "null"
  | Bool _ => "bool"
  | Number _ => "number"
  | Str _ => "string"
  | Arr _ => "array"
  | Obj _ => "object"
  end.

Definition mismatch {A : Type} (v : value) (ty : string) : result A :=
  Err ("json: cannot unmarshal " +:+ kind v +:+ " into Go value of type " +:+ ty).

Definition as_string (old : string) (v : value) : result string :=
  match v with
  | Str s => Ok s
  | Null => Ok old
  | _ => mismatch v "string"
  end.

Definition as_bool (old : bool) (v : value) : result bool :=
  match v with
  | Bool b => Ok b
  | Null => Ok old
  | _ => mismatch v "bool"
  end.

Definition as_bool_ptr (v : value) : result (option bool) :=
  match v with
  | Bool b => Ok (Some b)
  | Null => Ok None
  | _ => mismatch v "bool"
  end.

Definition as_int (bits : Z) (ty : string) (old : Z) (v : value) : result Z :=
  match v with
  | Number n => int_of_number bits ty n
  | Null => Ok old
  | _ => mismatch v ty
  end.

Definition as_ints (v : value) : result (list Z) :=
  match v with
  | Arr vs => collect (as_int 32 "int" 0) vs
  | Null => Ok []
  | _ => mismatch v "[]int"
  end.

Definition as_strings (v : value) : result (list string) :=
  match v with
  | Arr vs => collect (as_string "") vs
  | Null => Ok []
  | _ => mismatch v "[]string"
  end.

(** Members are stored from left to right, so a repeated key keeps its last
    value; an existing map is added to, as Go does. *)
Definition as_map (old : option (gmap string any)) (v : value)
    : result (option (gmap string any)) :=
  match v with
  | Obj kvs =>
      l ← collect (fun kv : string * value => a ← to_any kv.2; Ok (kv.1, a)) kvs;
      Ok (Some (fold_left (fun m (ka : string * any) => <[ ka.1 := ka.2 ]> m) l (default ∅ old)))
  | Null => Ok None
  | _ => mismatch v "map[string]interface {}"
  end.

Definition lower_ascii (c : ascii) : ascii :=
  let n := N_of_ascii c in
  if (65 <=? n)%N && (n <=? 90)%N then ascii_of_N (n + 32) else c.

Fixpoint lower (s : string) : string :=
  match s with
  | String c rest => String (lower_ascii c) (lower rest)
  | EmptyString => EmptyString
  end.

(** One member of the input object, stored in the field its key names. *)
Definition assign_input (i : OllamaInput.t) (key : string) (v : value) : result OllamaInput.t :=
  let '(OllamaInput.mk model prompt suffix system template context stream raw
                       format keep_alive images options ollama_url) := i in
  let k := lower key in
  if (k =? "model")%string then
    x ← as_string model v;
    Ok (OllamaInput.mk x prompt suffix system template context stream raw format keep_alive images options ollama_url)
  else if (k =? "prompt")%string then
    x ← as_string prompt v;
    Ok (OllamaInput.mk model x suffix system template context stream raw format keep_alive images options ollama_url)
  else if (k =? "suffix")%string then
    x ← as_string suffix v;
    Ok (OllamaInput.mk model prompt x system template context stream raw format keep_alive images options ollama_url)
  else if (k =? "system")%string then
    x ← as_string system v;
    Ok (OllamaInput.mk model prompt suffix x template context stream raw format keep_alive images options ollama_url)
  else if (k =? "template")%string then
    x ← as_string template v;
    Ok (OllamaInput.mk model prompt suffix system x context stream raw format keep_alive images options ollama_url)
  else if (k =? "context")%string then
    x ← as_ints v;
    Ok (OllamaInput.mk model prompt suffix system template x stream raw format keep_alive images options ollama_url)
  else if (k =? "stream")%string then
    x ← as_bool_ptr v;
    Ok (OllamaInput.mk model prompt suffix system template context x raw format keep_alive images options ollama_url)
  else if (k =? "raw")%string then
    x ← as_bool raw v;
    Ok (OllamaInput.mk model prompt suffix system template context stream x format keep_alive images options ollama_url)
  else if (k =? "format")%string then
    x ← to_any v;
    Ok (OllamaInput.mk model prompt suffix system template context stream raw x keep_alive images options ollama_url)
  else if (k =? "keep_alive")%string then
    x ← as_string keep_alive v;
    Ok (OllamaInput.mk model prompt suffix system template context stream raw format x images options ollama_url)
  else if (k =? "images")%string then
    x ← as_strings v;
    Ok (OllamaInput.mk model prompt suffix system template context stream raw format keep_alive x options ollama_url)
  else if (k =? "options")%string then
    x ← as_map options v;
    Ok (OllamaInput.mk model prompt suffix system template context stream raw format keep_alive images x ollama_url)
  else if (k =? "ollama_url")%string then
    x ← as_string ollama_url v;
    Ok (OllamaInput.mk model prompt suffix system template context stream raw format keep_alive images options x)
  else Ok i.

Definition assign_response (r : OllamaAPIResponse.t) (key : string) (v : value)
    : result OllamaAPIResponse.t :=
  let '(OllamaAPIResponse.mk model created_at response done context total load
                             prompt_count prompt_duration eval_count eval_duration) := r in
  let k := lower key in
  if (k =? "model")%string then
    x ← as_string model v;
    Ok (OllamaAPIResponse.mk x created_at response done context total load prompt_count prompt_duration eval_count eval_duration)
  else if (k =? "created_at")%string then
    x ← as_string created_at v;
    Ok (OllamaAPIResponse.mk model x response done context total load prompt_count prompt_duration eval_count eval_duration)
  else if (k =? "response")%string then
    x ← as_string response v;
    Ok (OllamaAPIResponse.mk model created_at x done context total load prompt_count prompt_duration eval_count eval_duration)
  else if (k =? "done")%string then
    x ← as_bool done v;
    Ok (OllamaAPIResponse.mk model created_at response x context total load prompt_count prompt_duration eval_count eval_duration)
  else if (k =? "context")%string then
    x ← as_ints v;
    Ok (OllamaAPIResponse.mk model created_at response done x total load prompt_count prompt_duration eval_count eval_duration)
  else if (k =? "total_duration")%string then
    x ← as_int 64 "int64" total v;
    Ok (OllamaAPIResponse.mk model created_at response done context x load prompt_count prompt_duration eval_count eval_duration)
  else if (k =? "load_duration")%string then
    x ← as_int 64 "int64" load v;
    Ok (OllamaAPIResponse.mk model created_at response done context total x prompt_count prompt_duration eval_count eval_duration)
  else if (k =? "prompt_eval_count")%string then
    x ← as_int 32 "int" prompt_count v;
    Ok (OllamaAPIResponse.mk model created_at response done context total load x prompt_duration eval_count eval_duration)
  else if (k =? "prompt_eval_duration")%string then
    x ← as_int 64 "int64" prompt_duration v;
    Ok (OllamaAPIResponse.mk model created_at response done context total load prompt_count x eval_count eval_duration)
  else if (k =? "eval_count")%string then
    x ← as_int 32 "int" eval_count v;
    Ok (OllamaAPIResponse.mk model created_at response done context total load prompt_count prompt_duration x eval_duration)
  else if (k =? "eval_duration")%string then
    x ← as_int 64 "int64" eval_duration v;
    Ok (OllamaAPIResponse.mk model created_at response done context total load prompt_count prompt_duration eval_count x)
  else Ok r.

(** A struct is filled member by member; null leaves it at its zero value. *)
Definition decode_struct {T : Type} (zero : T) (assign : T -> string -> value -> result T)
    (ty : string) (v : value) : result T :=
  match v with
  | Obj kvs =>
      fold_left (fun acc (kv : string * value) => t ← acc; assign t kv.1 kv.2) kvs (Ok zero)
  | Null => Ok zero
  | _ => mismatch v ty
  end.

Definition decode_map (v : value) : result (gmap string any) :=
  m ← as_map None v; Ok (default ∅ m).

(** *** Writing *)

(** A document ready to be laid out: scalars are already text. *)
Inductive doc : Type :=
| DScalar (text : string)
| DArr (items : list doc)
| DObj (members : list (string * doc)).

Definition hex_digit (n : N) : ascii :=
  if (n <? 10)%N then ascii_of_N (48 + n) else ascii_of_N (87 + n).

(** Go's escaping, HTML-safe: the quote, the backslash, control bytes and
    the three characters [<], [>] and [&]. *)
Definition escape_ascii (c : ascii) : string :=
  let n := N_of_ascii c in
  if (c =? "034")%char then "\" +:+ dq
  else if (c =? "\")%char then "\\"
  else if (c =? "010")%char then "\n"
  else if (c =? "013")%char then "\r"
  else if (c =? "009")%char then "\t"
  else if (n <? 32)%N || (c =? "<")%char || (c =? ">")%char || (c =? "&")%char then
    "\u00" +:+ String (hex_digit (n / 16)) (String (hex_digit (n mod 16)) "")
  else String c "".

Fixpoint escape (s : string) : string :=
  match s with
  | String c rest => escape_ascii c +:+ escape rest
  | EmptyString => EmptyString
  end.

Definition quote (s : string) : string := dq +:+ escape s +:+ dq.

Definition text_of_Z (z : Z) : string := NilZero.string_of_int (Z.to_int z).

Fixpoint zeros (n : nat) : string :=
  match n with
  | O => ""
  | S n => String "0" (zeros n)
  end.

(** [q / 10^j] written with [j] decimals. *)
Definition decimal (q : Z) (j : nat) : string :=
  let ds := text_of_Z q in
  match j with
  | O => ds
  | S _ =>
      let ds := zeros (S j - String.length ds) +:+ ds in
      let k := (String.length ds - j)%nat in
      substring 0 k ds +:+ "." +:+ substring k j ds
  end.

Fixpoint first_some {A B : Type} (f : A -> option B) (l : list A) : option B :=
  match l with
  | [] => None
  | a :: rest =>
      match f a with
      | Some b => Some b
      | None => first_some f rest
      end
  end.

(** The shortest decimal with at most 22 decimals that reads back as the
    same float64, and the exact binary expansion when there is none. *)
Definition text_of_float (f : float) : result string :=
  match Prim2SF f with
  | S754_zero s => Ok (if s then "-0" else "0")
  | S754_finite s m e =>
      let num := (Z.pos m * 2 ^ Z.max e 0)%Z in
      let den := (2 ^ Z.max (- e) 0)%Z in
      let candidate (j : nat) : option string :=
        let q := ((2 * num * 10 ^ Z.of_nat j + den) / (2 * den))%Z in
        if (q <? 2 ^ 53)%Z
           && (float_of_Z q / pow10 (Z.of_nat j) =? PrimFloat.abs f)%float
        then Some (decimal q j) else None in
      let exact :=
        if (0 <=? e)%Z then decimal num 0
        else decimal (Z.pos m * 5 ^ (- e))%Z (Z.to_nat (- e)) in
      Ok ((if s then "-" else "")
          +:+ default exact (first_some candidate (seq 0 23)))
  | _ => Err "json: unsupported value"
  end.

(** Members in the byte order of their keys, as Go writes a map; a key that
    is met again replaces the earlier one. *)
Fixpoint insert_sorted {A : Type} (k : string) (a : A) (l : list (string * A))
    : list (string * A) :=
  match l with
  | [] => [(k, a)]
  | (k', a') :: rest =>
      if (k =? k')%string then (k, a) :: rest
      else if String.leb k k' then (k, a) :: l
      else (k', a') :: insert_sorted k a rest
  end.

Definition sort_members {A : Type} (l : list (string * A)) : list (string * A) :=
  fold_left (fun acc (ka : string * A) => insert_sorted ka.1 ka.2 acc) l [].

Definition bool_doc (b : bool) : doc := DScalar (if b then "true" else "false").

Fixpoint any_doc (a : any) : result doc :=
  match a with
  | ANil => Ok (DScalar "null")
  | ABool b => Ok (bool_doc b)
  | AFloat f => t ← text_of_float f; Ok (DScalar t)
  | AString s => Ok (DScalar (quote s))
  | AArray l =>
      ds ← (fix items (l : list any) : result (list doc) :=
              match l with
              | [] => Ok []
              | a :: rest => d ← any_doc a; ds ← items rest; Ok (d :: ds)
              end) l;
      Ok (DArr ds)
  | AObject kvs =>
      ms ← (fix members (kvs : list (string * any)) : result (list (string * doc)) :=
              match kvs with
              | [] => Ok []
              | (k, a) :: rest => d ← any_doc a; ms ← members rest; Ok ((k, d) :: ms)
              end) kvs;
      Ok (DObj (sort_members ms))
  end.

Definition metaval_doc (v : metaval) : doc :=
  match v with
  | MString s => DScalar (quote s)
  | MInt n => DScalar (text_of_Z n)
  | MBool b => bool_doc b
  | MBoolPtr (Some b) => bool_doc b
  | MBoolPtr None => DScalar "null"
  end.

Fixpoint spaces (n : nat) : string :=
  match n with
  | O => ""
  | S n => "  " +:+ spaces n
  end.

(** The line break of [MarshalIndent(_, "", "  ")] at a nesting depth;
    nothing for [Marshal]. *)
Definition break (pretty : bool) (depth : nat) : string :=
  if pretty then nl +:+ spaces depth else "".

Fixpoint print (pretty : bool) (depth : nat) (d : doc) : string :=
  match d with
  | DScalar t => t
  | DArr [] => "[]"
  | DArr (d :: rest) =>
      "[" +:+ break pretty (S depth) +:+ print pretty (S depth) d
      +:+ (fix more (ds : list doc) : string :=
             match ds with
             | [] => ""
             | d :: rest => "," +:+ break pretty (S depth) +:+ print pretty (S depth) d +:+ more rest
             end) rest
      +:+ break pretty depth +:+ "]"
  | DObj [] => "{}"
  | DObj ((k, d) :: rest) =>
      let colon := if pretty then ": " else ":" in
      "{" +:+ break pretty (S depth) +:+ quote k +:+ colon +:+ print pretty (S depth) d
      +:+ (fix more (ms : list (string * doc)) : string :=
             match ms with
             | [] => ""
             | (k, d) :: rest =>
                 "," +:+ break pretty (S depth) +:+ quote k +:+ colon
                 +:+ print pretty (S depth) d +:+ more rest
             end) rest
      +:+ break pretty depth +:+ "}"
  end.

(** The two files tag their structs differently. *)
Inductive file : Type := MainFile | ReagentFile.

(** A member, left out when it is tagged [omitempty] and empty. *)
Definition member (omitempty empty : bool) (k : string) (d : doc) : list (string * doc) :=
  if omitempty && empty then [] else [(k, d)].

Definition ints_doc (l : list Z) : doc := DArr (map (fun z => DScalar (text_of_Z z)) l).

Definition strings_doc (l : list string) : doc := DArr (map (fun s => DScalar (quote s)) l).

Definition is_nil (a : any) : bool :=
  match a with
  | ANil => true
  | _ => false
  end.

Definition is_empty (s : string) : bool := (s =? "")%string.

Definition request_doc (f : file) (r : OllamaAPIRequest.t) : result doc :=
  format ← any_doc (OllamaAPIRequest.Format r);
  options ← collect (fun ka : string * any => d ← any_doc ka.2; Ok (ka.1, d))
              (map_to_list (default ∅ (OllamaAPIRequest.Options r)));
  let model := member false false "model" (DScalar (quote (OllamaAPIRequest.Model r))) in
  let prompt := member false false "prompt" (DScalar (quote (OllamaAPIRequest.Prompt r))) in
  let suffix := member true (is_empty (OllamaAPIRequest.Suffix r)) "suffix"
                  (DScalar (quote (OllamaAPIRequest.Suffix r))) in
  let system := member true (is_empty (OllamaAPIRequest.System r)) "system"
                  (DScalar (quote (OllamaAPIRequest.System r))) in
  let template := member true (is_empty (OllamaAPIRequest.Template r)) "template"
                    (DScalar (quote (OllamaAPIRequest.Template r))) in
  let context := member true (bool_decide (OllamaAPIRequest.Context r = [])) "context"
                   (ints_doc (OllamaAPIRequest.Context r)) in
  let stream :=
    match OllamaAPIRequest.Stream r with
    | Some b => [("stream", bool_doc b)]
    | None => []
    end in
  let raw := member true (negb (OllamaAPIRequest.Raw r)) "raw" (bool_doc (OllamaAPIRequest.Raw r)) in
  let format := member true (is_nil (OllamaAPIRequest.Format r)) "format" format in
  let keep_alive := member true (is_empty (OllamaAPIRequest.KeepAlive r)) "keep_alive"
                      (DScalar (quote (OllamaAPIRequest.KeepAlive r))) in
  let images := member true (bool_decide (OllamaAPIRequest.Images r = [])) "images"
                  (strings_doc (OllamaAPIRequest.Images r)) in
  let options := member true (bool_decide (options = [])) "options" (DObj (sort_members options)) in
  Ok (DObj
        match f with
        | MainFile =>
            model ++ prompt ++ suffix ++ system ++ template ++ context ++ stream ++ raw
            ++ format ++ keep_alive ++ images ++ options
        | ReagentFile =>
            model ++ prompt ++ system ++ template ++ context ++ stream ++ raw ++ format
            ++ options ++ suffix ++ keep_alive ++ images
        end%list).

Definition output_doc (f : file) (o : OllamaOutput.t) : doc :=
  let omit := match f with MainFile => false | ReagentFile => true end in
  let number (k : string) (z : Z) := member true (z =? 0)%Z k (DScalar (text_of_Z z)) in
  DObj
    (("success", bool_doc (OllamaOutput.Success o))
     :: member omit (is_empty (OllamaOutput.Response o)) "response"
          (DScalar (quote (OllamaOutput.Response o)))
     ++ member omit (is_empty (OllamaOutput.Model o)) "model"
          (DScalar (quote (OllamaOutput.Model o)))
     ++ member omit (is_empty (OllamaOutput.CreatedAt o)) "created_at"
          (DScalar (quote (OllamaOutput.CreatedAt o)))
     ++ [("done", bool_doc (OllamaOutput.Done o))]
     ++ member true (bool_decide (OllamaOutput.Context o = [])) "context"
          (ints_doc (OllamaOutput.Context o))
     ++ number "total_duration" (OllamaOutput.TotalDuration o)
     ++ number "load_duration" (OllamaOutput.LoadDuration o)
     ++ number "prompt_eval_count" (OllamaOutput.PromptEvalCount o)
     ++ number "prompt_eval_duration" (OllamaOutput.PromptEvalDuration o)
     ++ number "eval_count" (OllamaOutput.EvalCount o)
     ++ number "eval_duration" (OllamaOutput.EvalDuration o)
     ++ member true (is_empty (OllamaOutput.Error o)) "error"
          (DScalar (quote (OllamaOutput.Error o)))
     ++ member true (is_empty (OllamaOutput.ErrorType o)) "error_type"
          (DScalar (quote (OllamaOutput.ErrorType o)))
     ++ [("metadata",
          DObj (sort_members (map_to_list (metaval_doc <$> OllamaOutput.Metadata o))))])%list.

(** The codec of a file. *)
#[refine] Definition codec (f : file) : Codec := {|
  Unmarshal_OllamaInput s :=
    v ← read s; decode_struct OllamaInput.zero assign_input "main.OllamaInput" v;
  Marshal_OllamaAPIRequest r := d ← request_doc f r; Ok (print false 0 d);
  Unmarshal_OllamaAPIResponse s :=
    v ← read s; decode_struct OllamaAPIResponse.zero assign_response "main.OllamaAPIResponse" v;
  MarshalIndent_OllamaOutput o := Ok (print true 0 (output_doc f o));
  Unmarshal_map s := v ← read s; decode_map v
|}.
Proof.
  - intros o. eexists. split; [reflexivity|]. unfold output_doc. discriminate.
  - intros r d. unfold request_doc, mbind, result_bind.
    destruct (any_doc _); [|discriminate].
    destruct (collect _ _); [|discriminate].
    intros [= <-]. destruct f; discriminate.
Defined.

End Json.

(** ** What a run leaves behind *)

(** The run wrote once, to [output.json], and what it wrote encodes [o]. *)
Definition persisted {codec : Codec} (tr : list Event) (o : OllamaOutput.t) : Prop :=
  exists d s, writes tr = [("output.json", d, s)] /\ MarshalIndent_OllamaOutput o = Ok d.

(** A reply retrieval that returns and leaves [output.json] alone. *)
Definition quiet (readActual : M (result string)) : Prop :=
  forall h past, exists r evs, readActual h past = (Returns r, evs) /\ writes evs = [].

(** The first request of the run was answered by a nonzero status. *)
Definition request_failed (tr : list Event) : Prop :=
  exists u m hd b s rest, requests tr = (u, m, hd, b, s) :: rest /\ s <> 0%N.

(** The first request of the run was answered by status 0. *)
Definition request_succeeded (tr : list Event) : Prop :=
  exists u m hd b rest, requests tr = (u, m, hd, b, 0%N) :: rest.

(** The first read of the run was answered by a nonzero status. *)
Definition read_failed (tr : list Event) : Prop :=
  exists p s rest, reads tr = (p, s) :: rest /\ s <> 0%N.

(** The first read of the run was answered by status 0. *)
Definition read_succeeded (tr : list Event) : Prop :=
  exists p rest, reads tr = (p, 0%N) :: rest.

(** The events of a run up to and including its first request. *)
Fixpoint upto_request (tr : list Event) : list Event :=
  match tr with
  | [] => []
  | EvHttp u m hd b s :: _ => [EvHttp u m hd b s]
  | e :: rest => e :: upto_request rest
  end.

(** The reply text the validating variant makes up in a run of trace [tr]
    under host [h]: [simulatedResponse] at the model read back from the body
    of the request and at the time the host gives right after the request. *)
Definition made_up_reply {codec : Codec} (h : Host) (tr : list Event) : string :=
  match requests tr with
  | (_, _, _, body, _) :: _ =>
      Reagent.simulatedResponse (Reagent.extractModelFromRequest body)
        (time_now h (upto_request tr))
  | [] => ""
  end.

(** The required field that [generate_ollama] finds missing first. *)
Definition first_missing_field (input : OllamaInput.t) : string :=
  if (OllamaInput.Model input =? "")%string then "model"
  else if (OllamaInput.Prompt input =? "")%string then "prompt"
  else "ollama_url".

(** One of the three required fields is missing, or present and empty: both
    decode to the empty string. *)
Definition lacks_required_field (input : OllamaInput.t) : Prop :=
  OllamaInput.Model input = "" \/ OllamaInput.Prompt input = ""
  \/ OllamaInput.OllamaURL input = "".

(** [k] path separators. *)
Fixpoint slashes (k : nat) : string :=
  match k with
  | O => ""
  | S k => String "/" (slashes k)
  end.

(** The last byte of [s] is a path separator. *)
Fixpoint ends_with_slash (s : string) : bool :=
  match s with
  | EmptyString => false
  | String c EmptyString => (c =? "/")%char
  | String _ rest => ends_with_slash rest
  end.

(** Every violation of an input, in the order in which [validateInput]
    tests them. *)
Definition violations (input : OllamaInput.t) : list Error :=
  ((if (OllamaInput.Model input =? "")%string then ["model field is required"] else [])
   ++ (if (OllamaInput.Prompt input =? "")%string then ["prompt field is required"] else [])
   ++ (if (OllamaInput.OllamaURL input =? "")%string
       then ["ollama_url field is required"] else [])
   ++ (if negb (HasPrefix (OllamaInput.OllamaURL input) "http://")
          && negb (HasPrefix (OllamaInput.OllamaURL input) "https://")
       then ["ollama_url must be a valid HTTP/HTTPS URL"] else [])
   ++ (if (32768 <? len (OllamaInput.Prompt input))%N
       then ["prompt exceeds maximum length of 32768 characters"] else [])
   ++ (if negb (OllamaInput.System input =? "")%string
          && (8192 <? len (OllamaInput.System input))%N
       then ["system message exceeds maximum length of 8192 characters"] else [])
   ++ (if Reagent.temperature_out_of_range (default ∅ (OllamaInput.Options input))
       then ["temperature must be between 0 and 2"] else [])
   ++ (if Reagent.top_p_out_of_range (default ∅ (OllamaInput.Options input))
       then ["top_p must be between 0 and 1"] else []))%list.

(** The same violations grouped by field, in the order target id, payload,
    endpoint, then the remaining text and tuning parameters. *)
Definition violations_by_field (input : OllamaInput.t) : list Error :=
  ((if (OllamaInput.Model input =? "")%string then ["model field is required"] else [])
   ++ (if (OllamaInput.Prompt input =? "")%string then ["prompt field is required"] else [])
   ++ (if (32768 <? len (OllamaInput.Prompt input))%N
       then ["prompt exceeds maximum length of 32768 characters"] else [])
   ++ (if (OllamaInput.OllamaURL input =? "")%string
       then ["ollama_url field is required"] else [])
   ++ (if negb (HasPrefix (OllamaInput.OllamaURL input) "http://")
          && negb (HasPrefix (OllamaInput.OllamaURL input) "https://")
       then ["ollama_url must be a valid HTTP/HTTPS URL"] else [])
   ++ (if negb (OllamaInput.System input =? "")%string
          && (8192 <? len (OllamaInput.System input))%N
       then ["system message exceeds maximum length of 8192 characters"] else [])
   ++ (if Reagent.temperature_out_of_range (default ∅ (OllamaInput.Options input))
       then ["temperature must be between 0 and 2"] else [])
   ++ (if Reagent.top_p_out_of_range (default ∅ (OllamaInput.Options input))
       then ["top_p must be between 0 and 1"] else []))%list.

(** [n] times the byte [c]. *)
Fixpoint replicate_byte (n : nat) (c : ascii) : string :=
  match n with
  | O => ""
  | S n => String c (replicate_byte n c)
  end.

(** A model, a prompt of 32769 bytes and an endpoint with the wrong
    scheme: two violations, payload and endpoint. *)
Definition long_prompt_bad_scheme : OllamaInput.t :=
  OllamaInput.set_Model "m1"
    (OllamaInput.set_Prompt (replicate_byte (N.to_nat 32769) "a")
       (OllamaInput.set_OllamaURL "ftp://h" OllamaInput.zero)).

(** ** Hosts and inputs of the scenarios *)

(** A host that answers [status] to everything. *)
Definition constant_host (http read write : N) : Host :=
  {| float_http_request := fun _ _ _ _ _ => http;
     float_read_file := fun _ _ => read;
     float_write_file := fun _ _ _ => write;
     time_now := fun _ => "2024-01-01T00:00:00Z" |}.

Definition json_member (k v : string) : string := dq +:+ k +:+ dq +:+ ":" +:+ dq +:+ v +:+ dq.

(** Scenario A: [{"model":"m1","prompt":"hello","ollama_url":"http://h/"}]. *)
Definition scenarioA_bytes : string :=
  "{" +:+ json_member "model" "m1" +:+ "," +:+ json_member "prompt" "hello" +:+ ","
      +:+ json_member "ollama_url" "http://h/" +:+ "}".

(** Scenario B: the endpoint is missing. *)
Definition scenarioB_bytes : string :=
  "{" +:+ json_member "model" "m1" +:+ "," +:+ json_member "prompt" "hello" +:+ "}".

(** What scenario A decodes to. *)
Definition scenarioA_input : OllamaInput.t :=
  OllamaInput.set_Model "m1"
    (OllamaInput.set_Prompt "hello"
       (OllamaInput.set_OllamaURL "http://h/" OllamaInput.zero)).

(** The codecs of the two files. *)
Definition main_codec : Codec := Json.codec Json.MainFile.

Definition reagent_codec : Codec := Json.codec Json.ReagentFile.

(** A present endpoint with the wrong scheme, next to an empty model. *)
Definition empty_model_bad_scheme_bytes : string :=
  "{" +:+ json_member "model" "" +:+ "," +:+ json_member "prompt" "hello" +:+ ","
      +:+ json_member "ollama_url" "ftp://h" +:+ "}".

(** A present endpoint with the wrong scheme in an otherwise valid input. *)
Definition bad_scheme_bytes : string :=
  "{" +:+ json_member "model" "m1" +:+ "," +:+ json_member "prompt" "hello" +:+ ","
      +:+ json_member "ollama_url" "ftp://h" +:+ "}".

(** A valid input whose model name holds a double quote. *)
Definition quoted_model_bytes : string :=
  "{" +:+ json_member "model" ("a\" +:+ dq +:+ "b") +:+ "," +:+ json_member "prompt" "hello"
      +:+ "," +:+ json_member "ollama_url" "http://h" +:+ "}".

(** ** The probing variant: third Go file of [src/unnamed/part_000]

    Lines 732-1168.  Its structs, its [logToFloat], [writeOutputFile] and
    [makeHttpRequest], and its entry point are those of [main.go]; it differs
    in how it looks for the reply once the request is answered. *)

Module Probing.
Section Pipeline.
Context {codec : Codec}.

(** [readFloatResponseContent]: logs the path, then always returns an
    error. *)
Definition readFloatResponseContent (path : string) : M (result string) :=
  logToFloat ("Processing Float response from path: " +:+ path);;
  mret (Err "Float HTTP response mechanism requires host runtime support - HTTP request was sent successfully to Ollama, but response reading needs Float runtime integration").

(** The loop [for _, path := range responsePaths] of
    [readFloatFileContent]: the first path the host answers 0 to is handed
    to [readFloatResponseContent]; when there is none, an error. *)
Fixpoint probe (paths : list string) : M (result string) :=
  match paths with
  | [] => mret (Err "could not read HTTP response from any known Float location")
  | path :: rest =>
      addr0 path;;
      result ← floatReadFile path;
      if (result =? 0)%N then
        logToFloat ("Successfully read response from: " +:+ path);;
        readFloatResponseContent path
      else probe rest
  end.

Definition responsePaths : list string :=
  ["http_response.json"; "/tmp/http_response"; "response.json"; "/tmp/float_response.json"].

Definition readFloatFileContent : M (result string) := probe responsePaths.

(** [readHttpResponseFromFloat]: the primary path, then one alternative;
    when either is answered 0 the probing starts over from the list. *)
Definition readHttpResponseFromFloat : M (result string) :=
  let responsePath := "http_response.json" in
  addr0 responsePath;;
  logToFloat "Reading HTTP response from Float";;
  result ← floatReadFile responsePath;
  let continue :=
    logToFloat "Successfully initiated HTTP response read from Float";;
    readFloatFileContent in
  if negb (result =? 0)%N then
    let altPath := "/tmp/http_response" in
    addr0 altPath;;
    result ← floatReadFile altPath;
    if negb (result =? 0)%N then
      mret (Err ("failed to read HTTP response file: error code " +:+ dec result))
    else continue
  else continue.

(** [readActualOllamaResponse]: declared, never called. *)
Definition readActualOllamaResponse : M (result string) :=
  logToFloat "Processing Ollama API response through Float runtime";;
  mret (Err "Ollama HTTP request sent successfully, but Float runtime HTTP response handling requires host integration").

Definition makeHttpRequest (url method body : string) : M (result string) :=
  logToFloat ("Making HTTP " +:+ method +:+ " request to " +:+ url);;
  logToFloat ("Request body: " +:+ body);;
  let headers := "Content-Type: application/json" +:+ cr +:+ nl in
  addr0 url;;
  addr0 method;;
  addr0 headers;;
  addr0 body;;
  result ← floatHttpRequest url method headers body;
  if negb (result =? 0)%N then
    logToFloat ("HTTP request failed with status: " +:+ dec result);;
    mret (Err ("HTTP request failed with status code: " +:+ dec result))
  else
    r ← readHttpResponseFromFloat;
    match r with
    | Err err => mret (Err ("failed to read response: " +:+ err))
    | Ok responseBody =>
        logToFloat ("Received response (" +:+ dec (len responseBody) +:+ " bytes)");;
        mret (Ok responseBody)
    end.

(** The exported entry point: the text of [main.go]'s. *)
Definition generate_ollama (inputBytes : string) : M N :=
  logToFloat "Starting Ollama generation request";;
  match Unmarshal_OllamaInput inputBytes with
  | Err err =>
      logToFloat ("Failed to parse input: " +:+ err);;
      let output :=
        failureLiteral ("Invalid input JSON: " +:+ err) "INPUT_PARSE_ERROR"
          {[ "error_stage" := MString "input_parsing" ]} in
      _ ← writeOutputFile output;
      mret 1%N
  | Ok input =>
  if (OllamaInput.Model input =? "")%string then
    logToFloat "Model is required";;
    let output :=
      failureLiteral "Model field is required" "VALIDATION_ERROR"
        (<[ "error_stage" := MString "validation" ]>
           {[ "missing_field" := MString "model" ]}) in
    _ ← writeOutputFile output;
    mret 1%N
  else if (OllamaInput.Prompt input =? "")%string then
    logToFloat "Prompt is required";;
    let output :=
      failureLiteral "Prompt field is required" "VALIDATION_ERROR"
        (<[ "error_stage" := MString "validation" ]>
           {[ "missing_field" := MString "prompt" ]}) in
    _ ← writeOutputFile output;
    mret 1%N
  else if (OllamaInput.OllamaURL input =? "")%string then
    logToFloat "ERROR: ollama_url is required";;
    let output :=
      failureLiteral
        "ollama_url field is required - please specify the Ollama server URL (e.g., 'http://localhost:11434')"
        "VALIDATION_ERROR"
        (<[ "error_stage" := MString "validation" ]>
           {[ "missing_field" := MString "ollama_url" ]}) in
    _ ← writeOutputFile output;
    mret 1%N
  else
  let input := OllamaInput.set_OllamaURL (TrimRight (OllamaInput.OllamaURL input) "/") input in
  logToFloat ("Generating with model: " +:+ OllamaInput.Model input);;
  logToFloat ("Prompt length: " +:+ dec (len (OllamaInput.Prompt input)) +:+ " characters");;
  let apiRequest := apiRequestOf input in
  match Marshal_OllamaAPIRequest apiRequest with
  | Err err =>
      logToFloat ("Failed to marshal request: " +:+ err);;
      let output :=
        failureLiteral ("Failed to prepare request: " +:+ err) "REQUEST_MARSHAL_ERROR"
          {[ "error_stage" := MString "request_preparation" ]} in
      _ ← writeOutputFile output;
      mret 1%N
  | Ok requestBody =>
  let url := OllamaInput.OllamaURL input +:+ "/api/generate" in
  logToFloat ("Making request to: " +:+ url);;
  r ← makeHttpRequest url "POST" requestBody;
  match r with
  | Err err =>
      logToFloat ("HTTP request failed: " +:+ err);;
      let output :=
        failureLiteral ("Failed to connect to Ollama: " +:+ err) "HTTP_REQUEST_ERROR"
          (<[ "error_stage" := MString "http_request" ]>
             {[ "ollama_url" := MString url ]}) in
      _ ← writeOutputFile output;
      mret 1%N
  | Ok responseBody =>
  match Unmarshal_OllamaAPIResponse responseBody with
  | Err err =>
      logToFloat ("Failed to parse response: " +:+ err);;
      let output :=
        failureLiteral ("Invalid response from Ollama: " +:+ err) "RESPONSE_PARSE_ERROR"
          (<[ "error_stage" := MString "response_parsing" ]>
             {[ "raw_response" := MString responseBody ]}) in
      _ ← writeOutputFile output;
      mret 1%N
  | Ok apiResponse =>
  let output :=
    successLiteral apiResponse
      (<[ "input_prompt_length" := MInt (Z.of_N (len (OllamaInput.Prompt input))) ]>
      (<[ "response_length" := MInt (Z.of_N (len (OllamaAPIResponse.Response apiResponse))) ]>
      (<[ "ollama_url" := MString (OllamaInput.OllamaURL input) ]>
      (<[ "stream_mode" := MBoolPtr (OllamaInput.Stream input) ]>
      (<[ "has_suffix" := MBool (negb (OllamaInput.Suffix input =? "")%string) ]>
      (<[ "has_system" := MBool (negb (OllamaInput.System input =? "")%string) ]>
      (<[ "has_images" := MBool (0 <? length (OllamaInput.Images input))%nat ]>
         {[ "processing_complete" := MBool true ]}))))))) in
  writeErr ← writeOutputFile output;
  match writeErr with
  | Some writeErr =>
      logToFloat ("Failed to write output: " +:+ writeErr);;
      mret 1%N
  | None =>
      logToFloat "Ollama generation completed successfully";;
      logToFloat ("Generated response length: "
                  +:+ dec (len (OllamaAPIResponse.Response apiResponse)) +:+ " characters");;
      mret 0%N
  end
  end
  end
  end
  end.
End Pipeline.
End Probing.

(** ** The defaulting variant: second Go file of [src/unnamed/part_000]

    Lines 423-731.  Its [OllamaOutput] and [OllamaAPIResponse] are those of
    [main.go], tags included, and so are its [logToFloat] and
    [writeOutputFile]; its input and request structs differ, it declares the
    import [float_http_request] without the two header words and no
    [float_read_file] at all, and an empty endpoint is not an error. *)

Module Defaulting.

Module OllamaInput.
Record t : Type := mk {
  Model : string;
  Prompt : string;
  System : string;
  Template : string;
  Context : list Z;
  Stream : bool;
  Raw : bool;
  Format : string;
  Options : option (gmap string any);
  OllamaURL : string;
  Timeout : Z
}.

(** The zero value [var input OllamaInput]. *)
Definition zero : t := mk "" "" "" "" [] false false "" None "" 0.

(** [input.OllamaURL = u]. *)
Definition set_OllamaURL (u : string) (i : t) : t :=
  mk (Model i) (Prompt i) (System i) (Template i) (Context i) (Stream i) (Raw i)
     (Format i) (Options i) u (Timeout i).
End OllamaInput.

Module OllamaAPIRequest.
Record t : Type := mk {
  Model : string;
  Prompt : string;
  System : string;
  Template : string;
  Context : list Z;
  Stream : bool;
  Raw : bool;
  Format : string;
  Options : option (gmap string any)
}.
End OllamaAPIRequest.

(** [encoding/json] at the two structs that are this file's own. *)
Class InputCodec : Type := {
  (** [json.Unmarshal(inputBytes, &input)] on a zero [OllamaInput]. *)
  Unmarshal_Input : string -> result OllamaInput.t;
  (** [json.Marshal(apiRequest)]. *)
  Marshal_Request : OllamaAPIRequest.t -> result string;
  (** An encoded request is a JSON object, hence not empty. *)
  Marshal_Request_nonempty : forall r d, Marshal_Request r = Ok d -> d <> ""
}.

(** The literal [OllamaAPIRequest{Model: input.Model, ...}]: nine fields;
    the endpoint and the timeout are left out. *)
Definition apiRequestOf (input : OllamaInput.t) : OllamaAPIRequest.t :=
  {| OllamaAPIRequest.Model := OllamaInput.Model input;
     OllamaAPIRequest.Prompt := OllamaInput.Prompt input;
     OllamaAPIRequest.System := OllamaInput.System input;
     OllamaAPIRequest.Template := OllamaInput.Template input;
     OllamaAPIRequest.Context := OllamaInput.Context input;
     OllamaAPIRequest.Stream := OllamaInput.Stream input;
     OllamaAPIRequest.Raw := OllamaInput.Raw input;
     OllamaAPIRequest.Format := OllamaInput.Format input;
     OllamaAPIRequest.Options := OllamaInput.Options input |}.

(** The raw literal [makeHttpRequest] returns as the reply. *)
Definition fixedResponse : string :=
  "{" +:+ dq +:+ "response" +:+ dq +:+ ": " +:+ dq +:+ "Generated response from Ollama" +:+ dq
  +:+ ", " +:+ dq +:+ "done" +:+ dq +:+ ": true, "
  +:+ dq +:+ "model" +:+ dq +:+ ": " +:+ dq +:+ "llama2" +:+ dq +:+ "}".

Section Pipeline.
Context {codec : Codec} {icodec : InputCodec}.

(** [makeHttpRequest]: url, method and body are handed to the host, which
    is given no headers; on status 0 the reply is a constant. *)
Definition makeHttpRequest (url method body : string) : M (result string) :=
  addr0 url;;
  addr0 method;;
  addr0 body;;
  result ← floatHttpRequest url method "" body;
  if negb (result =? 0)%N then
    mret (Err ("HTTP request failed with code: " +:+ dec result))
  else
    mret (Ok fixedResponse).

(** The exported entry point. *)
Definition generate_ollama (inputBytes : string) : M N :=
  logToFloat "Starting Ollama generation request";;
  match Unmarshal_Input inputBytes with
  | Err err =>
      logToFloat ("Failed to parse input: " +:+ err);;
      let output :=
        failureLiteral ("Invalid input JSON: " +:+ err) "INPUT_PARSE_ERROR"
          {[ "error_stage" := MString "input_parsing" ]} in
      _ ← writeOutputFile output;
      mret 1%N
  | Ok input =>
  if (OllamaInput.Model input =? "")%string then
    logToFloat "Model is required";;
    let output :=
      failureLiteral "Model field is required" "VALIDATION_ERROR"
        (<[ "error_stage" := MString "validation" ]>
           {[ "missing_field" := MString "model" ]}) in
    _ ← writeOutputFile output;
    mret 1%N
  else if (OllamaInput.Prompt input =? "")%string then
    logToFloat "Prompt is required";;
    let output :=
      failureLiteral "Prompt field is required" "VALIDATION_ERROR"
        (<[ "error_stage" := MString "validation" ]>
           {[ "missing_field" := MString "prompt" ]}) in
    _ ← writeOutputFile output;
    mret 1%N
  else
  input ← (if (OllamaInput.OllamaURL input =? "")%string then
             logToFloat "Using default Ollama URL";;
             mret (OllamaInput.set_OllamaURL "http://localhost:11434" input)
           else mret input);
  let input := OllamaInput.set_OllamaURL (TrimRight (OllamaInput.OllamaURL input) "/") input in
  logToFloat ("Generating with model: " +:+ OllamaInput.Model input);;
  logToFloat ("Prompt length: " +:+ dec (len (OllamaInput.Prompt input)) +:+ " characters");;
  let apiRequest := apiRequestOf input in
  match Marshal_Request apiRequest with
  | Err err =>
      logToFloat ("Failed to marshal request: " +:+ err);;
      let output :=
        failureLiteral ("Failed to prepare request: " +:+ err) "REQUEST_MARSHAL_ERROR"
          {[ "error_stage" := MString "request_preparation" ]} in
      _ ← writeOutputFile output;
      mret 1%N
  | Ok requestBody =>
  let url := OllamaInput.OllamaURL input +:+ "/api/generate" in
  logToFloat ("Making request to: " +:+ url);;
  r ← makeHttpRequest url "POST" requestBody;
  match r with
  | Err err =>
      logToFloat ("HTTP request failed: " +:+ err);;
      let output :=
        failureLiteral ("Failed to connect to Ollama: " +:+ err) "HTTP_REQUEST_ERROR"
          (<[ "error_stage" := MString "http_request" ]>
             {[ "ollama_url" := MString url ]}) in
      _ ← writeOutputFile output;
      mret 1%N
  | Ok responseBody =>
  match Unmarshal_OllamaAPIResponse responseBody with
  | Err err =>
      logToFloat ("Failed to parse response: " +:+ err);;
      let output :=
        failureLiteral ("Invalid response from Ollama: " +:+ err) "RESPONSE_PARSE_ERROR"
          (<[ "error_stage" := MString "response_parsing" ]>
             {[ "raw_response" := MString responseBody ]}) in
      _ ← writeOutputFile output;
      mret 1%N
  | Ok apiResponse =>
  let output :=
    successLiteral apiResponse
      (<[ "input_prompt_length" := MInt (Z.of_N (len (OllamaInput.Prompt input))) ]>
      (<[ "response_length" := MInt (Z.of_N (len (OllamaAPIResponse.Response apiResponse))) ]>
      (<[ "ollama_url" := MString (OllamaInput.OllamaURL input) ]>
      (<[ "stream_mode" := MBool (OllamaInput.Stream input) ]>
         {[ "processing_complete" := MBool true ]})))) in
  writeErr ← writeOutputFile output;
  match writeErr with
  | Some writeErr =>
      logToFloat ("Failed to write output: " +:+ writeErr);;
      mret 1%N
  | None =>
      logToFloat "Ollama generation completed successfully";;
      logToFloat ("Generated response length: "
                  +:+ dec (len (OllamaAPIResponse.Response apiResponse)) +:+ " characters");;
      mret 0%N
  end
  end
  end
  end
  end.
End Pipeline.

(** *** The executable codec of the two structs *)

Definition andThen {A B : Type} (r : result A) (f : A -> result B) : result B :=
  match r with
  | Ok a => f a
  | Err e => Err e
  end.

Definition assign_input (i : OllamaInput.t) (key : string) (v : Json.value)
    : result OllamaInput.t :=
  let '(OllamaInput.mk model prompt system template context stream raw format options
                       ollama_url timeout) := i in
  let k := Json.lower key in
  if (k =? "model")%string then
    andThen (Json.as_string model v) (fun x =>
    Ok (OllamaInput.mk x prompt system template context stream raw format options ollama_url timeout))
  else if (k =? "prompt")%string then
    andThen (Json.as_string prompt v) (fun x =>
    Ok (OllamaInput.mk model x system template context stream raw format options ollama_url timeout))
  else if (k =? "system")%string then
    andThen (Json.as_string system v) (fun x =>
    Ok (OllamaInput.mk model prompt x template context stream raw format options ollama_url timeout))
  else if (k =? "template")%string then
    andThen (Json.as_string template v) (fun x =>
    Ok (OllamaInput.mk model prompt system x context stream raw format options ollama_url timeout))
  else if (k =? "context")%string then
    andThen (Json.as_ints v) (fun x =>
    Ok (OllamaInput.mk model prompt system template x stream raw format options ollama_url timeout))
  else if (k =? "stream")%string then
    andThen (Json.as_bool stream v) (fun x =>
    Ok (OllamaInput.mk model prompt system template context x raw format options ollama_url timeout))
  else if (k =? "raw")%string then
    andThen (Json.as_bool raw v) (fun x =>
    Ok (OllamaInput.mk model prompt system template context stream x format options ollama_url timeout))
  else if (k =? "format")%string then
    andThen (Json.as_string format v) (fun x =>
    Ok (OllamaInput.mk model prompt system template context stream raw x options ollama_url timeout))
  else if (k =? "options")%string then
    andThen (Json.as_map options v) (fun x =>
    Ok (OllamaInput.mk model prompt system template context stream raw format x ollama_url timeout))
  else if (k =? "ollama_url")%string then
    andThen (Json.as_string ollama_url v) (fun x =>
    Ok (OllamaInput.mk model prompt system template context stream raw format options x timeout))
  else if (k =? "timeout")%string then
    andThen (Json.as_int 32 "int" timeout v) (fun x =>
    Ok (OllamaInput.mk model prompt system template context stream raw format options ollama_url x))
  else Ok i.

Definition request_doc (r : OllamaAPIRequest.t) : result Json.doc :=
  andThen
    (Json.collect (fun ka : string * any => andThen (Json.any_doc ka.2) (fun d => Ok (ka.1, d)))
       (map_to_list (default ∅ (OllamaAPIRequest.Options r))))
    (fun options =>
       Ok (Json.DObj
             (Json.member false false "model" (Json.DScalar (Json.quote (OllamaAPIRequest.Model r)))
              ++ Json.member false false "prompt"
                   (Json.DScalar (Json.quote (OllamaAPIRequest.Prompt r)))
              ++ Json.member true (Json.is_empty (OllamaAPIRequest.System r)) "system"
                   (Json.DScalar (Json.quote (OllamaAPIRequest.System r)))
              ++ Json.member true (Json.is_empty (OllamaAPIRequest.Template r)) "template"
                   (Json.DScalar (Json.quote (OllamaAPIRequest.Template r)))
              ++ Json.member true (bool_decide (OllamaAPIRequest.Context r = [])) "context"
                   (Json.ints_doc (OllamaAPIRequest.Context r))
              ++ Json.member false false "stream" (Json.bool_doc (OllamaAPIRequest.Stream r))
              ++ Json.member true (negb (OllamaAPIRequest.Raw r)) "raw"
                   (Json.bool_doc (OllamaAPIRequest.Raw r))
              ++ Json.member true (Json.is_empty (OllamaAPIRequest.Format r)) "format"
                   (Json.DScalar (Json.quote (OllamaAPIRequest.Format r)))
              ++ Json.member true (bool_decide (options = [])) "options"
                   (Json.DObj (Json.sort_members options)))%list)).

#[refine] Definition json_codec : InputCodec := {|
  Unmarshal_Input s :=
    andThen (Json.read s) (Json.decode_struct OllamaInput.zero assign_input "main.OllamaInput");
  Marshal_Request r := andThen (request_doc r) (fun d => Ok (Json.print false 0 d))
|}.
Proof.
  intros r d. unfold request_doc, andThen.
  destruct (Json.collect _ _); [|discriminate]. intros [= <-]. discriminate.
Defined.

End Defaulting.

(** [input.System = s]. *)
Definition with_System (s : string) (i : OllamaInput.t) : OllamaInput.t :=
  OllamaInput.mk (OllamaInput.Model i) (OllamaInput.Prompt i) (OllamaInput.Suffix i) s
    (OllamaInput.Template i) (OllamaInput.Context i) (OllamaInput.Stream i)
    (OllamaInput.Raw i) (OllamaInput.Format i) (OllamaInput.KeepAlive i)
    (OllamaInput.Images i) (OllamaInput.Options i) (OllamaInput.OllamaURL i).

(** The headers every request is sent with. *)
Definition json_headers : string := "Content-Type: application/json" +:+ cr +:+ nl.

(** Input bytes that are not JSON. *)
Definition not_json_bytes : string := "model=m1".

(** The error types with the [error_stage] each is reported under. *)
Definition error_stages : list (string * string) :=
  [("INPUT_PARSE_ERROR", "input_parsing"); ("VALIDATION_ERROR", "validation");
   ("REQUEST_MARSHAL_ERROR", "request_preparation");
   ("HTTP_REQUEST_ERROR", "http_request");
   ("RESPONSE_PARSE_ERROR", "response_parsing")].

(** The input with its stream flag made explicit: an absent flag reads
    [false]. *)
Definition stream_defaulted (input : OllamaInput.t) : OllamaInput.t :=
  OllamaInput.set_Stream (Some (default false (OllamaInput.Stream input))) input.

(** Scenario A with an endpoint of two path separators. *)
Definition separators_bytes : string :=
  "{" +:+ json_member "model" "m1" +:+ "," +:+ json_member "prompt" "hello" +:+ ","
      +:+ json_member "ollama_url" "//" +:+ "}".

(** The two errors the probing of the reply can end in. *)
Definition no_location_error : Error :=
  "could not read HTTP response from any known Float location".

Definition mechanism_error : Error :=
  "Float HTTP response mechanism requires host runtime support - HTTP request was sent successfully to Ollama, but response reading needs Float runtime integration".

(** What a probe of [paths] reads: the paths in order, each answered by a
    nonzero status, up to the first that is answered by 0; [found] tells
    whether there was one. *)
Fixpoint probed (paths : list string) (rs : list (string * N)) (found : bool) : Prop :=
  match paths, rs with
  | [], [] => found = false
  | p :: paths, (q, s) :: rs =>
      q = p /\ if (s =? 0)%N then rs = [] /\ found = true else probed paths rs found
  | _, _ => False
  end.

(** The endpoint the defaulting variant works with. *)
Definition endpoint_or_default (input : Defaulting.OllamaInput.t) : string :=
  if (Defaulting.OllamaInput.OllamaURL input =? "")%string then "http://localhost:11434"
  else Defaulting.OllamaInput.OllamaURL input.

(** Scenario A, without the trailing separator, at temperature 3. *)
Definition hot_bytes : string :=
  "{" +:+ json_member "model" "m1" +:+ "," +:+ json_member "prompt" "hello" +:+ ","
      +:+ json_member "ollama_url" "http://h" +:+ ","
      +:+ dq +:+ "options" +:+ dq +:+ ":{" +:+ dq +:+ "temperature" +:+ dq +:+ ":3}}".

(** What scenario B, where the endpoint is missing, decodes to in the
    defaulting variant. *)
Definition scenarioB_defaulting_input : Defaulting.OllamaInput.t :=
  Defaulting.OllamaInput.mk "m1" "hello" "" "" [] false false "" None "" 0.



(** ** Reasoning about runs

    [wp m h past Q]: run after the events [past], program [m] ends in an
    outcome and a complete trace that satisfy [Q]. *)

Definition wp {A : Type} (m : M A) (h : Host) (past : list Event)
    (Q : Outcome A -> list Event -> Prop) : Prop :=
  Q (m h past).1 (past ++ (m h past).2)%list.

(** Two programs agree after [past] when, as long as the first reads
    nothing, they end in the same outcome after the same events. *)
Definition agree {A : Type} (m1 m2 : M A) (h : Host) (past : list Event) : Prop :=
  reads (m1 h past).2 = [] -> m1 h past = m2 h past.

Lemma wp_run {A : Type} (m : M A) (h : Host) (Q : Outcome A -> list Event -> Prop) :
  wp m h [] Q <-> Q (run m h).1 (run m h).2.
Proof. reflexivity. Qed.

Lemma wp_ret {A : Type} (a : A) h past (Q : Outcome A -> list Event -> Prop) :
  Q (Returns a) past -> wp (mret a) h past Q.
Proof. unfold wp; simpl. by rewrite app_nil_r. Qed.

Lemma wp_bind {A B : Type} (m : M A) (f : A -> M B) h past
    (Q : Outcome B -> list Event -> Prop) :
  wp m h past (fun o tr =>
    match o with
    | Returns a => wp (f a) h tr Q
    | Panics msg => Q (Panics msg) tr
    end) ->
  wp (m ≫= f) h past Q.
Proof.
  unfold wp, mbind, M_bind.
  destruct (m h past) as [[a|msg] evs]; simpl; [|done].
  destruct (f a h (past ++ evs)%list) as [o evs']; simpl.
  by rewrite app_assoc.
Qed.

Lemma wp_any {A : Type} (m : M A) h past (Q : Outcome A -> list Event -> Prop) :
  (forall o evs, Q o (past ++ evs)%list) -> wp m h past Q.
Proof. intros HQ. apply HQ. Qed.

Lemma wp_addr0_bind {A : Type} s (k : unit -> M A) h past
    (Q : Outcome A -> list Event -> Prop) :
  s <> "" -> wp (k tt) h past Q -> wp (addr0 s ≫= k) h past Q.
Proof.
  intros Hs Hk. apply wp_bind. destruct s; [done|]. by apply wp_ret.
Qed.

Lemma wp_http_bind {A : Type} u m hd b (k : N -> M A) h past
    (Q : Outcome A -> list Event -> Prop) :
  (forall status, status = float_http_request h past u m hd b ->
   wp (k status) h (past ++ [EvHttp u m hd b status])%list Q) ->
  wp (floatHttpRequest u m hd b ≫= k) h past Q.
Proof. intros Hk. apply wp_bind. by apply Hk. Qed.

Lemma wp_read_bind {A : Type} p (k : N -> M A) h past
    (Q : Outcome A -> list Event -> Prop) :
  (forall status, status = float_read_file h past p ->
   wp (k status) h (past ++ [EvRead p status])%list Q) ->
  wp (floatReadFile p ≫= k) h past Q.
Proof. intros Hk. apply wp_bind. by apply Hk. Qed.

Lemma wp_write_bind {A : Type} p d (k : N -> M A) h past
    (Q : Outcome A -> list Event -> Prop) :
  (forall status, status = float_write_file h past p d ->
   wp (k status) h (past ++ [EvWrite p d status])%list Q) ->
  wp (floatWriteFile p d ≫= k) h past Q.
Proof. intros Hk. apply wp_bind. by apply Hk. Qed.

Lemma wp_now_bind {A : Type} (k : string -> M A) h past
    (Q : Outcome A -> list Event -> Prop) :
  wp (k (time_now h past)) h past Q -> wp (timeNow ≫= k) h past Q.
Proof.
  intros Hk. apply wp_bind. unfold wp at 1; simpl. by rewrite app_nil_r.
Qed.

Lemma append_nonempty_l (s t : string) : s <> "" -> s +:+ t <> "".
Proof. by destruct s. Qed.

Section HelperRules.
Context {codec : Codec}.

Lemma logToFloat_nonempty msg : msg <> "" -> logToFloat msg = floatLog msg.
Proof. by destruct msg. Qed.

Lemma wp_log_bind {A : Type} msg (k : unit -> M A) h past
    (Q : Outcome A -> list Event -> Prop) :
  msg <> "" ->
  wp (k tt) h (past ++ [EvLog msg])%list Q ->
  wp (logToFloat msg ≫= k) h past Q.
Proof. intros Hm Hk. rewrite logToFloat_nonempty by done. by apply wp_bind. Qed.

(** [writeOutputFile] always reaches the host: one write of the encoded
    output to [output.json]; its result reports the host's status. *)
Lemma wp_writeOutputFile_bind {A : Type} o (k : option Error -> M A) h past
    (Q : Outcome A -> list Event -> Prop) :
  (forall d status,
     MarshalIndent_OllamaOutput o = Ok d ->
     status = float_write_file h past "output.json" d ->
     wp (k (if (status =? 0)%N then None else Some "failed to write output file"))
        h (past ++ [EvWrite "output.json" d status])%list Q) ->
  wp (writeOutputFile o ≫= k) h past Q.
Proof.
  intros Hk. destruct (MarshalIndent_total o) as (d & Hd & Hne).
  unfold writeOutputFile. rewrite Hd.
  apply wp_bind, wp_addr0_bind; [done|]. apply wp_addr0_bind; [done|].
  apply wp_write_bind. intros status Hs. specialize (Hk d status Hd Hs).
  destruct (status =? 0)%N; by apply wp_ret.
Qed.
End HelperRules.

Lemma wp_quiet (readActual : M (result string)) h past
    (Q : Outcome (result string) -> list Event -> Prop) :
  quiet readActual ->
  (forall r evs, writes evs = [] -> Q (Returns r) (past ++ evs)%list) ->
  wp readActual h past Q.
Proof.
  intros Hq HQ. destruct (Hq h past) as (r & evs & Hr & Hw).
  unfold wp. rewrite Hr. by apply HQ.
Qed.

Lemma writes_app tr1 tr2 : writes (tr1 ++ tr2)%list = (writes tr1 ++ writes tr2)%list.
Proof.
  induction tr1 as [|e tr1 IH]; [done|].
  destruct e; simpl; by rewrite IH.
Qed.

Lemma requests_app tr1 tr2 : requests (tr1 ++ tr2)%list = (requests tr1 ++ requests tr2)%list.
Proof.
  induction tr1 as [|e tr1 IH]; [done|].
  destruct e; simpl; by rewrite IH.
Qed.

Lemma reads_app tr1 tr2 : reads (tr1 ++ tr2)%list = (reads tr1 ++ reads tr2)%list.
Proof.
  induction tr1 as [|e tr1 IH]; [done|].
  destruct e; simpl; by rewrite IH.
Qed.

Lemma append_nonempty_r (s t : string) : t <> "" -> s +:+ t <> "".
Proof. intros Ht. induction s; [done|discriminate]. Qed.

Ltac nonempty :=
  solve [ assumption
        | discriminate
        | apply append_nonempty_l; discriminate
        | apply append_nonempty_r; discriminate
        | eapply Marshal_nonempty; eassumption ].

(** One step of symbolic execution. *)
Ltac wp_step :=
  lazymatch goal with
  | |- wp (logToFloat _ ≫= _) _ _ _ => apply wp_log_bind; [nonempty|]
  | |- wp (addr0 _ ≫= _) _ _ _ => apply wp_addr0_bind; [nonempty|]
  | |- wp (floatHttpRequest _ _ _ _ ≫= _) _ _ _ =>
      apply wp_http_bind; intros ?status _
  | |- wp (floatReadFile _ ≫= _) _ _ _ => apply wp_read_bind; intros ?status _
  | |- wp (floatWriteFile _ _ ≫= _) _ _ _ => apply wp_write_bind; intros ?status _
  | |- wp (timeNow ≫= _) _ _ _ => apply wp_now_bind
  | |- wp (writeOutputFile _ ≫= _) _ _ _ =>
      apply wp_writeOutputFile_bind; intros ?d ?status ?Hd _
  | |- wp (mret _) _ _ _ => apply wp_ret
  | |- wp (_ ≫= _) _ _ _ => apply wp_bind
  end;
  cbv beta iota zeta.

(** A case split of the program under execution. *)
Ltac wp_branch :=
  lazymatch goal with
  | |- wp (if ?b then _ else _) _ _ _ => destruct b eqn:?
  | |- wp (match ?x with _ => _ end) _ _ _ => destruct x eqn:?
  end.

Ltac wp_exec := repeat first [ wp_branch | wp_step ].

Lemma negb_eqb_false (n : N) : negb (n =? 0)%N = false -> n = 0%N.
Proof. intros H. apply N.eqb_eq. by destruct (n =? 0)%N. Qed.

Lemma negb_eqb_true (n : N) : negb (n =? 0)%N = true -> n <> 0%N.
Proof. intros H. apply N.eqb_neq. by destruct (n =? 0)%N. Qed.

(** What the tests on a status say about it. *)
Ltac status_facts :=
  repeat match goal with
         | H : negb (_ =? 0)%N = false |- _ => apply negb_eqb_false in H
         | H : negb (_ =? 0)%N = true |- _ => apply negb_eqb_true in H
         end.

(** Projections of a trace that was built by appending. *)
Ltac trace_simpl :=
  rewrite ?writes_app, ?requests_app, ?reads_app; cbn [writes requests reads app].

(** ** [src/main.go]: the entry point *)

Section MainGoFacts.
Context {codec : Codec}.




(** In [main.go] the reply is never handed over: whatever the input and the
    host, the entry point returns 1 and the output says [success: false]. *)
Lemma generate_ollama_never_succeeds (h : Host) (inputBytes : string) :
  exists tr o,
    run (MainGo.generate_ollama inputBytes) h = (Returns 1%N, tr)
    /\ persisted tr o /\ OllamaOutput.Success o = false.
Proof.
  cut (wp (MainGo.generate_ollama inputBytes) h []
         (fun o tr => o = Returns 1%N /\
            exists out, persisted tr out /\ OllamaOutput.Success out = false)).
  { rewrite wp_run. destruct (run _ h) as [o tr]. simpl.
    intros [-> (out & Hout & Hs)]. eauto. }
  unfold MainGo.generate_ollama, MainGo.generate_ollama_via, MainGo.makeHttpRequest_via,
    MainGo.readHttpResponseFromFloat_via, MainGo.readActualOllamaResponse, persisted.
  wp_exec.
  all: split; [reflexivity|]; eexists; split;
    [do 2 eexists; trace_simpl; split; [reflexivity|eassumption] | reflexivity].
Qed.
(** C8. Whenever the request is answered by a nonzero status, or it is
    answered by 0 and the read that follows is answered by a nonzero status,
    the run returns 1 after writing one output with [success: false],
    [error_type: HTTP_REQUEST_ERROR] and, under [ollama_url], the very URL
    the request was sent to: both failures give the same error type.  The
    read does follow the request: after a request answered by 0 the first
    read of the run is that of [/tmp/float_http_response], and after a
    request answered otherwise nothing is read. *)
Theorem request_or_read_failure_is_http_request_error
    (readActual : M (result string)) (h : Host) (inputBytes : string)
    (out : Outcome N) (tr : list Event) :
  run (MainGo.generate_ollama_via readActual inputBytes) h = (out, tr) ->
  (request_failed tr \/ read_failed tr ->
   exists o u m hd b s rest,
     out = Returns 1%N /\ persisted tr o /\
     requests tr = (u, m, hd, b, s) :: rest /\
     OllamaOutput.Success o = false /\
     OllamaOutput.ErrorType o = "HTTP_REQUEST_ERROR" /\
     OllamaOutput.Metadata o !! "ollama_url" = Some (MString u)) /\
  (request_succeeded tr ->
   exists s rest, reads tr = ("/tmp/float_http_response", s) :: rest) /\
  (request_failed tr -> reads tr = []).
Proof.
  intros Hrun.
  cut (wp (MainGo.generate_ollama_via readActual inputBytes) h []
         (fun out tr =>
            (request_failed tr \/ read_failed tr ->
             exists o u m hd b s rest,
               out = Returns 1%N /\ persisted tr o /\
               requests tr = (u, m, hd, b, s) :: rest /\
               OllamaOutput.Success o = false /\
               OllamaOutput.ErrorType o = "HTTP_REQUEST_ERROR" /\
               OllamaOutput.Metadata o !! "ollama_url" = Some (MString u)) /\
            (request_succeeded tr ->
             exists s rest, reads tr = ("/tmp/float_http_response", s) :: rest) /\
            (request_failed tr -> reads tr = []))).
  { rewrite wp_run, Hrun. done. }
  clear Hrun. unfold request_failed, read_failed, request_succeeded, persisted.
  unfold MainGo.generate_ollama_via, MainGo.makeHttpRequest_via,
    MainGo.readHttpResponseFromFloat_via.
  wp_exec; status_facts.
  all: try (apply wp_any; intros [r|msg] evs; cbv beta iota; [wp_exec|]).
  all: split; [|split].
  all: try solve
    [ intros [(?&?&?&?&?&?&Hreq&?)|(?&?&?&Hrd&?)];
      [revert Hreq|revert Hrd]; trace_simpl; intros ?; simplify_eq
    | intros _; do 7 eexists; split; [reflexivity|]; split;
      [do 2 eexists; trace_simpl; split; [reflexivity|eassumption]|];
      split; [trace_simpl; reflexivity|]; split; [reflexivity|];
      split; [reflexivity|]; by simplify_map_eq
    | intros (?&?&?&?&?&Hreq); revert Hreq; trace_simpl; intros Hreq;
      first [ solve [simplify_eq] | do 2 eexists; reflexivity ]
    | intros (?&?&?&?&?&?&Hreq&?); revert Hreq; trace_simpl; intros Hreq;
      first [ reflexivity | solve [simplify_eq] ] ].
Qed.

(** C7, as the code has it. Whatever the input, when the request and the
    read are both answered by 0 the reply bytes still do not reach
    [main.go]: the read hands over a status only and
    [readActualOllamaResponse] returns an error.  The run returns 1 after
    one request and one read, and its one output says [success: false], no
    response, [done: false], [error_type: HTTP_REQUEST_ERROR] with the
    error of [readActualOllamaResponse], and the URL of the request. *)
Theorem answered_request_and_read_end_in_failure
    (h : Host) (inputBytes : string) (out : Outcome N) (tr : list Event) :
  run (MainGo.generate_ollama inputBytes) h = (out, tr) ->
  request_succeeded tr -> read_succeeded tr ->
  out = Returns 1%N /\
  exists o u b,
    requests tr = [(u, "POST", json_headers, b, 0%N)] /\
    reads tr = [("/tmp/float_http_response", 0%N)] /\
    persisted tr o /\
    OllamaOutput.Success o = false /\
    OllamaOutput.Response o = "" /\
    OllamaOutput.Done o = false /\
    OllamaOutput.ErrorType o = "HTTP_REQUEST_ERROR" /\
    OllamaOutput.Error o
    = "Failed to connect to Ollama: failed to read response: "
      +:+ "real Ollama API integration requires Float runtime HTTP response mechanism" /\
    OllamaOutput.Metadata o !! "ollama_url" = Some (MString u).
Proof.
  intros Hrun.
  cut (wp (MainGo.generate_ollama inputBytes) h []
         (fun out tr => request_succeeded tr -> read_succeeded tr ->
            out = Returns 1%N /\
            exists o u b,
              requests tr = [(u, "POST", json_headers, b, 0%N)] /\
              reads tr = [("/tmp/float_http_response", 0%N)] /\
              persisted tr o /\
              OllamaOutput.Success o = false /\
              OllamaOutput.Response o = "" /\
              OllamaOutput.Done o = false /\
              OllamaOutput.ErrorType o = "HTTP_REQUEST_ERROR" /\
              OllamaOutput.Error o
              = "Failed to connect to Ollama: failed to read response: "
                +:+ "real Ollama API integration requires Float runtime HTTP response mechanism" /\
              OllamaOutput.Metadata o !! "ollama_url" = Some (MString u))).
  { rewrite wp_run, Hrun. done. }
  clear Hrun. unfold request_succeeded, read_succeeded, persisted.
  unfold MainGo.generate_ollama, MainGo.generate_ollama_via, MainGo.makeHttpRequest_via,
    MainGo.readHttpResponseFromFloat_via, MainGo.readActualOllamaResponse.
  wp_exec; status_facts.
  all: intros (?&?&?&?&?&Hreq) (?&?&Hrd); revert Hreq Hrd; trace_simpl;
    intros Hreq Hrd; simplify_eq.
  split; [reflexivity|]. do 3 eexists.
  split; [trace_simpl; reflexivity|]. split; [trace_simpl; reflexivity|].
  split; [do 2 eexists; trace_simpl; split; [reflexivity|eassumption]|].
  repeat (split; [reflexivity|]). by simplify_map_eq.
Qed.

Lemma TrimRight_slash (s : string) :
  exists k, s = TrimRight s "/" +:+ slashes k /\ ends_with_slash (TrimRight s "/") = false.
Proof.
  induction s as [|c rest (k & Hrest & Hend)]; [by exists 0%nat|].
  simpl. destruct (TrimRight rest "/") as [|d t] eqn:Ht.
  - destruct (Ascii.eqb_spec c "/") as [->|Hc]; simpl.
    + exists (S k). simpl. by rewrite Hrest at 1.
    + exists k. simpl. rewrite Hrest at 1. split; [done|]. by apply Ascii.eqb_neq.
  - exists k. simpl in *. by rewrite Hrest at 1.
Qed.

Lemma apiRequestOf_set_OllamaURL (u : string) (input : OllamaInput.t) :
  apiRequestOf (OllamaInput.set_OllamaURL u input) = apiRequestOf input.
Proof. reflexivity. Qed.

Lemma eqb_empty_false (s : string) : s <> "" -> (s =? "")%string = false.
Proof. intros Hs. by apply String.eqb_neq. Qed.

(** C3. For every input that decodes and passes the validation of [main.go],
    and whose request encodes, the request issued carries the encoding of a
    request whose model and prompt are those of the input; its URL is the
    endpoint without its trailing path separators, followed by
    [/api/generate]; its method is POST; and the request built does not
    depend on the endpoint field, which [OllamaAPIRequest] does not have. *)
Theorem outbound_request_of_valid_input
    (readActual : M (result string)) (h : Host) (inputBytes body : string)
    (input : OllamaInput.t) :
  Unmarshal_OllamaInput inputBytes = Ok input ->
  OllamaInput.Model input <> "" ->
  OllamaInput.Prompt input <> "" ->
  OllamaInput.OllamaURL input <> "" ->
  Marshal_OllamaAPIRequest (apiRequestOf input) = Ok body ->
  exists endpoint k status rest,
    requests (run (MainGo.generate_ollama_via readActual inputBytes) h).2
      = (endpoint +:+ "/api/generate", "POST",
         "Content-Type: application/json" +:+ cr +:+ nl, body, status) :: rest /\
    OllamaInput.OllamaURL input = endpoint +:+ slashes k /\
    ends_with_slash endpoint = false /\
    OllamaAPIRequest.Model (apiRequestOf input) = OllamaInput.Model input /\
    OllamaAPIRequest.Prompt (apiRequestOf input) = OllamaInput.Prompt input /\
    forall u, apiRequestOf (OllamaInput.set_OllamaURL u input) = apiRequestOf input.
Proof.
  intros Hdecode Hmodel Hprompt Hurl Hbody.
  destruct (TrimRight_slash (OllamaInput.OllamaURL input)) as (k & Hk & Hend).
  cut (wp (MainGo.generate_ollama_via readActual inputBytes) h []
         (fun _ tr => exists status rest,
            requests tr
            = (TrimRight (OllamaInput.OllamaURL input) "/" +:+ "/api/generate", "POST",
               "Content-Type: application/json" +:+ cr +:+ nl, body, status) :: rest)).
  { rewrite wp_run. intros (status & rest & Hreq).
    exists (TrimRight (OllamaInput.OllamaURL input) "/"), k, status, rest. done. }
  unfold MainGo.generate_ollama_via, MainGo.makeHttpRequest_via,
    MainGo.readHttpResponseFromFloat_via.
  rewrite Hdecode, apiRequestOf_set_OllamaURL, Hbody, !eqb_empty_false by done.
  wp_exec.
  1,2: do 2 eexists; trace_simpl; reflexivity.
  apply wp_any. intros [r|msg] evs; cbv beta iota; [wp_exec|].
  all: do 2 eexists; trace_simpl; reflexivity.
Qed.

(** In [main.go], an input that lacks a required field ends in a validation
    error that names the first such field. *)
Lemma main_go_missing_field (readActual : M (result string)) (h : Host)
    (inputBytes : string) (input : OllamaInput.t) :
  Unmarshal_OllamaInput inputBytes = Ok input ->
  lacks_required_field input ->
  exists tr o,
    run (MainGo.generate_ollama_via readActual inputBytes) h = (Returns 1%N, tr) /\
    persisted tr o /\
    OllamaOutput.Success o = false /\
    OllamaOutput.ErrorType o = "VALIDATION_ERROR" /\
    OllamaOutput.Metadata o !! "missing_field" = Some (MString (first_missing_field input)).
Proof.
  intros Hdecode Hlacks.
  cut (wp (MainGo.generate_ollama_via readActual inputBytes) h []
         (fun out tr => out = Returns 1%N /\ exists o,
            persisted tr o /\
            OllamaOutput.Success o = false /\
            OllamaOutput.ErrorType o = "VALIDATION_ERROR" /\
            OllamaOutput.Metadata o !! "missing_field"
            = Some (MString (first_missing_field input)))).
  { rewrite wp_run. destruct (run _ h) as [out tr]. simpl.
    intros [-> (o & Ho)]. eauto. }
  unfold MainGo.generate_ollama_via, first_missing_field, persisted. rewrite Hdecode.
  wp_step. cbv beta iota.
  destruct (OllamaInput.Model input =? "")%string eqn:Emodel;
    [|destruct (OllamaInput.Prompt input =? "")%string eqn:Eprompt;
      [|destruct (OllamaInput.OllamaURL input =? "")%string eqn:Eurl]].
  4:{ apply String.eqb_neq in Emodel, Eprompt, Eurl. by destruct Hlacks as [?|[?|?]]. }
  all: wp_exec; split; [reflexivity|]; eexists; split;
    [do 2 eexists; trace_simpl; split; [reflexivity|eassumption]|];
    split; [reflexivity|]; split; [reflexivity|]; by simplify_map_eq.
Qed.
End MainGoFacts.

(** ** The validating variant *)

Section ReagentFacts.
Context {codec : Codec}.

(** A validation error ends the run: one output, built by
    [createErrorOutput] from the message and its tag, and status 1. *)
Lemma reagent_validation_failure (h : Host) (inputBytes : string)
    (input : OllamaInput.t) (err : Error) :
  Unmarshal_OllamaInput inputBytes = Ok input ->
  Reagent.validateInput input = Some err ->
  err <> "" ->
  exists tr,
    run (Reagent.generate_ollama inputBytes) h = (Returns 1%N, tr) /\
    persisted tr
      (Reagent.createErrorOutput err "VALIDATION_ERROR"
         (Some (Reagent.tagMissingField err {[ "error_stage" := MString "validation" ]}))).
Proof.
  intros Hdecode Hinvalid Herr.
  cut (wp (Reagent.generate_ollama inputBytes) h []
         (fun out tr => out = Returns 1%N /\
            persisted tr
              (Reagent.createErrorOutput err "VALIDATION_ERROR"
                 (Some (Reagent.tagMissingField err
                          {[ "error_stage" := MString "validation" ]}))))).
  { rewrite wp_run. destruct (run _ h) as [out tr]. simpl. intros [-> Hp]. eauto. }
  unfold Reagent.generate_ollama, persisted. rewrite Hdecode, Hinvalid.
  wp_exec. split; [reflexivity|].
  do 2 eexists. trace_simpl. split; [reflexivity|eassumption].
Qed.

Lemma validateInput_missing_field (input : OllamaInput.t) :
  lacks_required_field input ->
  Reagent.validateInput input
  = Some (first_missing_field input +:+ " field is required").
Proof.
  intros Hlacks. unfold Reagent.validateInput, first_missing_field.
  destruct (OllamaInput.Model input =? "")%string eqn:Emodel; [done|].
  destruct (OllamaInput.Prompt input =? "")%string eqn:Eprompt; [done|].
  destruct (OllamaInput.OllamaURL input =? "")%string eqn:Eurl; [done|].
  apply String.eqb_neq in Emodel, Eprompt, Eurl. by destruct Hlacks as [?|[?|?]].
Qed.

Lemma first_missing_field_cases (input : OllamaInput.t) :
  first_missing_field input = "model" \/ first_missing_field input = "prompt"
  \/ first_missing_field input = "ollama_url".
Proof.
  unfold first_missing_field.
  destruct (_ =? _)%string; [by left|]. destruct (_ =? _)%string; auto.
Qed.

(** In the validating variant too, an input that lacks a required field
    ends in a validation error that names the first such field. *)
Lemma reagent_missing_field (h : Host) (inputBytes : string) (input : OllamaInput.t) :
  Unmarshal_OllamaInput inputBytes = Ok input ->
  lacks_required_field input ->
  exists tr o,
    run (Reagent.generate_ollama inputBytes) h = (Returns 1%N, tr) /\
    persisted tr o /\
    OllamaOutput.Success o = false /\
    OllamaOutput.ErrorType o = "VALIDATION_ERROR" /\
    OllamaOutput.Metadata o !! "missing_field" = Some (MString (first_missing_field input)).
Proof.
  intros Hdecode Hlacks.
  pose proof (validateInput_missing_field input Hlacks) as Hinvalid.
  destruct (reagent_validation_failure h inputBytes input _ Hdecode Hinvalid) as (tr & Hrun & Hp).
  { by destruct (first_missing_field_cases input) as [->|[->| ->]]. }
  exists tr. eexists. split; [exact Hrun|]. split; [exact Hp|].
  split; [reflexivity|]. split; [reflexivity|].
  destruct (first_missing_field_cases input) as [->|[->| ->]]; by vm_compute.
Qed.
(** C4. In both files, for every input that decodes with its model, prompt
    or [ollama_url] missing or empty, the run returns 1 and writes one output
    with [success: false], [error_type: VALIDATION_ERROR] and, under
    [missing_field], the name of the first such field. *)
Theorem missing_required_field_is_validation_error
    (h : Host) (inputBytes : string) (input : OllamaInput.t) :
  Unmarshal_OllamaInput inputBytes = Ok input ->
  lacks_required_field input ->
  (exists tr o,
     run (MainGo.generate_ollama inputBytes) h = (Returns 1%N, tr) /\
     persisted tr o /\
     OllamaOutput.Success o = false /\
     OllamaOutput.ErrorType o = "VALIDATION_ERROR" /\
     OllamaOutput.Metadata o !! "missing_field" = Some (MString (first_missing_field input)))
  /\
  (exists tr o,
     run (Reagent.generate_ollama inputBytes) h = (Returns 1%N, tr) /\
     persisted tr o /\
     OllamaOutput.Success o = false /\
     OllamaOutput.ErrorType o = "VALIDATION_ERROR" /\
     OllamaOutput.Metadata o !! "missing_field" = Some (MString (first_missing_field input))).
Proof.
  intros Hdecode Hlacks. split.
  - by apply main_go_missing_field.
  - by apply reagent_missing_field.
Qed.

(** C5, as the code has it. [validateInput] is a total function that answers
    nil or exactly one error: the first violation in the order model empty,
    prompt empty, [ollama_url] empty, [ollama_url] scheme, prompt length,
    system length, temperature, top_p. *)
Theorem validateInput_reports_first_violation (input : OllamaInput.t) :
  Reagent.validateInput input = head (violations input).
Proof.
  unfold Reagent.validateInput, violations.
  destruct (OllamaInput.Model input =? "")%string; [done|].
  destruct (OllamaInput.Prompt input =? "")%string; [done|].
  destruct (OllamaInput.OllamaURL input =? "")%string; [done|].
  destruct (negb (HasPrefix _ "http://") && negb (HasPrefix _ "https://")); [done|].
  destruct (32768 <? len (OllamaInput.Prompt input))%N; [done|].
  destruct (negb (OllamaInput.System input =? "")%string && _); [done|].
  destruct (OllamaInput.Options input) as [opts|]; simpl.
  - destruct (Reagent.temperature_out_of_range opts); [done|].
    by destruct (Reagent.top_p_out_of_range opts).
  - done.
Qed.

(** C5, as stated, fails: the order is not target id, payload, endpoint.  A
    prompt that is too long and an endpoint with the wrong scheme are
    reported as an endpoint violation, though the payload comes first. *)
Lemma validateInput_not_in_field_order :
  Reagent.validateInput long_prompt_bad_scheme
  = Some "ollama_url must be a valid HTTP/HTTPS URL"
  /\ head (violations_by_field long_prompt_bad_scheme)
     = Some "prompt exceeds maximum length of 32768 characters"
  /\ Reagent.validateInput long_prompt_bad_scheme
     <> head (violations_by_field long_prompt_bad_scheme).
Proof. by vm_compute. Qed.

Lemma validateInput_prompt_length (input : OllamaInput.t) (p : string) :
  Reagent.validateInput input = None ->
  p <> "" ->
  Reagent.validateInput (OllamaInput.set_Prompt p input)
  = if (32768 <? len p)%N
    then Some "prompt exceeds maximum length of 32768 characters" else None.
Proof.
  unfold Reagent.validateInput. destruct input; simpl. intros Hvalid Hp.
  rewrite (eqb_empty_false p Hp).
  destruct (Model =? "")%string; [done|].
  destruct (Prompt =? "")%string; [done|].
  destruct (OllamaURL =? "")%string; [done|].
  destruct (negb (HasPrefix _ "http://") && negb (HasPrefix _ "https://")); [done|].
  destruct (32768 <? len Prompt)%N; [done|].
  by destruct (32768 <? len p)%N.
Qed.

(** C6. In an input that passes validation, a prompt of exactly 32768 bytes
    in place of the prompt passes too, and a prompt of 32769 bytes fails:
    the run returns 1 and writes one output with
    [error_type: VALIDATION_ERROR] whose tag names the prompt. *)
Theorem prompt_length_boundary (input : OllamaInput.t) (p : string) :
  Reagent.validateInput input = None ->
  (len p = 32768%N ->
   Reagent.validateInput (OllamaInput.set_Prompt p input) = None)
  /\
  (len p = 32769%N ->
   Reagent.validateInput (OllamaInput.set_Prompt p input)
   = Some "prompt exceeds maximum length of 32768 characters"
   /\ forall h inputBytes,
        Unmarshal_OllamaInput inputBytes = Ok (OllamaInput.set_Prompt p input) ->
        exists tr o,
          run (Reagent.generate_ollama inputBytes) h = (Returns 1%N, tr) /\
          persisted tr o /\
          OllamaOutput.Success o = false /\
          OllamaOutput.ErrorType o = "VALIDATION_ERROR" /\
          OllamaOutput.Metadata o !! "missing_field" = Some (MString "prompt")).
Proof.
  intros Hvalid. split; intros Hlen.
  - rewrite validateInput_prompt_length; [|done|by intros ->].
    by rewrite Hlen.
  - assert (Reagent.validateInput (OllamaInput.set_Prompt p input)
            = Some "prompt exceeds maximum length of 32768 characters") as Hinvalid.
    { rewrite validateInput_prompt_length; [|done|by intros ->].
      by rewrite Hlen. }
    split; [done|]. intros h inputBytes Hdecode.
    destruct (reagent_validation_failure h inputBytes _ _ Hdecode Hinvalid) as (tr & Hrun & Hp);
      [done|].
    exists tr. eexists. split; [exact Hrun|]. split; [exact Hp|].
    split; [reflexivity|]. split; [reflexivity|]. by vm_compute.
Qed.

(** C10, as the code has it. For every input whose model and prompt are not
    empty and whose [ollama_url] is present and not empty but starts with
    neither [http://] nor [https://], the run returns 1 and writes one output
    with [error_type: VALIDATION_ERROR] and [missing_field: ollama_url]: the
    tag comes from the field name occurring in the message. *)
Theorem bad_scheme_is_tagged_missing_ollama_url
    (h : Host) (inputBytes : string) (input : OllamaInput.t) :
  Unmarshal_OllamaInput inputBytes = Ok input ->
  OllamaInput.Model input <> "" ->
  OllamaInput.Prompt input <> "" ->
  OllamaInput.OllamaURL input <> "" ->
  HasPrefix (OllamaInput.OllamaURL input) "http://" = false ->
  HasPrefix (OllamaInput.OllamaURL input) "https://" = false ->
  exists tr o,
    run (Reagent.generate_ollama inputBytes) h = (Returns 1%N, tr) /\
    persisted tr o /\
    OllamaOutput.Success o = false /\
    OllamaOutput.ErrorType o = "VALIDATION_ERROR" /\
    OllamaOutput.Error o = "ollama_url must be a valid HTTP/HTTPS URL" /\
    Contains (OllamaOutput.Error o) "ollama_url" = true /\
    OllamaOutput.Metadata o !! "missing_field" = Some (MString "ollama_url").
Proof.
  intros Hdecode Hmodel Hprompt Hurl Hhttp Hhttps.
  assert (Reagent.validateInput input = Some "ollama_url must be a valid HTTP/HTTPS URL")
    as Hinvalid.
  { unfold Reagent.validateInput.
    by rewrite (eqb_empty_false _ Hmodel), (eqb_empty_false _ Hprompt),
      (eqb_empty_false _ Hurl), Hhttp, Hhttps. }
  destruct (reagent_validation_failure h inputBytes _ _ Hdecode Hinvalid) as (tr & Hrun & Hp);
    [done|].
  exists tr. eexists. split; [exact Hrun|]. split; [exact Hp|].
  split; [reflexivity|]. split; [reflexivity|]. split; [reflexivity|].
  split; by vm_compute.
Qed.
(** In the validating variant, where the success case is reached as soon as
    the request is answered by 0, a run none of whose writes is answered by 0
    returns 1. *)
Lemma reagent_failed_writes_return_nonzero (h : Host) (inputBytes : string)
    (out : Outcome N) (tr : list Event) :
  run (Reagent.generate_ollama inputBytes) h = (out, tr) ->
  (forall p d s, (p, d, s) ∈ writes tr -> s <> 0%N) ->
  out = Returns 1%N.
Proof.
  intros Hrun.
  cut (wp (Reagent.generate_ollama inputBytes) h []
         (fun out tr => (forall p d s, (p, d, s) ∈ writes tr -> s <> 0%N) ->
                        out = Returns 1%N)).
  { rewrite wp_run, Hrun. done. }
  clear Hrun. unfold Reagent.generate_ollama, Reagent.makeHttpRequest.
  wp_exec.
  all: try (intros _; reflexivity).
  intros Hw. exfalso.
  destruct (status0 =? 0)%N eqn:E; [|discriminate]. apply N.eqb_eq in E.
  apply (Hw "output.json" d status0); [|done]. trace_simpl. set_solver.
Qed.
End ReagentFacts.

(** ** What becomes of the reply *)

Section ReplyFacts.
Context {codec : Codec}.

(** Traces in list form, so that [upto_request] computes on them. *)
Ltac flatten_traces :=
  repeat match goal with
         | H : context [((_ ++ _) ++ _)%list] |- _ => rewrite <- app_assoc in H
         end;
  rewrite <- ?app_assoc;
  cbn [app upto_request] in *.

(** A run of the validating variant whose request was answered by 0 goes on
    with the decoding of [made_up_reply]: what is written, and returned,
    depends on that decoding and on the status of the write alone. *)
Lemma reagent_after_the_request (h : Host) (inputBytes : string)
    (out : Outcome N) (tr : list Event) :
  run (Reagent.generate_ollama inputBytes) h = (out, tr) ->
  request_succeeded tr ->
  match Unmarshal_OllamaAPIResponse (made_up_reply h tr) with
  | Err err =>
      out = Returns 1%N /\
      persisted tr
        (Reagent.createErrorOutput ("Invalid response from Ollama server: " +:+ err)
           "RESPONSE_PARSE_ERROR"
           (Some (<[ "error_stage" := MString "response_parsing" ]>
                    {[ "raw_response" := MString (made_up_reply h tr) ]})))
  | Ok apiResponse =>
      exists input d s,
        Unmarshal_OllamaInput inputBytes = Ok input /\
        writes tr = [("output.json", d, s)] /\
        MarshalIndent_OllamaOutput
          (successLiteral apiResponse
             (Reagent.buildMetadata
                (stream_defaulted
                   (OllamaInput.set_OllamaURL (TrimRight (OllamaInput.OllamaURL input) "/")
                      input))
                (Z.of_N (len (OllamaAPIResponse.Response apiResponse))))) = Ok d /\
        out = Returns (if (s =? 0)%N then 0%N else 1%N)
  end.
Proof.
  intros Hrun.
  cut (wp (Reagent.generate_ollama inputBytes) h []
         (fun out tr => request_succeeded tr ->
            match Unmarshal_OllamaAPIResponse (made_up_reply h tr) with
            | Err err =>
                out = Returns 1%N /\
                persisted tr
                  (Reagent.createErrorOutput ("Invalid response from Ollama server: " +:+ err)
                     "RESPONSE_PARSE_ERROR"
                     (Some (<[ "error_stage" := MString "response_parsing" ]>
                              {[ "raw_response" := MString (made_up_reply h tr) ]})))
            | Ok apiResponse =>
                exists input d s,
                  Unmarshal_OllamaInput inputBytes = Ok input /\
                  writes tr = [("output.json", d, s)] /\
                  MarshalIndent_OllamaOutput
                    (successLiteral apiResponse
                       (Reagent.buildMetadata
                          (stream_defaulted
                             (OllamaInput.set_OllamaURL
                                (TrimRight (OllamaInput.OllamaURL input) "/") input))
                          (Z.of_N (len (OllamaAPIResponse.Response apiResponse))))) = Ok d /\
                  out = Returns (if (s =? 0)%N then 0%N else 1%N)
            end)).
  { rewrite wp_run, Hrun. done. }
  clear Hrun. unfold Reagent.generate_ollama, Reagent.makeHttpRequest, persisted,
    request_succeeded.
  wp_exec; status_facts.
  all: intros (?&?&?&?&?&Hreq); revert Hreq; trace_simpl; intros Hreq; simplify_eq.
  all: unfold made_up_reply; trace_simpl; flatten_traces.
  all: match goal with
       | H : Unmarshal_OllamaAPIResponse _ = _ |- _ => rewrite H
       end.
  3: { split; [reflexivity|]. do 2 eexists. split; [reflexivity|eassumption]. }
  all: match goal with
       | H : Unmarshal_OllamaInput _ = Ok ?i |- _ =>
           exists i; do 2 eexists; split; [reflexivity|]; split; [reflexivity|];
           split; [destruct i as [? ? ? ? ? ? [?|] ? ? ? ? ? ?]; eassumption|]
       end.
  all: match goal with
       | H : (if (?s =? 0)%N then _ else _) = _ |- _ => destruct (s =? 0)%N; by simplify_eq
       end.
Qed.

(** C2. A success output that cannot be persisted does not make a
    successful run.  In the pipeline of [main.go], whatever retrieves the
    reply without writing, the stub of [main.go] included, and in the
    validating variant, a run none of whose [write_resource] calls is
    answered by 0 returns 1.  In the validating variant, where the success
    case is reached as soon as the request is answered by 0 and the reply
    text decodes, what was handed to [write_resource] then is the success
    output. *)
Theorem failed_write_of_success_output_returns_nonzero
    (readActual : M (result string)) (h : Host) (inputBytes : string)
    (out1 out2 : Outcome N) (tr1 tr2 : list Event) :
  quiet readActual ->
  run (MainGo.generate_ollama_via readActual inputBytes) h = (out1, tr1) ->
  run (Reagent.generate_ollama inputBytes) h = (out2, tr2) ->
  ((forall p d s, (p, d, s) ∈ writes tr1 -> s <> 0%N) -> out1 = Returns 1%N) /\
  ((forall p d s, (p, d, s) ∈ writes tr2 -> s <> 0%N) ->
   out2 = Returns 1%N /\
   forall apiResponse,
     request_succeeded tr2 ->
     Unmarshal_OllamaAPIResponse (made_up_reply h tr2) = Ok apiResponse ->
     exists md d s,
       writes tr2 = [("output.json", d, s)] /\ s <> 0%N /\
       MarshalIndent_OllamaOutput (successLiteral apiResponse md) = Ok d).
Proof.
  intros Hquiet Hrun1 Hrun2. split.
  - revert Hrun1.
    cut (wp (MainGo.generate_ollama_via readActual inputBytes) h []
           (fun out tr => (forall p d s, (p, d, s) ∈ writes tr -> s <> 0%N) ->
                          out = Returns 1%N)).
    { rewrite wp_run. intros Hwp Hrun. by rewrite Hrun in Hwp. }
    unfold MainGo.generate_ollama_via, MainGo.makeHttpRequest_via,
      MainGo.readHttpResponseFromFloat_via.
    wp_exec.
    all: try (intros _; reflexivity).
    apply wp_quiet; [done|]. intros r evs Hevs. cbv beta iota zeta.
    wp_exec.
    all: try (intros _; reflexivity).
    intros Hw. exfalso.
    match goal with
    | H : (if (?s =? 0)%N then _ else _) = None |- _ =>
        destruct (s =? 0)%N eqn:E; [|discriminate]; apply N.eqb_eq in E;
        apply (Hw "output.json" d s); [|done]
    end.
    trace_simpl. rewrite Hevs. set_solver.
  - intros Hw. split; [by eapply reagent_failed_writes_return_nonzero|].
    intros apiResponse Hreq Hdecode.
    pose proof (reagent_after_the_request h inputBytes out2 tr2 Hrun2 Hreq) as Hafter.
    rewrite Hdecode in Hafter. destruct Hafter as (input & d & s & _ & Hwrites & Hd & _).
    eexists _, d, s. split; [done|]. split; [|exact Hd].
    apply (Hw "output.json" d s). rewrite Hwrites. set_solver.
Qed.

End ReplyFacts.

(** ** The scenarios, run on the executable codec *)

(** C7, as stated, fails. Scenario A on [main.go] with every capability
    answering 0: the reply is never handed over, the run returns 1 and the
    output written is an [HTTP_REQUEST_ERROR] with [success: false] and
    without the response [hi]. *)
Lemma scenarioA_on_main_go :
  exists tr d,
    run (MainGo.generate_ollama (codec := main_codec) scenarioA_bytes) (constant_host 0 0 0)
    = (Returns 1%N, tr) /\
    writes tr = [("output.json", d, 0%N)] /\
    MarshalIndent_OllamaOutput (Codec := main_codec)
      (failureLiteral
         "Failed to connect to Ollama: failed to read response: real Ollama API integration requires Float runtime HTTP response mechanism"
         "HTTP_REQUEST_ERROR"
         (<[ "error_stage" := MString "http_request" ]>
            {[ "ollama_url" := MString "http://h/api/generate" ]}))
    = Ok d /\
    Contains d (dq +:+ "success" +:+ dq +:+ ": false") = true /\
    Contains d (dq +:+ "response" +:+ dq +:+ ": " +:+ dq +:+ "hi" +:+ dq) = false.
Proof.
  do 2 eexists. split; [vm_compute; reflexivity|].
  split; [vm_compute; reflexivity|]. split; [vm_compute; reflexivity|].
  split; vm_compute; reflexivity.
Qed.

(** Scenario A on the validating variant: status 0, but the response is the
    made-up one, not the reply of the server. *)
Example scenarioA_on_reagent :
  exists tr d,
    run (Reagent.generate_ollama (codec := reagent_codec) scenarioA_bytes)
      (constant_host 0 0 0)
    = (Returns 0%N, tr) /\
    writes tr = [("output.json", d, 0%N)] /\
    reads tr = [] /\
    Contains d "This is a simulated response." = true.
Proof.
  do 2 eexists. split; [vm_compute; reflexivity|].
  split; [vm_compute; reflexivity|]. split; vm_compute; reflexivity.
Qed.

(** The same scenario with a host whose [write_resource] answers 1: the
    success output is handed over, and the status is 1. *)
Example scenarioA_on_reagent_write_fails :
  exists tr d,
    run (Reagent.generate_ollama (codec := reagent_codec) scenarioA_bytes)
      (constant_host 0 0 1)
    = (Returns 1%N, tr) /\
    writes tr = [("output.json", d, 1%N)] /\
    Contains d (dq +:+ "success" +:+ dq +:+ ": true") = true.
Proof.
  do 2 eexists. split; [vm_compute; reflexivity|].
  split; vm_compute; reflexivity.
Qed.

(** A model name with a double quote breaks the made-up reply, which the
    variant splices together without escaping: the run ends in
    [RESPONSE_PARSE_ERROR], with that reply under [raw_response]. *)
Example quoted_model_on_reagent :
  exists tr d,
    run (Reagent.generate_ollama (codec := reagent_codec) quoted_model_bytes)
      (constant_host 0 0 0)
    = (Returns 1%N, tr) /\
    writes tr = [("output.json", d, 0%N)] /\
    MarshalIndent_OllamaOutput (Codec := reagent_codec)
      (Reagent.createErrorOutput
         "Invalid response from Ollama server: invalid or truncated JSON input"
         "RESPONSE_PARSE_ERROR"
         (Some (<[ "error_stage" := MString "response_parsing" ]>
                  {[ "raw_response" :=
                       MString (Reagent.simulatedResponse ("a" +:+ dq +:+ "b")
                                  "2024-01-01T00:00:00Z") ]})))
    = Ok d.
Proof.
  do 2 eexists. split; [vm_compute; reflexivity|].
  split; [vm_compute; reflexivity|]. vm_compute. reflexivity.
Qed.

(** C10, as stated, fails: with an empty model next to a present endpoint
    of the wrong scheme, the tag is [model]. *)
Lemma empty_model_hides_bad_scheme :
  exists input tr d,
    Unmarshal_OllamaInput (Codec := reagent_codec) empty_model_bad_scheme_bytes = Ok input /\
    OllamaInput.OllamaURL input = "ftp://h" /\
    HasPrefix (OllamaInput.OllamaURL input) "http://" = false /\
    HasPrefix (OllamaInput.OllamaURL input) "https://" = false /\
    run (Reagent.generate_ollama (codec := reagent_codec) empty_model_bad_scheme_bytes)
      (constant_host 0 0 0)
    = (Returns 1%N, tr) /\
    writes tr = [("output.json", d, 0%N)] /\
    MarshalIndent_OllamaOutput (Codec := reagent_codec)
      (Reagent.createErrorOutput "model field is required" "VALIDATION_ERROR"
         (Some (<[ "missing_field" := MString "model" ]>
                  {[ "error_stage" := MString "validation" ]})))
    = Ok d /\
    Contains d (dq +:+ "missing_field" +:+ dq +:+ ": " +:+ dq +:+ "model" +:+ dq) = true /\
    Contains d (dq +:+ "missing_field" +:+ dq +:+ ": " +:+ dq +:+ "ollama_url" +:+ dq) = false.
Proof.
  do 3 eexists. split; [vm_compute; reflexivity|].
  split; [reflexivity|]. split; [reflexivity|]. split; [reflexivity|].
  split; [vm_compute; reflexivity|]. split; [vm_compute; reflexivity|].
  split; [vm_compute; reflexivity|]. split; vm_compute; reflexivity.
Qed.

(** ** The theorems at work on the scenarios *)

(** C2 at scenario A, with a host whose [write_resource] answers 1: on
    [main.go] as it is, and on the validating variant, where the output that
    could not be persisted is the success output. *)
Lemma failed_write_of_success_output_returns_nonzero_witness :
  let h := constant_host 0 0 1 in
  let r1 := run (MainGo.generate_ollama (codec := main_codec) scenarioA_bytes) h in
  let r2 := run (Reagent.generate_ollama (codec := reagent_codec) scenarioA_bytes) h in
  r1.1 = Returns 1%N /\
  r2.1 = Returns 1%N /\
  exists apiResponse md d s,
    Unmarshal_OllamaAPIResponse (Codec := reagent_codec)
      (made_up_reply (codec := reagent_codec) h r2.2) = Ok apiResponse /\
    writes r2.2 = [("output.json", d, s)] /\ s <> 0%N /\
    MarshalIndent_OllamaOutput (Codec := reagent_codec) (successLiteral apiResponse md)
    = Ok d.
Proof.
  intros h r1 r2.
  destruct (failed_write_of_success_output_returns_nonzero (codec := main_codec)
              MainGo.readActualOllamaResponse h scenarioA_bytes
              r1.1 (run (Reagent.generate_ollama (codec := main_codec) scenarioA_bytes) h).1
              r1.2 (run (Reagent.generate_ollama (codec := main_codec) scenarioA_bytes) h).2)
    as [H1 _].
  { intros h0 past. do 2 eexists. split; reflexivity. }
  { vm_compute. reflexivity. }
  { vm_compute. reflexivity. }
  destruct (failed_write_of_success_output_returns_nonzero (codec := reagent_codec)
              MainGo.readActualOllamaResponse h scenarioA_bytes
              (run (MainGo.generate_ollama (codec := reagent_codec) scenarioA_bytes) h).1 r2.1
              (run (MainGo.generate_ollama (codec := reagent_codec) scenarioA_bytes) h).2 r2.2)
    as [_ H2].
  { intros h0 past. do 2 eexists. split; reflexivity. }
  { vm_compute. reflexivity. }
  { vm_compute. reflexivity. }
  split.
  { apply H1. intros p d s. vm_compute. intros Hin Hs.
    inversion Hin as [|? ? ? Hin']; [congruence|inversion Hin']. }
  destruct H2 as [Hout Hsuccess].
  { intros p d s. vm_compute. intros Hin Hs.
    inversion Hin as [|? ? ? Hin']; [congruence|inversion Hin']. }
  split; [exact Hout|].
  edestruct Hsuccess as (md & d & s & Hw & Hs & Hd).
  { unfold request_succeeded. do 5 eexists. vm_compute. reflexivity. }
  { vm_compute. reflexivity. }
  eexists _, md, d, s. split; [vm_compute; reflexivity|]. split; [exact Hw|].
  split; [exact Hs|exact Hd].
Defined.

(** C3 at scenario A. *)
Lemma outbound_request_of_valid_input_witness :
  exists body,
    Marshal_OllamaAPIRequest (Codec := main_codec) (apiRequestOf scenarioA_input) = Ok body /\
    exists endpoint k status rest,
      requests (run (MainGo.generate_ollama_via (codec := main_codec)
                       MainGo.readActualOllamaResponse scenarioA_bytes)
                  (constant_host 0 0 0)).2
      = (endpoint +:+ "/api/generate", "POST",
         "Content-Type: application/json" +:+ cr +:+ nl, body, status) :: rest /\
      OllamaInput.OllamaURL scenarioA_input = endpoint +:+ slashes k /\
      ends_with_slash endpoint = false /\
      OllamaAPIRequest.Model (apiRequestOf scenarioA_input) = OllamaInput.Model scenarioA_input /\
      OllamaAPIRequest.Prompt (apiRequestOf scenarioA_input) = OllamaInput.Prompt scenarioA_input /\
      forall u, apiRequestOf (OllamaInput.set_OllamaURL u scenarioA_input)
                = apiRequestOf scenarioA_input.
Proof.
  eexists. split; [vm_compute; reflexivity|].
  apply (outbound_request_of_valid_input (codec := main_codec)
           MainGo.readActualOllamaResponse (constant_host 0 0 0) scenarioA_bytes _
           scenarioA_input).
  - vm_compute. reflexivity.
  - discriminate.
  - discriminate.
  - discriminate.
  - vm_compute. reflexivity.
Defined.

(** C4 at scenario B, where the endpoint is missing. *)
Lemma missing_required_field_is_validation_error_witness :
  (exists tr o,
     run (MainGo.generate_ollama (codec := main_codec) scenarioB_bytes) (constant_host 0 0 0)
     = (Returns 1%N, tr) /\
     persisted (codec := main_codec) tr o /\
     OllamaOutput.Success o = false /\
     OllamaOutput.ErrorType o = "VALIDATION_ERROR" /\
     OllamaOutput.Metadata o !! "missing_field" = Some (MString "ollama_url"))
  /\
  (exists tr o,
     run (Reagent.generate_ollama (codec := main_codec) scenarioB_bytes) (constant_host 0 0 0)
     = (Returns 1%N, tr) /\
     persisted (codec := main_codec) tr o /\
     OllamaOutput.Success o = false /\
     OllamaOutput.ErrorType o = "VALIDATION_ERROR" /\
     OllamaOutput.Metadata o !! "missing_field" = Some (MString "ollama_url")).
Proof.
  apply (missing_required_field_is_validation_error (codec := main_codec)
           (constant_host 0 0 0) scenarioB_bytes
           (OllamaInput.set_Model "m1" (OllamaInput.set_Prompt "hello" OllamaInput.zero))).
  - vm_compute. reflexivity.
  - right. right. reflexivity.
Defined.

(** C6 at scenario A, with prompts of 32768 and of 32769 bytes. *)
Lemma prompt_length_boundary_witness :
  Reagent.validateInput
    (OllamaInput.set_Prompt (replicate_byte (N.to_nat 32768) "a") scenarioA_input) = None
  /\
  Reagent.validateInput
    (OllamaInput.set_Prompt (replicate_byte (N.to_nat 32769) "a") scenarioA_input)
  = Some "prompt exceeds maximum length of 32768 characters".
Proof.
  split.
  - apply (proj1 (prompt_length_boundary (codec := reagent_codec) scenarioA_input
                    (replicate_byte (N.to_nat 32768) "a") eq_refl)).
    vm_compute. reflexivity.
  - apply (proj2 (prompt_length_boundary (codec := reagent_codec) scenarioA_input
                    (replicate_byte (N.to_nat 32769) "a") eq_refl)).
    vm_compute. reflexivity.
Defined.

(** C8 at scenario A on [main.go] as it is: with a host whose
    [issue_request] answers 7, and with one whose [issue_request] answers 0
    and whose [read_resource] answers 7. *)
Lemma request_or_read_failure_is_http_request_error_witness :
  let r := run (MainGo.generate_ollama (codec := main_codec) scenarioA_bytes)
             (constant_host 7 0 0) in
  let r' := run (MainGo.generate_ollama (codec := main_codec) scenarioA_bytes)
              (constant_host 0 7 0) in
  (exists o u m hd b s rest,
     r.1 = Returns 1%N /\ persisted (codec := main_codec) r.2 o /\
     requests r.2 = (u, m, hd, b, s) :: rest /\
     OllamaOutput.Success o = false /\
     OllamaOutput.ErrorType o = "HTTP_REQUEST_ERROR" /\
     OllamaOutput.Metadata o !! "ollama_url" = Some (MString u)) /\
  reads r.2 = [] /\
  (exists o u m hd b s rest,
     r'.1 = Returns 1%N /\ persisted (codec := main_codec) r'.2 o /\
     requests r'.2 = (u, m, hd, b, s) :: rest /\
     OllamaOutput.Success o = false /\
     OllamaOutput.ErrorType o = "HTTP_REQUEST_ERROR" /\
     OllamaOutput.Metadata o !! "ollama_url" = Some (MString u)) /\
  (exists s rest, reads r'.2 = ("/tmp/float_http_response", s) :: rest).
Proof.
  intros r r'.
  destruct (request_or_read_failure_is_http_request_error (codec := main_codec)
              MainGo.readActualOllamaResponse (constant_host 7 0 0) scenarioA_bytes r.1 r.2)
    as (Hfail & _ & Hnone).
  { vm_compute. reflexivity. }
  destruct (request_or_read_failure_is_http_request_error (codec := main_codec)
              MainGo.readActualOllamaResponse (constant_host 0 7 0) scenarioA_bytes r'.1 r'.2)
    as (Hfail' & Hread' & _).
  { vm_compute. reflexivity. }
  split.
  { apply Hfail. left. unfold request_failed. do 6 eexists.
    split; [vm_compute; reflexivity|discriminate]. }
  split.
  { apply Hnone. unfold request_failed. do 6 eexists.
    split; [vm_compute; reflexivity|discriminate]. }
  split.
  { apply Hfail'. right. unfold read_failed. do 3 eexists.
    split; [vm_compute; reflexivity|discriminate]. }
  apply Hread'. unfold request_succeeded. do 5 eexists. vm_compute. reflexivity.
Defined.

(** C7, as the code has it, at scenario A with every capability answering
    0. *)
Lemma answered_request_and_read_end_in_failure_witness :
  let r := run (MainGo.generate_ollama (codec := main_codec) scenarioA_bytes)
             (constant_host 0 0 0) in
  r.1 = Returns 1%N /\
  exists o u b,
    requests r.2 = [(u, "POST", json_headers, b, 0%N)] /\
    reads r.2 = [("/tmp/float_http_response", 0%N)] /\
    persisted (codec := main_codec) r.2 o /\
    OllamaOutput.Success o = false /\
    OllamaOutput.Response o = "" /\
    OllamaOutput.Done o = false /\
    OllamaOutput.ErrorType o = "HTTP_REQUEST_ERROR" /\
    OllamaOutput.Error o
    = "Failed to connect to Ollama: failed to read response: "
      +:+ "real Ollama API integration requires Float runtime HTTP response mechanism" /\
    OllamaOutput.Metadata o !! "ollama_url" = Some (MString u).
Proof.
  intros r.
  apply (answered_request_and_read_end_in_failure (codec := main_codec)
           (constant_host 0 0 0) scenarioA_bytes r.1 r.2).
  - vm_compute. reflexivity.
  - unfold request_succeeded. do 5 eexists. vm_compute. reflexivity.
  - unfold read_succeeded. do 2 eexists. vm_compute. reflexivity.
Defined.



(** C10, as the code has it, at an otherwise valid input whose endpoint is
    [ftp://h]. *)
Lemma bad_scheme_is_tagged_missing_ollama_url_witness :
  exists tr o,
    run (Reagent.generate_ollama (codec := reagent_codec) bad_scheme_bytes)
      (constant_host 0 0 0)
    = (Returns 1%N, tr) /\
    persisted (codec := reagent_codec) tr o /\
    OllamaOutput.Success o = false /\
    OllamaOutput.ErrorType o = "VALIDATION_ERROR" /\
    OllamaOutput.Error o = "ollama_url must be a valid HTTP/HTTPS URL" /\
    Contains (OllamaOutput.Error o) "ollama_url" = true /\
    OllamaOutput.Metadata o !! "missing_field" = Some (MString "ollama_url").
Proof.
  apply (bad_scheme_is_tagged_missing_ollama_url (codec := reagent_codec)
           (constant_host 0 0 0) bad_scheme_bytes
           (OllamaInput.set_Model "m1"
              (OllamaInput.set_Prompt "hello"
                 (OllamaInput.set_OllamaURL "ftp://h" OllamaInput.zero)))).
  - vm_compute. reflexivity.
  - discriminate.
  - discriminate.
  - discriminate.
  - reflexivity.
  - reflexivity.
Defined.

(** ** Further properties of [src/main.go] *)

Section MainGoMore.
Context {codec : Codec}.

(** X2. [main.go] is single-shot: a run issues no request at all, or exactly
    one, by POST and with the JSON content type; it reads at most once, from
    [/tmp/float_http_response], and only after the request was answered by
    0. *)
Theorem main_go_is_single_shot (h : Host) (inputBytes : string) :
  let tr := (run (MainGo.generate_ollama inputBytes) h).2 in
  (requests tr = [] /\ reads tr = []) \/
  exists u b s,
    requests tr = [(u, "POST", json_headers, b, s)] /\
    ((s <> 0%N /\ reads tr = []) \/
     (s = 0%N /\ exists s', reads tr = [("/tmp/float_http_response", s')])).
Proof.
  cbv zeta.
  cut (wp (MainGo.generate_ollama inputBytes) h []
         (fun _ tr =>
            (requests tr = [] /\ reads tr = []) \/
            exists u b s,
              requests tr = [(u, "POST", json_headers, b, s)] /\
              ((s <> 0%N /\ reads tr = []) \/
               (s = 0%N /\ exists s', reads tr = [("/tmp/float_http_response", s')])))).
  { by rewrite wp_run. }
  unfold MainGo.generate_ollama, MainGo.generate_ollama_via, MainGo.makeHttpRequest_via,
    MainGo.readHttpResponseFromFloat_via, MainGo.readActualOllamaResponse.
  wp_exec; status_facts.
  all: first
    [ left; trace_simpl; done
    | right; do 3 eexists; split; [trace_simpl; reflexivity|];
      first [ left; split; [assumption|trace_simpl; reflexivity]
            | right; split; [assumption|]; eexists; trace_simpl; reflexivity ] ].
Qed.

(** X3. [main.go] never contacts the server for an input it rejects: a run
    that issued a request decoded its input, found the model, the prompt and
    the endpoint non-empty, and encoded the request. *)
Theorem main_go_requests_only_for_valid_input (h : Host) (inputBytes : string) :
  requests (run (MainGo.generate_ollama inputBytes) h).2 <> [] ->
  exists input body,
    Unmarshal_OllamaInput inputBytes = Ok input /\
    OllamaInput.Model input <> "" /\
    OllamaInput.Prompt input <> "" /\
    OllamaInput.OllamaURL input <> "" /\
    Marshal_OllamaAPIRequest (apiRequestOf input) = Ok body.
Proof.
  cut (wp (MainGo.generate_ollama inputBytes) h []
         (fun _ tr => requests tr <> [] ->
            exists input body,
              Unmarshal_OllamaInput inputBytes = Ok input /\
              OllamaInput.Model input <> "" /\
              OllamaInput.Prompt input <> "" /\
              OllamaInput.OllamaURL input <> "" /\
              Marshal_OllamaAPIRequest (apiRequestOf input) = Ok body)).
  { by rewrite wp_run. }
  unfold MainGo.generate_ollama, MainGo.generate_ollama_via, MainGo.makeHttpRequest_via,
    MainGo.readHttpResponseFromFloat_via, MainGo.readActualOllamaResponse.
  wp_exec.
  all: try (trace_simpl; done).
  all: intros _; do 2 eexists; split; [reflexivity|];
    repeat match goal with
           | H : (_ =? "")%string = false |- _ => apply String.eqb_neq in H
           end; eauto.
Qed.

(** X1. [main.go] always reports a failure: whatever the input and the
    host, the run returns 1 after writing one output that says
    [success: false], has no response text, names one of the first four
    error types together with its stage, and carries no
    [processing_complete] entry.  [RESPONSE_PARSE_ERROR] is never
    reported. *)
Theorem main_go_always_reports_failure (h : Host) (inputBytes : string) :
  exists tr o stage,
    run (MainGo.generate_ollama inputBytes) h = (Returns 1%N, tr) /\
    persisted tr o /\
    OllamaOutput.Success o = false /\
    OllamaOutput.Response o = "" /\
    OllamaOutput.Error o <> "" /\
    (OllamaOutput.ErrorType o, stage) ∈ error_stages /\
    OllamaOutput.ErrorType o <> "RESPONSE_PARSE_ERROR" /\
    OllamaOutput.Metadata o !! "error_stage" = Some (MString stage) /\
    OllamaOutput.Metadata o !! "processing_complete" = None.
Proof.
  cut (wp (MainGo.generate_ollama inputBytes) h []
         (fun out tr => out = Returns 1%N /\
            exists o stage, persisted tr o /\
              OllamaOutput.Success o = false /\
              OllamaOutput.Response o = "" /\
              OllamaOutput.Error o <> "" /\
              (OllamaOutput.ErrorType o, stage) ∈ error_stages /\
              OllamaOutput.ErrorType o <> "RESPONSE_PARSE_ERROR" /\
              OllamaOutput.Metadata o !! "error_stage" = Some (MString stage) /\
              OllamaOutput.Metadata o !! "processing_complete" = None)).
  { rewrite wp_run. destruct (run _ h) as [out tr]. simpl.
    intros [-> (o & stage & Ho)]. eauto. }
  unfold MainGo.generate_ollama, MainGo.generate_ollama_via, MainGo.makeHttpRequest_via,
    MainGo.readHttpResponseFromFloat_via, MainGo.readActualOllamaResponse, persisted.
  wp_exec.
  all: split; [reflexivity|]; do 2 eexists; split;
    [do 2 eexists; trace_simpl; split; [reflexivity|eassumption]|];
    cbn [OllamaOutput.Success OllamaOutput.Response OllamaOutput.Error
         OllamaOutput.ErrorType OllamaOutput.Metadata failureLiteral];
    split; [reflexivity|]; split; [reflexivity|]; split; [nonempty|];
    split; [|split; [discriminate|split; [by simplify_map_eq|by simplify_map_eq]]];
    unfold error_stages; set_solver.
Qed.

(** X4. Input bytes that do not decode end the run at once, in [main.go]
    and in the validating variant alike: status 1, no request, no read, and
    one output with [error_type: INPUT_PARSE_ERROR], the decoder's message
    after [Invalid input JSON: ], and stage [input_parsing].  The two files
    differ in what else the output says: the validating variant sets [done]
    and [processing_complete: false], [main.go] neither. *)
Theorem undecodable_input_is_input_parse_error
    (readActual : M (result string)) (h : Host) (inputBytes : string) (err : Error) :
  Unmarshal_OllamaInput inputBytes = Err err ->
  (exists tr o,
     run (MainGo.generate_ollama_via readActual inputBytes) h = (Returns 1%N, tr) /\
     persisted tr o /\ requests tr = [] /\ reads tr = [] /\
     OllamaOutput.Success o = false /\
     OllamaOutput.ErrorType o = "INPUT_PARSE_ERROR" /\
     OllamaOutput.Error o = "Invalid input JSON: " +:+ err /\
     OllamaOutput.Done o = false /\
     OllamaOutput.Metadata o = {[ "error_stage" := MString "input_parsing" ]}) /\
  (exists tr o,
     run (Reagent.generate_ollama inputBytes) h = (Returns 1%N, tr) /\
     persisted tr o /\ requests tr = [] /\ reads tr = [] /\
     OllamaOutput.Success o = false /\
     OllamaOutput.ErrorType o = "INPUT_PARSE_ERROR" /\
     OllamaOutput.Error o = "Invalid input JSON: " +:+ err /\
     OllamaOutput.Done o = true /\
     OllamaOutput.Metadata o
     = <[ "processing_complete" := MBool false ]>
         {[ "error_stage" := MString "input_parsing" ]}).
Proof.
  intros Hdecode. split.
  - cut (wp (MainGo.generate_ollama_via readActual inputBytes) h []
           (fun out tr => out = Returns 1%N /\
              exists o, persisted tr o /\ requests tr = [] /\ reads tr = [] /\
                OllamaOutput.Success o = false /\
                OllamaOutput.ErrorType o = "INPUT_PARSE_ERROR" /\
                OllamaOutput.Error o = "Invalid input JSON: " +:+ err /\
                OllamaOutput.Done o = false /\
                OllamaOutput.Metadata o = {[ "error_stage" := MString "input_parsing" ]})).
    { rewrite wp_run. destruct (run _ h) as [out tr]. simpl.
      intros [-> (o & Ho)]. eauto. }
    unfold MainGo.generate_ollama_via, persisted. rewrite Hdecode.
    wp_exec. split; [reflexivity|]. eexists. split;
      [do 2 eexists; trace_simpl; split; [reflexivity|eassumption]|].
    trace_simpl. done.
  - cut (wp (Reagent.generate_ollama inputBytes) h []
           (fun out tr => out = Returns 1%N /\
              exists o, persisted tr o /\ requests tr = [] /\ reads tr = [] /\
                OllamaOutput.Success o = false /\
                OllamaOutput.ErrorType o = "INPUT_PARSE_ERROR" /\
                OllamaOutput.Error o = "Invalid input JSON: " +:+ err /\
                OllamaOutput.Done o = true /\
                OllamaOutput.Metadata o
                = <[ "processing_complete" := MBool false ]>
                    {[ "error_stage" := MString "input_parsing" ]})).
    { rewrite wp_run. destruct (run _ h) as [out tr]. simpl.
      intros [-> (o & Ho)]. eauto. }
    unfold Reagent.generate_ollama, persisted. rewrite Hdecode.
    wp_exec. split; [reflexivity|]. eexists. split;
      [do 2 eexists; trace_simpl; split; [reflexivity|eassumption]|].
    trace_simpl. done.
Qed.


(** X7. An endpoint made of path separators only: [main.go] accepts it,
    strips all of it, and sends the request to the relative URL
    [/api/generate]; the validating variant rejects the same input with a
    validation error tagged [ollama_url] and sends nothing. *)
Theorem separator_only_endpoint
    (readActual : M (result string)) (h : Host) (inputBytes body : string)
    (input : OllamaInput.t) (k : nat) :
  Unmarshal_OllamaInput inputBytes = Ok input ->
  OllamaInput.Model input <> "" ->
  OllamaInput.Prompt input <> "" ->
  OllamaInput.OllamaURL input = slashes (S k) ->
  Marshal_OllamaAPIRequest (apiRequestOf input) = Ok body ->
  (exists status rest,
     requests (run (MainGo.generate_ollama_via readActual inputBytes) h).2
     = ("/api/generate", "POST", json_headers, body, status) :: rest) /\
  (exists tr o,
     run (Reagent.generate_ollama inputBytes) h = (Returns 1%N, tr) /\
     persisted tr o /\ requests tr = [] /\
     OllamaOutput.ErrorType o = "VALIDATION_ERROR" /\
     OllamaOutput.Error o = "ollama_url must be a valid HTTP/HTTPS URL" /\
     OllamaOutput.Metadata o !! "missing_field" = Some (MString "ollama_url")).
Proof.
  intros Hdecode Hmodel Hprompt Hurl Hbody.
  assert (TrimRight (slashes (S k)) "/" = "") as Htrim.
  { generalize (S k). intros n. induction n as [|n IH]; [done|]. simpl. by rewrite IH. }
  assert (OllamaInput.OllamaURL input <> "") as Hne by (by rewrite Hurl).
  split.
  - cut (wp (MainGo.generate_ollama_via readActual inputBytes) h []
           (fun _ tr => exists status rest,
              requests tr = ("/api/generate", "POST", json_headers, body, status) :: rest)).
    { by rewrite wp_run. }
    unfold MainGo.generate_ollama_via, MainGo.makeHttpRequest_via,
      MainGo.readHttpResponseFromFloat_via.
    rewrite Hdecode, apiRequestOf_set_OllamaURL, Hbody, !eqb_empty_false by done.
    cbn [OllamaInput.OllamaURL OllamaInput.set_OllamaURL]. rewrite Hurl, Htrim.
    wp_exec.
    1,2: do 2 eexists; trace_simpl; reflexivity.
    apply wp_any. intros [r|msg] evs; cbv beta iota; [wp_exec|].
    all: do 2 eexists; trace_simpl; reflexivity.
  - cut (wp (Reagent.generate_ollama inputBytes) h []
           (fun out tr => out = Returns 1%N /\
              exists o, persisted tr o /\ requests tr = [] /\
                OllamaOutput.ErrorType o = "VALIDATION_ERROR" /\
                OllamaOutput.Error o = "ollama_url must be a valid HTTP/HTTPS URL" /\
                OllamaOutput.Metadata o !! "missing_field" = Some (MString "ollama_url"))).
    { rewrite wp_run. destruct (run _ h) as [out tr]. simpl.
      intros [-> (o & Ho)]. eauto. }
    assert (Reagent.validateInput input = Some "ollama_url must be a valid HTTP/HTTPS URL")
      as Hinvalid.
    { unfold Reagent.validateInput. rewrite !eqb_empty_false by done. by rewrite Hurl. }
    unfold Reagent.generate_ollama, persisted. rewrite Hdecode, Hinvalid.
    wp_exec. split; [reflexivity|]. eexists. split;
      [do 2 eexists; trace_simpl; split; [reflexivity|eassumption]|].
    trace_simpl. repeat (split; [reflexivity|]). by vm_compute.
Qed.
End MainGoMore.

(** ** Further properties of the validating variant *)

Section ReagentMore.
Context {codec : Codec}.

Lemma validateInput_error_nonempty (input : OllamaInput.t) (err : Error) :
  Reagent.validateInput input = Some err -> err <> "".
Proof.
  unfold Reagent.validateInput. intros H.
  repeat case_match; simplify_eq; discriminate.
Qed.

Lemma tagMissingField_error_stage (err : Error) :
  Reagent.tagMissingField err {[ "error_stage" := MString "validation" ]} !! "error_stage"
  = Some (MString "validation").
Proof. unfold Reagent.tagMissingField. repeat case_match; by simplify_map_eq. Qed.

Lemma buildMetadata_lookup (input : OllamaInput.t) (n : Z) :
  Reagent.buildMetadata input n !! "processing_complete" = Some (MBool true) /\
  Reagent.buildMetadata input n !! "error_stage" = None /\
  Reagent.buildMetadata input n !! "ollama_url" = Some (MString (OllamaInput.OllamaURL input)) /\
  Reagent.buildMetadata input n !! "response_length" = Some (MInt n) /\
  Reagent.buildMetadata input n !! "input_prompt_length"
  = Some (MInt (Z.of_N (len (OllamaInput.Prompt input)))) /\
  Reagent.buildMetadata input n !! "stream_mode"
  = Some (MBool (default false (OllamaInput.Stream input))).
Proof.
  unfold Reagent.buildMetadata.
  destruct (negb _), (0 <? length (OllamaInput.Images input))%nat,
    (0 <? length (OllamaInput.Context input))%nat, (OllamaInput.Stream input);
    repeat split; by simplify_map_eq.
Qed.

(** X8. The output of the validating variant, whatever the input and the
    host: the run returns, having written once and read nothing; the output
    written says under [processing_complete] what it says under [success];
    a success output has no error text, type or stage, and the run returns 0
    exactly when its write was answered by 0; an error output has [done]
    set, no response text, a non-empty error text, one of the five error
    types under its stage, and the run returns 1. *)
Theorem reagent_output_invariant (h : Host) (inputBytes : string) :
  exists out tr o d s,
    run (Reagent.generate_ollama inputBytes) h = (out, tr) /\
    writes tr = [("output.json", d, s)] /\
    MarshalIndent_OllamaOutput o = Ok d /\
    reads tr = [] /\
    OllamaOutput.Metadata o !! "processing_complete"
    = Some (MBool (OllamaOutput.Success o)) /\
    ((OllamaOutput.Success o = true /\
      OllamaOutput.Error o = "" /\ OllamaOutput.ErrorType o = "" /\
      OllamaOutput.Metadata o !! "error_stage" = None /\
      out = Returns (if (s =? 0)%N then 0%N else 1%N))
     \/
     (OllamaOutput.Success o = false /\
      OllamaOutput.Done o = true /\
      OllamaOutput.Response o = "" /\
      OllamaOutput.Error o <> "" /\
      (exists stage,
         (OllamaOutput.ErrorType o, stage) ∈ error_stages /\
         OllamaOutput.Metadata o !! "error_stage" = Some (MString stage)) /\
      out = Returns 1%N)).
Proof.
  cut (wp (Reagent.generate_ollama inputBytes) h []
         (fun out tr => exists o d s,
            writes tr = [("output.json", d, s)] /\
            MarshalIndent_OllamaOutput o = Ok d /\
            reads tr = [] /\
            OllamaOutput.Metadata o !! "processing_complete"
            = Some (MBool (OllamaOutput.Success o)) /\
            ((OllamaOutput.Success o = true /\
              OllamaOutput.Error o = "" /\ OllamaOutput.ErrorType o = "" /\
              OllamaOutput.Metadata o !! "error_stage" = None /\
              out = Returns (if (s =? 0)%N then 0%N else 1%N))
             \/
             (OllamaOutput.Success o = false /\
              OllamaOutput.Done o = true /\
              OllamaOutput.Response o = "" /\
              OllamaOutput.Error o <> "" /\
              (exists stage,
                 (OllamaOutput.ErrorType o, stage) ∈ error_stages /\
                 OllamaOutput.Metadata o !! "error_stage" = Some (MString stage)) /\
              out = Returns 1%N)))).
  { rewrite wp_run. destruct (run _ h) as [out tr]. simpl.
    intros (o & d & s & Ho). by exists out, tr, o, d, s. }
  unfold Reagent.generate_ollama, Reagent.makeHttpRequest.
  wp_exec.
  all: do 3 eexists; split; [trace_simpl; reflexivity|]; split; [eassumption|];
    split; [trace_simpl; reflexivity|].
  all: cbn [OllamaOutput.Success OllamaOutput.Response OllamaOutput.Error OllamaOutput.Done
            OllamaOutput.ErrorType OllamaOutput.Metadata successLiteral
            Reagent.createErrorOutput].
  all: try (split; [by simplify_map_eq|]; right;
            do 3 (split; [reflexivity|]); split;
            [first [nonempty | by eapply validateInput_error_nonempty]|];
            split; [|reflexivity]; eexists; split;
            [|first [by simplify_map_eq
                    | rewrite lookup_insert_ne by done; apply tagMissingField_error_stage]];
            unfold error_stages; set_solver).
  all: split; [apply buildMetadata_lookup|]; left;
    do 3 (split; [reflexivity|]); split; [apply buildMetadata_lookup|].
  all: match goal with
       | H : (if (?s =? 0)%N then _ else _) = _ |- _ => destruct (s =? 0)%N; by simplify_eq
       end.
Qed.

(** X9. The validating variant is single-shot and never reads: a run issues
    no request, or exactly one, by POST and with the JSON content type; no
    read is ever made, also after a request answered by 0. *)
Theorem reagent_is_single_shot_and_never_reads (h : Host) (inputBytes : string) :
  let tr := (run (Reagent.generate_ollama inputBytes) h).2 in
  reads tr = [] /\
  (requests tr = [] \/ exists u b s, requests tr = [(u, "POST", json_headers, b, s)]).
Proof.
  cbv zeta.
  cut (wp (Reagent.generate_ollama inputBytes) h []
         (fun _ tr =>
            reads tr = [] /\
            (requests tr = [] \/
             exists u b s, requests tr = [(u, "POST", json_headers, b, s)]))).
  { by rewrite wp_run. }
  unfold Reagent.generate_ollama, Reagent.makeHttpRequest.
  wp_exec.
  all: split; [trace_simpl; reflexivity|].
  all: first [ left; trace_simpl; reflexivity
             | right; do 3 eexists; trace_simpl; reflexivity ].
Qed.

Lemma apiRequestOf_stream_defaulted (u : string) (input : OllamaInput.t) :
  apiRequestOf
    (match OllamaInput.Stream (OllamaInput.set_OllamaURL u input) with
     | None => OllamaInput.set_Stream (Some false) (OllamaInput.set_OllamaURL u input)
     | Some _ => OllamaInput.set_OllamaURL u input
     end)
  = apiRequestOf (stream_defaulted input).
Proof. destruct input as [? ? ? ? ? ? [b|] ? ? ? ? ? ?]; reflexivity. Qed.

(** X10. What the validating variant sends, read off a run: a request that
    was issued is the only one; its input decoded and passed [validateInput];
    its URL is the endpoint without trailing separators followed by
    [/api/generate]; and its body encodes the input's API fields with the
    stream flag made explicit, an absent flag being sent as [false]. *)
Theorem reagent_request_read_off_the_run
    (h : Host) (inputBytes u m hd b : string) (s : N)
    (rest : list (string * string * string * string * N)) :
  requests (run (Reagent.generate_ollama inputBytes) h).2 = (u, m, hd, b, s) :: rest ->
  exists input,
    Unmarshal_OllamaInput inputBytes = Ok input /\
    Reagent.validateInput input = None /\
    u = TrimRight (OllamaInput.OllamaURL input) "/" +:+ "/api/generate" /\
    m = "POST" /\ hd = json_headers /\ rest = [] /\
    Marshal_OllamaAPIRequest (apiRequestOf (stream_defaulted input)) = Ok b /\
    OllamaAPIRequest.Stream (apiRequestOf (stream_defaulted input))
    = Some (default false (OllamaInput.Stream input)).
Proof.
  cut (wp (Reagent.generate_ollama inputBytes) h []
         (fun _ tr => requests tr = (u, m, hd, b, s) :: rest ->
            exists input,
              Unmarshal_OllamaInput inputBytes = Ok input /\
              Reagent.validateInput input = None /\
              u = TrimRight (OllamaInput.OllamaURL input) "/" +:+ "/api/generate" /\
              m = "POST" /\ hd = json_headers /\ rest = [] /\
              Marshal_OllamaAPIRequest (apiRequestOf (stream_defaulted input)) = Ok b /\
              OllamaAPIRequest.Stream (apiRequestOf (stream_defaulted input))
              = Some (default false (OllamaInput.Stream input)))).
  { by rewrite wp_run. }
  unfold Reagent.generate_ollama, Reagent.makeHttpRequest.
  wp_exec.
  all: trace_simpl; intros Hreq; simplify_eq.
  all: match goal with
       | H : Marshal_OllamaAPIRequest _ = Ok _ |- _ =>
           rewrite apiRequestOf_stream_defaulted in H
       end.
  all: eexists; split; [reflexivity|]; split; [assumption|].
  all: split; [by destruct (OllamaInput.Stream _)|].
  all: done.
Qed.

(** X11. An input that decodes and passes [validateInput], and whose request
    encodes, is sent: the run issues exactly one request, to the endpoint
    without trailing separators followed by [/api/generate], by POST, with
    the JSON content type and the encoded request as its body. *)
Theorem reagent_valid_input_is_sent
    (h : Host) (inputBytes body : string) (input : OllamaInput.t) :
  Unmarshal_OllamaInput inputBytes = Ok input ->
  Reagent.validateInput input = None ->
  Marshal_OllamaAPIRequest (apiRequestOf (stream_defaulted input)) = Ok body ->
  exists s,
    requests (run (Reagent.generate_ollama inputBytes) h).2
    = [(TrimRight (OllamaInput.OllamaURL input) "/" +:+ "/api/generate", "POST",
        json_headers, body, s)].
Proof.
  intros Hdecode Hvalid Hbody.
  cut (wp (Reagent.generate_ollama inputBytes) h []
         (fun _ tr => exists s,
            requests tr
            = [(TrimRight (OllamaInput.OllamaURL input) "/" +:+ "/api/generate", "POST",
                json_headers, body, s)])).
  { by rewrite wp_run. }
  unfold Reagent.generate_ollama, Reagent.makeHttpRequest.
  rewrite Hdecode, Hvalid, apiRequestOf_stream_defaulted, Hbody.
  assert (forall i : OllamaInput.t,
            OllamaInput.OllamaURL
              (match OllamaInput.Stream i with
               | None => OllamaInput.set_Stream (Some false) i
               | Some _ => i
               end) = OllamaInput.OllamaURL i) as ->
    by (intros i; by destruct (OllamaInput.Stream i)).
  cbn [OllamaInput.OllamaURL OllamaInput.set_OllamaURL].
  wp_exec.
  all: eexists; trace_simpl; reflexivity.
Qed.

(** X12. A request answered by a nonzero status ends the run of the
    validating variant: it returns 1 and its one output is the error output
    of type [HTTP_REQUEST_ERROR] whose text ends in the status code in
    decimal and whose metadata name the URL the request was sent to. *)
Theorem reagent_request_failure
    (h : Host) (inputBytes u m hd b : string) (s : N)
    (rest : list (string * string * string * string * N))
    (out : Outcome N) (tr : list Event) :
  run (Reagent.generate_ollama inputBytes) h = (out, tr) ->
  requests tr = (u, m, hd, b, s) :: rest ->
  s <> 0%N ->
  out = Returns 1%N /\
  persisted tr
    (Reagent.createErrorOutput
       ("Failed to connect to Ollama server: HTTP request failed with status code: "
        +:+ dec s)
       "HTTP_REQUEST_ERROR"
       (Some (<[ "error_stage" := MString "http_request" ]>
                {[ "ollama_url" := MString u ]}))).
Proof.
  intros Hrun Hreq Hs. revert Hreq.
  cut (wp (Reagent.generate_ollama inputBytes) h []
         (fun out tr => requests tr = (u, m, hd, b, s) :: rest ->
            out = Returns 1%N /\
            persisted tr
              (Reagent.createErrorOutput
                 ("Failed to connect to Ollama server: HTTP request failed with status code: "
                  +:+ dec s)
                 "HTTP_REQUEST_ERROR"
                 (Some (<[ "error_stage" := MString "http_request" ]>
                          {[ "ollama_url" := MString u ]}))))).
  { rewrite wp_run, Hrun. done. }
  clear Hrun. unfold Reagent.generate_ollama, Reagent.makeHttpRequest, persisted.
  wp_exec; status_facts.
  all: trace_simpl; intros Hreq; simplify_eq.
  split; [reflexivity|]. do 2 eexists. trace_simpl. split; [reflexivity|eassumption].
Qed.

(** X13. In the validating variant the reply is made up, not received: after
    a request answered by 0 the text that is decoded is [made_up_reply],
    that is, [simulatedResponse] at the model read back from the body of the
    one request and at the time the host gives right after that request,
    whatever the server sent.  When it does not decode, the run returns 1
    with a [RESPONSE_PARSE_ERROR] output that carries that text; when it
    does, the success output is written, and the run returns 0 exactly when
    the write is answered by 0. *)
Theorem reagent_reply_is_made_up
    (h : Host) (inputBytes : string) (out : Outcome N) (tr : list Event) :
  run (Reagent.generate_ollama inputBytes) h = (out, tr) ->
  request_succeeded tr ->
  exists input u body,
    Unmarshal_OllamaInput inputBytes = Ok input /\
    requests tr = [(u, "POST", json_headers, body, 0%N)] /\
    made_up_reply h tr
    = Reagent.simulatedResponse (Reagent.extractModelFromRequest body)
        (time_now h (upto_request tr)) /\
    match Unmarshal_OllamaAPIResponse (made_up_reply h tr) with
    | Err err =>
        out = Returns 1%N /\
        persisted tr
          (Reagent.createErrorOutput ("Invalid response from Ollama server: " +:+ err)
             "RESPONSE_PARSE_ERROR"
             (Some (<[ "error_stage" := MString "response_parsing" ]>
                      {[ "raw_response" := MString (made_up_reply h tr) ]})))
    | Ok apiResponse =>
        exists md d s,
          writes tr = [("output.json", d, s)] /\
          MarshalIndent_OllamaOutput (successLiteral apiResponse md) = Ok d /\
          md !! "ollama_url"
          = Some (MString (TrimRight (OllamaInput.OllamaURL input) "/")) /\
          md !! "stream_mode" = Some (MBool (default false (OllamaInput.Stream input))) /\
          md !! "response_length"
          = Some (MInt (Z.of_N (len (OllamaAPIResponse.Response apiResponse)))) /\
          out = Returns (if (s =? 0)%N then 0%N else 1%N)
    end.
Proof.
  intros Hrun Hreq.
  pose proof (reagent_after_the_request h inputBytes out tr Hrun Hreq) as Hafter.
  assert (exists input u body,
            Unmarshal_OllamaInput inputBytes = Ok input /\
            requests tr = [(u, "POST", json_headers, body, 0%N)]) as (input & u & body & Hin & Hrequests).
  { revert Hreq. clear Hafter.
    cut (wp (Reagent.generate_ollama inputBytes) h []
           (fun _ tr => request_succeeded tr ->
              exists input u body,
                Unmarshal_OllamaInput inputBytes = Ok input /\
                requests tr = [(u, "POST", json_headers, body, 0%N)])).
    { rewrite wp_run, Hrun. done. }
    unfold Reagent.generate_ollama, Reagent.makeHttpRequest, request_succeeded.
    wp_exec; status_facts.
    all: intros (?&?&?&?&?&Hreq); revert Hreq; trace_simpl; intros Hreq; simplify_eq.
    all: do 3 eexists; split; reflexivity. }
  exists input, u, body. split; [exact Hin|]. split; [exact Hrequests|].
  split; [unfold made_up_reply; by rewrite Hrequests|].
  destruct (Unmarshal_OllamaAPIResponse (made_up_reply h tr)) as [apiResponse|err];
    [|exact Hafter].
  destruct Hafter as (input' & d & s & Hin' & Hw & Hd & Hout).
  rewrite Hin in Hin'. injection Hin' as <-.
  eexists _, d, s. split; [exact Hw|]. split; [exact Hd|].
  destruct (buildMetadata_lookup
              (stream_defaulted
                 (OllamaInput.set_OllamaURL (TrimRight (OllamaInput.OllamaURL input) "/")
                    input))
              (Z.of_N (len (OllamaAPIResponse.Response apiResponse))))
    as (_ & _ & Hu & Hn & _ & Hst).
  split; [exact Hu|]. split; [exact Hst|]. split; [exact Hn|exact Hout].
Qed.

(** X14. A validation error on an optional field names no field: for an
    input whose model, prompt and endpoint pass their checks, a failure of
    [validateInput] is one of the three messages on the system message, the
    temperature and [top_p], and the output written carries the stage and
    [processing_complete: false] but no [missing_field] entry. *)
Theorem limits_on_optional_fields_are_untagged
    (h : Host) (inputBytes : string) (input : OllamaInput.t) (err : Error) :
  Unmarshal_OllamaInput inputBytes = Ok input ->
  Reagent.validateInput input = Some err ->
  OllamaInput.Model input <> "" ->
  OllamaInput.Prompt input <> "" ->
  (len (OllamaInput.Prompt input) <= 32768)%N ->
  HasPrefix (OllamaInput.OllamaURL input) "http://" = true
  \/ HasPrefix (OllamaInput.OllamaURL input) "https://" = true ->
  err ∈ ["system message exceeds maximum length of 8192 characters";
         "temperature must be between 0 and 2"; "top_p must be between 0 and 1"] /\
  exists tr o,
    run (Reagent.generate_ollama inputBytes) h = (Returns 1%N, tr) /\
    persisted tr o /\
    OllamaOutput.ErrorType o = "VALIDATION_ERROR" /\
    OllamaOutput.Error o = err /\
    OllamaOutput.Metadata o !! "missing_field" = None /\
    OllamaOutput.Metadata o
    = <[ "processing_complete" := MBool false ]>
        {[ "error_stage" := MString "validation" ]}.
Proof.
  intros Hdecode Hinvalid Hmodel Hprompt Hlen Hscheme.
  assert (OllamaInput.OllamaURL input <> "") as Hurl.
  { intros Hu. rewrite Hu in Hscheme. by destruct Hscheme. }
  assert (err ∈ ["system message exceeds maximum length of 8192 characters";
                 "temperature must be between 0 and 2"; "top_p must be between 0 and 1"])
    as Herr.
  { revert Hinvalid. unfold Reagent.validateInput.
    rewrite !eqb_empty_false by done.
    replace (negb (HasPrefix (OllamaInput.OllamaURL input) "http://")
             && negb (HasPrefix (OllamaInput.OllamaURL input) "https://")) with false
      by (destruct Hscheme as [Hs | Hs]; rewrite Hs, ?andb_false_r; reflexivity).
    apply N.ltb_ge in Hlen. rewrite Hlen.
    destruct (negb _ && (8192 <? _)%N); [intros [= <-]; repeat constructor|].
    destruct (OllamaInput.Options input) as [opts|]; [|done].
    destruct (Reagent.temperature_out_of_range opts); [intros [= <-]; repeat constructor|].
    destruct (Reagent.top_p_out_of_range opts); [intros [= <-]; repeat constructor|done]. }
  split; [exact Herr|].
  destruct (reagent_validation_failure h inputBytes input err Hdecode Hinvalid)
    as (tr & Hrun & Hp); [by eapply validateInput_error_nonempty|].
  exists tr. eexists. split; [exact Hrun|]. split; [exact Hp|].
  split; [reflexivity|]. split; [reflexivity|].
  cbn [OllamaOutput.Metadata Reagent.createErrorOutput].
  repeat (apply elem_of_cons in Herr as [-> | Herr]; [by vm_compute|]).
  by apply elem_of_nil in Herr.
Qed.

Lemma validateInput_system_length (input : OllamaInput.t) (s : string) :
  Reagent.validateInput input = None ->
  Reagent.validateInput (with_System s input)
  = if (8192 <? len s)%N
    then Some "system message exceeds maximum length of 8192 characters" else None.
Proof.
  unfold Reagent.validateInput, with_System. destruct input; simpl.
  destruct (Model =? "")%string; [done|].
  destruct (Prompt =? "")%string; [done|].
  destruct (OllamaURL =? "")%string; [done|].
  destruct (negb (HasPrefix _ "http://") && negb (HasPrefix _ "https://")); [done|].
  destruct (32768 <? len Prompt)%N; [done|].
  destruct (negb (System =? "")%string && (8192 <? len System)%N); [done|].
  intros Hrest. rewrite Hrest.
  destruct (8192 <? len s)%N eqn:Hs.
  - destruct s; [done|]. reflexivity.
  - by rewrite andb_false_r.
Qed.

(** X15. The bound on the system message, at its boundary: in an input that
    passes validation, a system message of at most 8192 bytes in place of
    its own passes too, the empty one included, and one of more than 8192
    bytes fails with the message on the system message, whatever the other
    fields. *)
Theorem system_length_boundary (input : OllamaInput.t) (s : string) :
  Reagent.validateInput input = None ->
  ((len s <= 8192)%N -> Reagent.validateInput (with_System s input) = None) /\
  ((8192 < len s)%N ->
   Reagent.validateInput (with_System s input)
   = Some "system message exceeds maximum length of 8192 characters").
Proof.
  intros Hvalid. rewrite validateInput_system_length by done. split; intros Hlen.
  - apply N.ltb_ge in Hlen. by rewrite Hlen.
  - apply N.ltb_lt in Hlen. by rewrite Hlen.
Qed.
End ReagentMore.

(** ** The probing variant *)

Section ProbingFacts.
Context {codec : Codec}.

(** The loop of [readFloatFileContent], by induction on the paths left. *)
Lemma wp_probe (paths : list string) h past
    (Q : Outcome (result string) -> list Event -> Prop) :
  Forall (fun p => p <> "") paths ->
  (forall found evs,
     writes evs = [] -> requests evs = [] -> probed paths (reads evs) found ->
     Q (Returns (Err (if found then mechanism_error else no_location_error)))
       (past ++ evs)%list) ->
  wp (Probing.probe paths) h past Q.
Proof.
  intros Hpaths. revert past Q.
  induction Hpaths as [|p paths Hp Hpaths IH]; intros past Q HQ; simpl.
  - apply wp_ret. rewrite <- (app_nil_r past). by apply (HQ false []).
  - wp_step. wp_step. destruct (status =? 0)%N eqn:Hs.
    + unfold Probing.readFloatResponseContent. wp_exec.
      rewrite <- !app_assoc. apply (HQ true); [done..|].
      cbn [reads app probed]. by rewrite Hs.
    + apply IH. intros found evs Hw Hr Hprobed.
      rewrite <- app_assoc. apply (HQ found); [done..|].
      cbn [reads app probed]. by rewrite Hs.
Qed.

Lemma probed_length paths rs found : probed paths rs found -> length rs <= length paths.
Proof.
  revert rs. induction paths as [|p paths IH]; intros [|[q s] rs]; simpl; try done.
  intros [_ H]. destruct (s =? 0)%N.
  - destruct H as [-> _]. simpl. lia.
  - apply IH in H. lia.
Qed.

Lemma probed_paths paths rs found :
  probed paths rs found -> Forall (fun ps => ps.1 ∈ paths) rs.
Proof.
  revert rs. induction paths as [|p paths IH]; intros [|[q s] rs]; simpl; try done.
  intros [-> H]. constructor; [by left|].
  destruct (s =? 0)%N.
  - destruct H as [-> _]. constructor.
  - eapply Forall_impl; [by apply IH|]. intros ps Hps. by right.
Qed.

Lemma responsePaths_nonempty : Forall (fun p => p <> "") Probing.responsePaths.
Proof. repeat constructor; discriminate. Qed.

(** X16. The loop of [readFloatFileContent], for any list of non-empty
    paths: it reads the paths in order, goes on to the next path after a
    nonzero status, stops at the first path answered by 0, and returns an
    error in both cases, a different one; it reads nothing else, issues no
    request and writes nothing. *)
Theorem probe_reads_in_order (paths : list string) (h : Host) (past : list Event) :
  Forall (fun p => p <> "") paths ->
  exists (found : bool) evs,
    Probing.probe paths h past
    = (Returns (Err (if found then mechanism_error else no_location_error)), evs) /\
    probed paths (reads evs) found /\
    writes evs = [] /\ requests evs = [] /\
    length (reads evs) <= length paths.
Proof.
  intros Hpaths.
  cut (wp (Probing.probe paths) h past
         (fun o tr => exists (found : bool) evs,
            o = Returns (Err (if found then mechanism_error else no_location_error)) /\
            tr = (past ++ evs)%list /\
            probed paths (reads evs) found /\ writes evs = [] /\ requests evs = [])).
  { unfold wp. destruct (Probing.probe paths h past) as [o evs']. simpl.
    intros (found & evs & -> & Heq & Hp & Hw & Hr). apply app_inv_head in Heq as ->.
    exists found, evs. repeat split; try done. by eapply probed_length. }
  apply wp_probe; [done|]. intros found evs Hw Hr Hp. by exists found, evs.
Qed.
(** Execution of the entry point through the probing of the reply. *)
Ltac probe_exec :=
  unfold Probing.generate_ollama, Probing.makeHttpRequest,
    Probing.readHttpResponseFromFloat;
  wp_exec; status_facts;
  try (unfold Probing.readFloatFileContent; apply wp_probe;
       [apply responsePaths_nonempty|];
       intros found evs Hw Hr Hp; cbv beta iota zeta; wp_exec).

(** Projections of a trace through which a probe went. *)
Ltac probe_trace :=
  trace_simpl;
  repeat match goal with
         | H : writes _ = [] |- _ => rewrite H
         | H : requests _ = [] |- _ => rewrite H
         end;
  cbn [app].

(** X17. The probing variant always reports a failure, like [main.go]: the
    run returns 1 after writing one output with [success: false], one of
    the first four error types under its stage, and no
    [processing_complete] entry, also when every capability answers 0. *)
Theorem probing_always_reports_failure (h : Host) (inputBytes : string) :
  exists tr o stage,
    run (Probing.generate_ollama inputBytes) h = (Returns 1%N, tr) /\
    persisted tr o /\
    OllamaOutput.Success o = false /\
    OllamaOutput.Response o = "" /\
    OllamaOutput.Error o <> "" /\
    (OllamaOutput.ErrorType o, stage) ∈ error_stages /\
    OllamaOutput.ErrorType o <> "RESPONSE_PARSE_ERROR" /\
    OllamaOutput.Metadata o !! "error_stage" = Some (MString stage) /\
    OllamaOutput.Metadata o !! "processing_complete" = None.
Proof.
  cut (wp (Probing.generate_ollama inputBytes) h []
         (fun out tr => out = Returns 1%N /\
            exists o stage, persisted tr o /\
              OllamaOutput.Success o = false /\
              OllamaOutput.Response o = "" /\
              OllamaOutput.Error o <> "" /\
              (OllamaOutput.ErrorType o, stage) ∈ error_stages /\
              OllamaOutput.ErrorType o <> "RESPONSE_PARSE_ERROR" /\
              OllamaOutput.Metadata o !! "error_stage" = Some (MString stage) /\
              OllamaOutput.Metadata o !! "processing_complete" = None)).
  { rewrite wp_run. destruct (run _ h) as [out tr]. simpl.
    intros [-> (o & stage & Ho)]. eauto. }
  unfold persisted. probe_exec.
  all: split; [reflexivity|]; do 2 eexists; split;
    [do 2 eexists; probe_trace; split; [reflexivity|eassumption]|];
    cbn [OllamaOutput.Success OllamaOutput.Response OllamaOutput.Error
         OllamaOutput.ErrorType OllamaOutput.Metadata failureLiteral];
    split; [reflexivity|]; split; [reflexivity|]; split; [nonempty|];
    split; [|split; [discriminate|split; [by simplify_map_eq|by simplify_map_eq]]];
    unfold error_stages; repeat constructor.
Qed.
(** X18. The probing variant does retry a failed read on another path: when
    its first read, of [http_response.json], is answered by a nonzero status,
    it reads [/tmp/http_response] next.  When that fails too the run stops
    reading and reports the second status; when it is answered by 0 the four
    candidate paths are probed in turn and the error reported is the one the
    probe ended in. *)
Theorem probing_retries_a_failed_read
    (h : Host) (inputBytes : string) (out : Outcome N) (tr : list Event) :
  run (Probing.generate_ollama inputBytes) h = (out, tr) ->
  read_failed tr ->
  exists s1 s2 rest o,
    s1 <> 0%N /\
    reads tr = ("http_response.json", s1) :: ("/tmp/http_response", s2) :: rest /\
    persisted tr o /\
    OllamaOutput.ErrorType o = "HTTP_REQUEST_ERROR" /\
    (s2 <> 0%N ->
     rest = [] /\
     OllamaOutput.Error o
     = "Failed to connect to Ollama: failed to read response: "
       +:+ "failed to read HTTP response file: error code " +:+ dec s2) /\
    (s2 = 0%N ->
     exists found : bool,
       probed Probing.responsePaths rest found /\
       OllamaOutput.Error o
       = "Failed to connect to Ollama: failed to read response: "
         +:+ (if found then mechanism_error else no_location_error)).
Proof.
  intros Hrun.
  cut (wp (Probing.generate_ollama inputBytes) h []
         (fun _ tr => read_failed tr ->
            exists s1 s2 rest o,
              s1 <> 0%N /\
              reads tr = ("http_response.json", s1) :: ("/tmp/http_response", s2) :: rest /\
              persisted tr o /\
              OllamaOutput.ErrorType o = "HTTP_REQUEST_ERROR" /\
              (s2 <> 0%N ->
               rest = [] /\
               OllamaOutput.Error o
               = "Failed to connect to Ollama: failed to read response: "
                 +:+ "failed to read HTTP response file: error code " +:+ dec s2) /\
              (s2 = 0%N ->
               exists found : bool,
                 probed Probing.responsePaths rest found /\
                 OllamaOutput.Error o
                 = "Failed to connect to Ollama: failed to read response: "
                   +:+ (if found then mechanism_error else no_location_error)))).
  { rewrite wp_run, Hrun. done. }
  clear Hrun. unfold read_failed, persisted. probe_exec.
  all: intros (?&?&?&Hrd&Hne); revert Hrd; trace_simpl; intros Hrd; simplify_eq.
  all: do 4 eexists; split; [eassumption|]; split; [trace_simpl; reflexivity|];
    split; [do 2 eexists; probe_trace; split; [reflexivity|eassumption]|];
    split; [reflexivity|].
  all: split; intros Hs2; try done.
  exists found. rewrite !app_nil_r. split; [done|]. by destruct found.
Qed.

(** X19. The reads of the probing variant, whatever the input and the host:
    at most six, each of one of the four candidate paths, and none unless
    the one request of the run was answered by 0. *)
Theorem probing_read_budget (h : Host) (inputBytes : string) :
  let tr := (run (Probing.generate_ollama inputBytes) h).2 in
  length (reads tr) <= 6 /\
  Forall (fun ps => ps.1 ∈ Probing.responsePaths) (reads tr) /\
  (reads tr = [] \/ exists u b, requests tr = [(u, "POST", json_headers, b, 0%N)]).
Proof.
  cbv zeta.
  cut (wp (Probing.generate_ollama inputBytes) h []
         (fun _ tr =>
            length (reads tr) <= 6 /\
            Forall (fun ps => ps.1 ∈ Probing.responsePaths) (reads tr) /\
            (reads tr = [] \/
             exists u b, requests tr = [(u, "POST", json_headers, b, 0%N)]))).
  { by rewrite wp_run. }
  probe_exec.
  all: try (pose proof (probed_length _ _ _ Hp) as Hlen;
            pose proof (probed_paths _ _ _ Hp) as Hin; simpl in Hlen).
  all: subst.
  all: split; [trace_simpl; rewrite ?app_nil_r; simpl; lia|].
  all: split;
    [trace_simpl; rewrite ?app_nil_r;
     repeat first [ assumption | constructor ]|].
  all: first [ left; trace_simpl; reflexivity
             | right; do 2 eexists; probe_trace; reflexivity ].
Qed.
Lemma agree_refl {A : Type} (m : M A) h past : agree m m h past.
Proof. by intros _. Qed.

Lemma agree_bind {A B : Type} (m1 m2 : M A) (k1 k2 : A -> M B) h past :
  agree m1 m2 h past ->
  (forall a evs, agree (k1 a) (k2 a) h (past ++ evs)%list) ->
  agree (m1 ≫= k1) (m2 ≫= k2) h past.
Proof.
  unfold agree, mbind, M_bind. intros Hm Hk.
  destruct (m1 h past) as [[a|msg] evs] eqn:E1; simpl in *.
  - destruct (k1 a h (past ++ evs)%list) as [o1 evs1] eqn:E2. simpl.
    rewrite reads_app. intros Happ. apply app_eq_nil in Happ as [Hevs Hevs1].
    rewrite <- (Hm Hevs). specialize (Hk a evs). rewrite E2 in Hk. simpl in Hk.
    by rewrite <- (Hk Hevs1).
  - intros Hevs. by rewrite <- (Hm Hevs).
Qed.

(** The reply retrieval of [main.go] begins with a read. *)
Lemma main_go_retrieval_reads (readActual : M (result string)) h past :
  reads (MainGo.readHttpResponseFromFloat_via readActual h past).2 <> [].
Proof.
  cut (wp (MainGo.readHttpResponseFromFloat_via readActual) h past
         (fun _ tr => exists evs, tr = (past ++ evs)%list /\ reads evs <> [])).
  { unfold wp. intros (evs & Heq & Hne). by apply app_inv_head in Heq as ->. }
  unfold MainGo.readHttpResponseFromFloat_via.
  do 3 wp_step. apply wp_any. intros o evs.
  eexists. rewrite <- !app_assoc. split; [reflexivity|]. cbn [app reads]. discriminate.
Qed.

Ltac agree_step :=
  lazymatch goal with
  | |- agree ?m ?m _ _ => apply agree_refl
  | |- agree (match ?x with _ => _ end) (match ?x with _ => _ end) _ _ => destruct x
  | |- agree (if ?b then _ else _) (if ?b then _ else _) _ _ => destruct b
  | |- agree (MainGo.readHttpResponseFromFloat_via _) _ _ _ =>
      intros Hrd; by apply main_go_retrieval_reads in Hrd
  | |- agree (_ ≫= _) (_ ≫= _) _ _ => apply agree_bind; [|intros ? ?; cbv beta]
  end.

(** X20. The probing variant differs from [main.go] only in how it looks
    for the reply: on every input and host for which [main.go] reads
    nothing, that is, whenever the input is rejected or the request fails,
    the two entry points return the same status after the same events, log
    lines and output included. *)
Theorem probing_differs_from_main_go_only_in_reading (h : Host) (inputBytes : string) :
  reads (run (MainGo.generate_ollama inputBytes) h).2 = [] ->
  run (Probing.generate_ollama inputBytes) h = run (MainGo.generate_ollama inputBytes) h.
Proof.
  intros Hreads. symmetry. revert Hreads.
  change (agree (MainGo.generate_ollama inputBytes) (Probing.generate_ollama inputBytes) h []).
  unfold MainGo.generate_ollama, MainGo.generate_ollama_via, MainGo.makeHttpRequest_via,
    Probing.generate_ollama, Probing.makeHttpRequest.
  repeat agree_step.
Qed.
End ProbingFacts.

(** ** The defaulting variant *)

Section DefaultingFacts.
Context {codec : Codec} {icodec : Defaulting.InputCodec}.

(** Execution of the entry point of the defaulting variant. *)
Ltac defaulting_exec :=
  unfold Defaulting.generate_ollama, Defaulting.makeHttpRequest;
  repeat first
    [ wp_branch
    | wp_step
    | apply wp_addr0_bind;
      [eapply Defaulting.Marshal_Request_nonempty; eassumption|]; cbv beta iota zeta ];
  status_facts.

(** X21. The output of the defaulting variant, whatever the input and the
    host: the run returns, having written once, read nothing and issued at
    most one request, by POST and without headers.  A success output has no
    error text or type, says [processing_complete: true], and the run
    returns 0 exactly when its write was answered by 0; an error output has
    no response text, a non-empty error text, one of the five error types
    under its stage, no [processing_complete] entry, and the run returns
    1. *)
Theorem defaulting_output_invariant (h : Host) (inputBytes : string) :
  exists out tr o d s,
    run (Defaulting.generate_ollama inputBytes) h = (out, tr) /\
    writes tr = [("output.json", d, s)] /\
    MarshalIndent_OllamaOutput o = Ok d /\
    reads tr = [] /\
    (requests tr = [] \/ exists u b st, requests tr = [(u, "POST", "", b, st)]) /\
    ((OllamaOutput.Success o = true /\
      OllamaOutput.Error o = "" /\ OllamaOutput.ErrorType o = "" /\
      OllamaOutput.Metadata o !! "processing_complete" = Some (MBool true) /\
      OllamaOutput.Metadata o !! "error_stage" = None /\
      out = Returns (if (s =? 0)%N then 0%N else 1%N))
     \/
     (OllamaOutput.Success o = false /\
      OllamaOutput.Response o = "" /\
      OllamaOutput.Error o <> "" /\
      (exists stage,
         (OllamaOutput.ErrorType o, stage) ∈ error_stages /\
         OllamaOutput.Metadata o !! "error_stage" = Some (MString stage)) /\
      OllamaOutput.Metadata o !! "processing_complete" = None /\
      out = Returns 1%N)).
Proof.
  cut (wp (Defaulting.generate_ollama inputBytes) h []
         (fun out tr => exists o d s,
            writes tr = [("output.json", d, s)] /\
            MarshalIndent_OllamaOutput o = Ok d /\
            reads tr = [] /\
            (requests tr = [] \/ exists u b st, requests tr = [(u, "POST", "", b, st)]) /\
            ((OllamaOutput.Success o = true /\
              OllamaOutput.Error o = "" /\ OllamaOutput.ErrorType o = "" /\
              OllamaOutput.Metadata o !! "processing_complete" = Some (MBool true) /\
              OllamaOutput.Metadata o !! "error_stage" = None /\
              out = Returns (if (s =? 0)%N then 0%N else 1%N))
             \/
             (OllamaOutput.Success o = false /\
              OllamaOutput.Response o = "" /\
              OllamaOutput.Error o <> "" /\
              (exists stage,
                 (OllamaOutput.ErrorType o, stage) ∈ error_stages /\
                 OllamaOutput.Metadata o !! "error_stage" = Some (MString stage)) /\
              OllamaOutput.Metadata o !! "processing_complete" = None /\
              out = Returns 1%N)))).
  { rewrite wp_run. destruct (run _ h) as [out tr]. simpl.
    intros (o & d & s & Ho). by exists out, tr, o, d, s. }
  defaulting_exec.
  all: do 3 eexists; split; [trace_simpl; reflexivity|]; split; [eassumption|];
    split; [trace_simpl; reflexivity|];
    split; [first [ left; trace_simpl; reflexivity
                  | right; do 3 eexists; trace_simpl; reflexivity ]|].
  all: cbn [OllamaOutput.Success OllamaOutput.Response OllamaOutput.Error
            OllamaOutput.ErrorType OllamaOutput.Metadata successLiteral failureLiteral].
  all: try (right; do 2 (split; [reflexivity|]); split; [nonempty|];
            split; [eexists; split; [|by simplify_map_eq]; unfold error_stages;
                    repeat constructor|];
            split; [by simplify_map_eq|reflexivity]).
  all: left; do 3 (split; [reflexivity|]); do 2 (split; [by simplify_map_eq|]).
  all: match goal with
       | H : (if (?s =? 0)%N then _ else _) = _ |- _ => destruct (s =? 0)%N; by simplify_eq
       end.
Qed.

(** X22. What the defaulting variant sends: for an input that decodes, has a
    model and a prompt, and whose request encodes, the run issues exactly one
    request, by POST and without headers, with the encoded request as its
    body.  An absent or empty endpoint is no error here: the request then
    goes to [http://localhost:11434/api/generate]; a given endpoint is used
    without its trailing separators. *)
Theorem defaulting_request_of_valid_input
    (h : Host) (inputBytes body : string) (input : Defaulting.OllamaInput.t) :
  Defaulting.Unmarshal_Input inputBytes = Ok input ->
  Defaulting.OllamaInput.Model input <> "" ->
  Defaulting.OllamaInput.Prompt input <> "" ->
  Defaulting.Marshal_Request (Defaulting.apiRequestOf input) = Ok body ->
  (exists s,
     requests (run (Defaulting.generate_ollama inputBytes) h).2
     = [(TrimRight (endpoint_or_default input) "/" +:+ "/api/generate", "POST", "",
         body, s)]) /\
  (Defaulting.OllamaInput.OllamaURL input = "" ->
   TrimRight (endpoint_or_default input) "/" +:+ "/api/generate"
   = "http://localhost:11434/api/generate").
Proof.
  intros Hdecode Hmodel Hprompt Hbody. split.
  - cut (wp (Defaulting.generate_ollama inputBytes) h []
           (fun _ tr => exists s,
              requests tr
              = [(TrimRight (endpoint_or_default input) "/" +:+ "/api/generate", "POST", "",
                  body, s)])).
    { by rewrite wp_run. }
    unfold Defaulting.generate_ollama. rewrite Hdecode, !eqb_empty_false by done.
    unfold endpoint_or_default.
    destruct (Defaulting.OllamaInput.OllamaURL input =? "")%string eqn:Hurl.
    all: defaulting_exec.
    all: match goal with
         | H : Defaulting.Marshal_Request ?r = _ |- _ =>
             change r with (Defaulting.apiRequestOf input) in H; rewrite Hbody in H;
             simplify_eq
         end.
    all: eexists; trace_simpl; reflexivity.
  - intros Hurl. unfold endpoint_or_default. by rewrite Hurl.
Qed.

(** X23. In the defaulting variant the reply is a constant of the program:
    after a request answered by 0 the text that is decoded is
    [fixedResponse], whatever the server sent.  When it does not decode the
    run returns 1 with a [RESPONSE_PARSE_ERROR] output that carries it; when
    it does, the success output with the decoded fields is written, its
    metadata give the lengths, the endpoint used and the stream flag, and
    the run returns 0 exactly when the write is answered by 0. *)
Theorem defaulting_reply_is_constant
    (h : Host) (inputBytes : string) (out : Outcome N) (tr : list Event) :
  run (Defaulting.generate_ollama inputBytes) h = (out, tr) ->
  request_succeeded tr ->
  exists input,
    Defaulting.Unmarshal_Input inputBytes = Ok input /\
    match Unmarshal_OllamaAPIResponse Defaulting.fixedResponse with
    | Err err =>
        out = Returns 1%N /\
        persisted tr
          (failureLiteral ("Invalid response from Ollama: " +:+ err) "RESPONSE_PARSE_ERROR"
             (<[ "error_stage" := MString "response_parsing" ]>
                {[ "raw_response" := MString Defaulting.fixedResponse ]}))
    | Ok apiResponse =>
        exists d s,
          writes tr = [("output.json", d, s)] /\
          MarshalIndent_OllamaOutput
            (successLiteral apiResponse
               (<[ "input_prompt_length" :=
                     MInt (Z.of_N (len (Defaulting.OllamaInput.Prompt input))) ]>
               (<[ "response_length" :=
                     MInt (Z.of_N (len (OllamaAPIResponse.Response apiResponse))) ]>
               (<[ "ollama_url" := MString (TrimRight (endpoint_or_default input) "/") ]>
               (<[ "stream_mode" := MBool (Defaulting.OllamaInput.Stream input) ]>
                  {[ "processing_complete" := MBool true ]}))))) = Ok d /\
          out = Returns (if (s =? 0)%N then 0%N else 1%N)
    end.
Proof.
  intros Hrun.
  cut (wp (Defaulting.generate_ollama inputBytes) h []
         (fun out tr => request_succeeded tr ->
            exists input,
              Defaulting.Unmarshal_Input inputBytes = Ok input /\
              match Unmarshal_OllamaAPIResponse Defaulting.fixedResponse with
              | Err err =>
                  out = Returns 1%N /\
                  persisted tr
                    (failureLiteral ("Invalid response from Ollama: " +:+ err)
                       "RESPONSE_PARSE_ERROR"
                       (<[ "error_stage" := MString "response_parsing" ]>
                          {[ "raw_response" := MString Defaulting.fixedResponse ]}))
              | Ok apiResponse =>
                  exists d s,
                    writes tr = [("output.json", d, s)] /\
                    MarshalIndent_OllamaOutput
                      (successLiteral apiResponse
                         (<[ "input_prompt_length" :=
                               MInt (Z.of_N (len (Defaulting.OllamaInput.Prompt input))) ]>
                         (<[ "response_length" :=
                               MInt (Z.of_N (len (OllamaAPIResponse.Response apiResponse))) ]>
                         (<[ "ollama_url" :=
                               MString (TrimRight (endpoint_or_default input) "/") ]>
                         (<[ "stream_mode" := MBool (Defaulting.OllamaInput.Stream input) ]>
                            {[ "processing_complete" := MBool true ]}))))) = Ok d /\
                    out = Returns (if (s =? 0)%N then 0%N else 1%N)
              end)).
  { rewrite wp_run, Hrun. done. }
  clear Hrun. unfold persisted, request_succeeded, endpoint_or_default.
  defaulting_exec.
  all: intros (?&?&?&?&?&Hreq); revert Hreq; trace_simpl; intros Hreq; simplify_eq.
  all: eexists; split; [reflexivity|].
  all: try match goal with
           | H : Unmarshal_OllamaAPIResponse _ = _ |- _ => rewrite H
           end.
  all: try match goal with
           | H : (Defaulting.OllamaInput.OllamaURL _ =? "")%string = _ |- _ => rewrite H
           end.
  all: first
    [ split; [reflexivity|]; do 2 eexists; split; [reflexivity|eassumption]
    | do 2 eexists; split; [reflexivity|]; split; [eassumption|];
      match goal with
      | H : (if (?s =? 0)%N then _ else _) = _ |- _ => destruct (s =? 0)%N; by simplify_eq
      end ].
Qed.
End DefaultingFacts.

(** ** Helpers of the files, on their own *)

Section HelperFacts.
Context {codec : Codec}.

(** X25. The metadata of a success output of the validating variant: the
    five base entries are always there; [has_system_message] is there
    exactly when the system message is not empty, [image_count] exactly when
    there are images, [context_length] and [has_context] exactly when there
    is a context, each with the count it names; no error entry is ever
    there. *)
Theorem buildMetadata_entries (input : OllamaInput.t) (n : Z) :
  let md := Reagent.buildMetadata input n in
  md !! "input_prompt_length" = Some (MInt (Z.of_N (len (OllamaInput.Prompt input)))) /\
  md !! "response_length" = Some (MInt n) /\
  md !! "ollama_url" = Some (MString (OllamaInput.OllamaURL input)) /\
  md !! "stream_mode" = Some (MBool (default false (OllamaInput.Stream input))) /\
  md !! "processing_complete" = Some (MBool true) /\
  md !! "has_system_message"
  = (if (OllamaInput.System input =? "")%string then None else Some (MBool true)) /\
  md !! "image_count"
  = match OllamaInput.Images input with
    | [] => None
    | _ :: _ => Some (MInt (Z.of_nat (length (OllamaInput.Images input))))
    end /\
  md !! "context_length"
  = match OllamaInput.Context input with
    | [] => None
    | _ :: _ => Some (MInt (Z.of_nat (length (OllamaInput.Context input))))
    end /\
  md !! "has_context"
  = match OllamaInput.Context input with
    | [] => None
    | _ :: _ => Some (MBool true)
    end /\
  md !! "error_stage" = None /\ md !! "missing_field" = None.
Proof.
  cbv zeta. unfold Reagent.buildMetadata.
  destruct (OllamaInput.System input =? "")%string,
    (OllamaInput.Images input) as [|? ?], (OllamaInput.Context input) as [|? ?],
    (OllamaInput.Stream input) as [?|];
    cbn [negb length Nat.ltb Nat.leb default];
    repeat split; by simplify_map_eq.
Qed.
End HelperFacts.

(** ** The further properties at concrete inputs *)

(** X3 at scenario A. *)
Lemma main_go_requests_only_for_valid_input_witness :
  exists input body,
    Unmarshal_OllamaInput (Codec := main_codec) scenarioA_bytes = Ok input /\
    OllamaInput.Model input <> "" /\
    OllamaInput.Prompt input <> "" /\
    OllamaInput.OllamaURL input <> "" /\
    Marshal_OllamaAPIRequest (Codec := main_codec) (apiRequestOf input) = Ok body.
Proof.
  apply (main_go_requests_only_for_valid_input (codec := main_codec)
           (constant_host 0 0 0) scenarioA_bytes).
  vm_compute. discriminate.
Defined.

(** X4 at bytes that are not JSON. *)
Lemma undecodable_input_is_input_parse_error_witness :
  (exists tr o,
     run (MainGo.generate_ollama (codec := main_codec) not_json_bytes) (constant_host 0 0 0)
     = (Returns 1%N, tr) /\
     persisted (codec := main_codec) tr o /\ requests tr = [] /\ reads tr = [] /\
     OllamaOutput.Success o = false /\
     OllamaOutput.ErrorType o = "INPUT_PARSE_ERROR" /\
     OllamaOutput.Error o = "Invalid input JSON: " +:+ "invalid or truncated JSON input" /\
     OllamaOutput.Done o = false /\
     OllamaOutput.Metadata o = {[ "error_stage" := MString "input_parsing" ]}) /\
  (exists tr o,
     run (Reagent.generate_ollama (codec := main_codec) not_json_bytes) (constant_host 0 0 0)
     = (Returns 1%N, tr) /\
     persisted (codec := main_codec) tr o /\ requests tr = [] /\ reads tr = [] /\
     OllamaOutput.Success o = false /\
     OllamaOutput.ErrorType o = "INPUT_PARSE_ERROR" /\
     OllamaOutput.Error o = "Invalid input JSON: " +:+ "invalid or truncated JSON input" /\
     OllamaOutput.Done o = true /\
     OllamaOutput.Metadata o
     = <[ "processing_complete" := MBool false ]>
         {[ "error_stage" := MString "input_parsing" ]}).
Proof.
  apply (undecodable_input_is_input_parse_error (codec := main_codec)
           MainGo.readActualOllamaResponse (constant_host 0 0 0) not_json_bytes
           "invalid or truncated JSON input").
  vm_compute. reflexivity.
Defined.


(** X7 at an endpoint of two separators. *)
Lemma separator_only_endpoint_witness :
  (exists status rest,
     requests (run (MainGo.generate_ollama (codec := main_codec) separators_bytes)
                 (constant_host 0 0 0)).2
     = ("/api/generate", "POST", json_headers,
        "{" +:+ json_member "model" "m1" +:+ "," +:+ json_member "prompt" "hello" +:+ "}",
        status) :: rest) /\
  (exists tr o,
     run (Reagent.generate_ollama (codec := main_codec) separators_bytes)
       (constant_host 0 0 0) = (Returns 1%N, tr) /\
     persisted (codec := main_codec) tr o /\ requests tr = [] /\
     OllamaOutput.ErrorType o = "VALIDATION_ERROR" /\
     OllamaOutput.Error o = "ollama_url must be a valid HTTP/HTTPS URL" /\
     OllamaOutput.Metadata o !! "missing_field" = Some (MString "ollama_url")).
Proof.
  apply (separator_only_endpoint (codec := main_codec) MainGo.readActualOllamaResponse
           (constant_host 0 0 0) separators_bytes _
           (OllamaInput.set_Model "m1"
              (OllamaInput.set_Prompt "hello"
                 (OllamaInput.set_OllamaURL "//" OllamaInput.zero))) 1).
  - vm_compute. reflexivity.
  - discriminate.
  - discriminate.
  - reflexivity.
  - vm_compute. reflexivity.
Defined.

(** X10 at scenario A: the body sent carries the stream flag the input did
    not have. *)
Lemma reagent_request_read_off_the_run_witness :
  exists input,
    Unmarshal_OllamaInput (Codec := reagent_codec) scenarioA_bytes = Ok input /\
    Reagent.validateInput input = None /\
    "http://h/api/generate" = TrimRight (OllamaInput.OllamaURL input) "/" +:+ "/api/generate" /\
    "POST" = "POST" /\ json_headers = json_headers /\
    @nil (string * string * string * string * N) = [] /\
    Marshal_OllamaAPIRequest (Codec := reagent_codec) (apiRequestOf (stream_defaulted input))
    = Ok ("{" +:+ json_member "model" "m1" +:+ "," +:+ json_member "prompt" "hello" +:+ ","
              +:+ dq +:+ "stream" +:+ dq +:+ ":false}") /\
    OllamaAPIRequest.Stream (apiRequestOf (stream_defaulted input))
    = Some (default false (OllamaInput.Stream input)).
Proof.
  apply (reagent_request_read_off_the_run (codec := reagent_codec) (constant_host 0 0 0)
           scenarioA_bytes _ _ _ _ 0%N []).
  vm_compute. reflexivity.
Defined.

(** X11 at scenario A. *)
Lemma reagent_valid_input_is_sent_witness :
  exists s,
    requests (run (Reagent.generate_ollama (codec := reagent_codec) scenarioA_bytes)
                (constant_host 0 0 0)).2
    = [(TrimRight (OllamaInput.OllamaURL scenarioA_input) "/" +:+ "/api/generate", "POST",
        json_headers,
        "{" +:+ json_member "model" "m1" +:+ "," +:+ json_member "prompt" "hello" +:+ ","
            +:+ dq +:+ "stream" +:+ dq +:+ ":false}", s)].
Proof.
  apply (reagent_valid_input_is_sent (codec := reagent_codec) (constant_host 0 0 0)
           scenarioA_bytes _ scenarioA_input).
  - vm_compute. reflexivity.
  - vm_compute. reflexivity.
  - vm_compute. reflexivity.
Defined.

(** X12 at scenario A, with a host whose [issue_request] answers 7. *)
Lemma reagent_request_failure_witness :
  let r := run (Reagent.generate_ollama (codec := reagent_codec) scenarioA_bytes)
             (constant_host 7 0 0) in
  r.1 = Returns 1%N /\
  persisted (codec := reagent_codec) r.2
    (Reagent.createErrorOutput
       ("Failed to connect to Ollama server: HTTP request failed with status code: "
        +:+ dec 7)
       "HTTP_REQUEST_ERROR"
       (Some (<[ "error_stage" := MString "http_request" ]>
                {[ "ollama_url" := MString "http://h/api/generate" ]}))).
Proof.
  intros r.
  eapply (reagent_request_failure (codec := reagent_codec) (constant_host 7 0 0)
            scenarioA_bytes "http://h/api/generate" _ _ _ 7 [] r.1 r.2).
  - vm_compute. reflexivity.
  - vm_compute. reflexivity.
  - discriminate.
Defined.

(** X13 at scenario A, every capability answering 0: the model of the
    made-up reply is the one read back from the request. *)
Lemma reagent_reply_is_made_up_witness :
  let h := constant_host 0 0 0 in
  let r := run (Reagent.generate_ollama (codec := reagent_codec) scenarioA_bytes) h in
  exists input u body,
    Unmarshal_OllamaInput (Codec := reagent_codec) scenarioA_bytes = Ok input /\
    requests r.2 = [(u, "POST", json_headers, body, 0%N)] /\
    made_up_reply (codec := reagent_codec) h r.2
    = Reagent.simulatedResponse
        (Reagent.extractModelFromRequest (codec := reagent_codec) body)
        (time_now h (upto_request r.2)) /\
    match Unmarshal_OllamaAPIResponse (Codec := reagent_codec)
            (made_up_reply (codec := reagent_codec) h r.2) with
    | Err err =>
        r.1 = Returns 1%N /\
        persisted (codec := reagent_codec) r.2
          (Reagent.createErrorOutput ("Invalid response from Ollama server: " +:+ err)
             "RESPONSE_PARSE_ERROR"
             (Some (<[ "error_stage" := MString "response_parsing" ]>
                      {[ "raw_response" :=
                           MString (made_up_reply (codec := reagent_codec) h r.2) ]})))
    | Ok apiResponse =>
        exists md d s,
          writes r.2 = [("output.json", d, s)] /\
          MarshalIndent_OllamaOutput (Codec := reagent_codec) (successLiteral apiResponse md)
          = Ok d /\
          md !! "ollama_url"
          = Some (MString (TrimRight (OllamaInput.OllamaURL input) "/")) /\
          md !! "stream_mode" = Some (MBool (default false (OllamaInput.Stream input))) /\
          md !! "response_length"
          = Some (MInt (Z.of_N (len (OllamaAPIResponse.Response apiResponse)))) /\
          r.1 = Returns (if (s =? 0)%N then 0%N else 1%N)
    end.
Proof.
  intros h r.
  apply (reagent_reply_is_made_up (codec := reagent_codec) h scenarioA_bytes r.1 r.2).
  - vm_compute. reflexivity.
  - unfold request_succeeded. do 5 eexists. vm_compute. reflexivity.
Defined.

(** X14 at a temperature of 3. *)
Lemma limits_on_optional_fields_are_untagged_witness :
  "temperature must be between 0 and 2"
  ∈ ["system message exceeds maximum length of 8192 characters";
     "temperature must be between 0 and 2"; "top_p must be between 0 and 1"] /\
  exists tr o,
    run (Reagent.generate_ollama (codec := reagent_codec) hot_bytes) (constant_host 0 0 0)
    = (Returns 1%N, tr) /\
    persisted (codec := reagent_codec) tr o /\
    OllamaOutput.ErrorType o = "VALIDATION_ERROR" /\
    OllamaOutput.Error o = "temperature must be between 0 and 2" /\
    OllamaOutput.Metadata o !! "missing_field" = None /\
    OllamaOutput.Metadata o
    = <[ "processing_complete" := MBool false ]>
        {[ "error_stage" := MString "validation" ]}.
Proof.
  eapply (limits_on_optional_fields_are_untagged (codec := reagent_codec)
            (constant_host 0 0 0) hot_bytes).
  - vm_compute. reflexivity.
  - vm_compute. reflexivity.
  - discriminate.
  - discriminate.
  - vm_compute. discriminate.
  - left. reflexivity.
Defined.

(** X15 at scenario A, with system messages of 8192 and of 8193 bytes. *)
Lemma system_length_boundary_witness :
  Reagent.validateInput
    (with_System (replicate_byte (N.to_nat 8192) "s") scenarioA_input) = None
  /\
  Reagent.validateInput
    (with_System (replicate_byte (N.to_nat 8193) "s") scenarioA_input)
  = Some "system message exceeds maximum length of 8192 characters".
Proof.
  split.
  - apply (proj1 (system_length_boundary scenarioA_input
                    (replicate_byte (N.to_nat 8192) "s") eq_refl)).
    vm_compute. discriminate.
  - apply (proj2 (system_length_boundary scenarioA_input
                    (replicate_byte (N.to_nat 8193) "s") eq_refl)).
    vm_compute. reflexivity.
Defined.

(** X16 at the four candidate paths, with a host whose reads answer 7. *)
Lemma probe_reads_in_order_witness :
  exists (found : bool) evs,
    Probing.probe Probing.responsePaths (constant_host 0 7 0) []
    = (Returns (Err (if found then mechanism_error else no_location_error)), evs) /\
    probed Probing.responsePaths (reads evs) found /\
    writes evs = [] /\ requests evs = [] /\
    length (reads evs) <= length Probing.responsePaths.
Proof.
  apply (probe_reads_in_order Probing.responsePaths
           (constant_host 0 7 0) []).
  repeat constructor; discriminate.
Defined.

(** X18 at scenario A, with a host whose reads answer 7. *)
Lemma probing_retries_a_failed_read_witness :
  let r := run (Probing.generate_ollama (codec := main_codec) scenarioA_bytes)
             (constant_host 0 7 0) in
  exists s1 s2 rest o,
    s1 <> 0%N /\
    reads r.2 = ("http_response.json", s1) :: ("/tmp/http_response", s2) :: rest /\
    persisted (codec := main_codec) r.2 o /\
    OllamaOutput.ErrorType o = "HTTP_REQUEST_ERROR" /\
    (s2 <> 0%N ->
     rest = [] /\
     OllamaOutput.Error o
     = "Failed to connect to Ollama: failed to read response: "
       +:+ "failed to read HTTP response file: error code " +:+ dec s2) /\
    (s2 = 0%N ->
     exists found : bool,
       probed Probing.responsePaths rest found /\
       OllamaOutput.Error o
       = "Failed to connect to Ollama: failed to read response: "
         +:+ (if found then mechanism_error else no_location_error)).
Proof.
  intros r.
  apply (probing_retries_a_failed_read (codec := main_codec) (constant_host 0 7 0)
           scenarioA_bytes r.1 r.2).
  - vm_compute. reflexivity.
  - unfold read_failed. do 3 eexists. split; [vm_compute; reflexivity|discriminate].
Defined.

(** X20 at scenario A, with a host whose [issue_request] answers 7. *)
Lemma probing_differs_from_main_go_only_in_reading_witness :
  run (Probing.generate_ollama (codec := main_codec) scenarioA_bytes) (constant_host 7 0 0)
  = run (MainGo.generate_ollama (codec := main_codec) scenarioA_bytes) (constant_host 7 0 0).
Proof.
  apply (probing_differs_from_main_go_only_in_reading (codec := main_codec)
           (constant_host 7 0 0) scenarioA_bytes).
  vm_compute. reflexivity.
Defined.

(** X22 at scenario B, where the endpoint is missing. *)
Lemma defaulting_request_of_valid_input_witness :
  (exists s,
     requests (run (Defaulting.generate_ollama (codec := main_codec)
                      (icodec := Defaulting.json_codec) scenarioB_bytes)
                 (constant_host 0 0 0)).2
     = [(TrimRight (endpoint_or_default scenarioB_defaulting_input) "/" +:+ "/api/generate",
         "POST", "",
         "{" +:+ json_member "model" "m1" +:+ "," +:+ json_member "prompt" "hello" +:+ ","
             +:+ dq +:+ "stream" +:+ dq +:+ ":false}", s)]) /\
  (Defaulting.OllamaInput.OllamaURL scenarioB_defaulting_input = "" ->
   TrimRight (endpoint_or_default scenarioB_defaulting_input) "/" +:+ "/api/generate"
   = "http://localhost:11434/api/generate").
Proof.
  apply (defaulting_request_of_valid_input (codec := main_codec)
           (icodec := Defaulting.json_codec) (constant_host 0 0 0) scenarioB_bytes _
           scenarioB_defaulting_input).
  - vm_compute. reflexivity.
  - discriminate.
  - discriminate.
  - vm_compute. reflexivity.
Defined.

(** X23 at scenario A, every capability answering 0: the output is that of
    the constant reply. *)
Lemma defaulting_reply_is_constant_witness :
  let r := run (Defaulting.generate_ollama (codec := main_codec)
                  (icodec := Defaulting.json_codec) scenarioA_bytes)
             (constant_host 0 0 0) in
  exists input,
    Defaulting.Unmarshal_Input (InputCodec := Defaulting.json_codec) scenarioA_bytes
    = Ok input /\
    match Unmarshal_OllamaAPIResponse (Codec := main_codec) Defaulting.fixedResponse with
    | Err err =>
        r.1 = Returns 1%N /\
        persisted (codec := main_codec) r.2
          (failureLiteral ("Invalid response from Ollama: " +:+ err) "RESPONSE_PARSE_ERROR"
             (<[ "error_stage" := MString "response_parsing" ]>
                {[ "raw_response" := MString Defaulting.fixedResponse ]}))
    | Ok apiResponse =>
        exists d s,
          writes r.2 = [("output.json", d, s)] /\
          MarshalIndent_OllamaOutput (Codec := main_codec)
            (successLiteral apiResponse
               (<[ "input_prompt_length" :=
                     MInt (Z.of_N (len (Defaulting.OllamaInput.Prompt input))) ]>
               (<[ "response_length" :=
                     MInt (Z.of_N (len (OllamaAPIResponse.Response apiResponse))) ]>
               (<[ "ollama_url" := MString (TrimRight (endpoint_or_default input) "/") ]>
               (<[ "stream_mode" := MBool (Defaulting.OllamaInput.Stream input) ]>
                  {[ "processing_complete" := MBool true ]}))))) = Ok d /\
          r.1 = Returns (if (s =? 0)%N then 0%N else 1%N)
    end.
Proof.
  intros r.
  apply (defaulting_reply_is_constant (codec := main_codec)
           (icodec := Defaulting.json_codec) (constant_host 0 0 0) scenarioA_bytes r.1 r.2).
  - vm_compute. reflexivity.
  - unfold request_succeeded. do 5 eexists. vm_compute. reflexivity.
Defined.
